(** * appagenda backend: franchise scope, propagation and sales aggregation

    A shallow embedding of the access-scope, franchise-membership and
    sales-dashboard logic of the backend
    ([app/admin/routes_franquicias.py], [app/admin/routes_servicios.py],
    [app/clients_service/routes_clientes.py],
    [app/analytics/sales_dashboard.py]).

    The document store is modelled as lists of records in natural order:
    [find_one] returns the first matching document, [update_one] rewrites the
    first matching document, [update_many] rewrites all of them and reports
    how many really changed.  Handlers are state-passing computations over the
    store that either return a payload or raise an [HTTPException]. *)

From Stdlib Require Import String Ascii List ZArith QArith Lia Bool Arith DecimalString.
From Stdlib Require Import Sorted.
From Stdlib Require HexadecimalString HexadecimalN.
Import ListNotations.
Close Scope Q_scope.
Open Scope string_scope.

(* ===================================================================== *)
(** ** The document store *)
(* ===================================================================== *)

Module Mongo.

(** A field of a document that holds a string when it holds anything:
    the key can be missing, hold [None]/null, or hold a string. *)
Inductive field : Type :=
| Absent
| Null
| Str (s : string).

(** [doc.get(k)]: what Python sees of a field, a string or [None]. *)
Definition py_get (f : field) : option string :=
  match f with
  | Str s => Some s
  | _ => None
  end.

(** Python truthiness of a string-or-None value. *)
Definition truthy (v : option string) : bool :=
  match v with
  | Some s => negb (s =? "")
  | None => false
  end.

(** Python's [a or b] on string-or-None values. *)
Definition py_or (a b : option string) : option string :=
  if truthy a then a else b.

(** Python's [len] of a string: the number of its characters.  Strings are
    held as their UTF-8 bytes, and every byte except a continuation byte
    ([10xxxxxx], 128 to 191) starts a character. *)
Definition py_len (s : string) : nat :=
  length (filter (fun a => let n := nat_of_ascii a in
                           negb ((128 <=? n) && (n <=? 191))%nat)
                 (list_ascii_of_string s)).

(** How an f-string prints a string-or-None value. *)
Definition py_str (v : option string) : string :=
  match v with
  | Some s => s
  | None => "None"
  end.

(** The filter [{k: s}] for a string [s]. *)
Definition eq_str (f : field) (s : string) : bool :=
  match f with
  | Str t => t =? s
  | _ => false
  end.

(** The filter [{k: None}]: null or missing. *)
Definition is_null (f : field) : bool :=
  match f with
  | Str _ => false
  | _ => true
  end.

(** The filter [{k: {"$exists": False}}]. *)
Definition not_exists (f : field) : bool :=
  match f with
  | Absent => true
  | _ => false
  end.

Definition field_eqb (f g : field) : bool :=
  match f, g with
  | Absent, Absent => true
  | Null, Null => true
  | Str s, Str t => s =? t
  | _, _ => false
  end.

(** The filter [{k: v}] where [v] is what Python holds: a string or None. *)
Definition eq_value (f : field) (v : option string) : bool :=
  match v with
  | Some s => eq_str f s
  | None => is_null f
  end.

(** What [insert_one]/[$set] stores for a Python value. *)
Definition store (v : option string) : field :=
  match v with
  | Some s => Str s
  | None => Null
  end.

Section Collection.
Context {A : Type}.

Definition find_one (p : A -> bool) (c : list A) : option A := find p c.

Definition find_many (p : A -> bool) (c : list A) : list A := filter p c.

Definition count_documents (p : A -> bool) (c : list A) : nat :=
  length (filter p c).

(** [update_one]: the first document matching [p] is rewritten by [u]. *)
Fixpoint update_one (p : A -> bool) (u : A -> A) (c : list A) : list A :=
  match c with
  | [] => []
  | d :: c' => if p d then u d :: c' else d :: update_one p u c'
  end.

(** [update_many]: all documents matching [p] are rewritten by [u]. *)
Definition update_many (p : A -> bool) (u : A -> A) (c : list A) : list A :=
  map (fun d => if p d then u d else d) c.

(** [modified_count] of an [update_many]: matched documents that the
    update really changed. *)
Definition modified_count (eqb : A -> A -> bool)
           (p : A -> bool) (u : A -> A) (c : list A) : nat :=
  length (filter (fun d => p d && negb (eqb (u d) d)) c).

Definition insert_one (d : A) (c : list A) : list A := (c ++ [d])%list.
End Collection.

Set Warnings "-register-all".

(** *** ObjectIds

    A BSON [ObjectId] is a value of twelve bytes, held here as the number
    its bytes spell.  [str(oid)] prints it as 24 hexadecimal digits in
    lower case; [ObjectId(s)] reads a string of 24 hexadecimal digits of
    either case and raises on any other string. *)
Definition ObjectId : Type := N.

Definition hex_lower (a : ascii) : ascii :=
  let n := nat_of_ascii a in
  if ((65 <=? n) && (n <=? 70))%nat then ascii_of_nat (n + 32) else a.

Fixpoint lower_hex (s : string) : string :=
  match s with
  | EmptyString => EmptyString
  | String a r => String (hex_lower a) (lower_hex r)
  end.

(** [ObjectId(s)], [None] when it raises. *)
Definition object_id_of (s : string) : option ObjectId :=
  if (String.length s =? 24)%nat
  then option_map N.of_hex_uint
         (HexadecimalString.NilEmpty.uint_of_string (lower_hex s))
  else None.

Fixpoint leading_zeros (k : nat) (u : Hexadecimal.uint) : Hexadecimal.uint :=
  match k with
  | O => u
  | S k' => Hexadecimal.D0 (leading_zeros k' u)
  end.

(** [str(oid)] *)
Definition str_object_id (oid : ObjectId) : string :=
  let u := N.to_hex_uint oid in
  HexadecimalString.NilEmpty.string_of_uint
    (leading_zeros (24 - Hexadecimal.nb_digits u) u).

(** *** Filters

    The handlers build their filters as dictionaries at run time (and test
    them for emptiness), so filters are data here too. *)
Inductive query : Type :=
| QAll                                     (* [{}] *)
| QEq (k : string) (v : option string)     (* [{k: v}], [v] a string or None *)
| QBool (k : string) (b : bool)            (* [{k: True}] / [{k: False}] *)
| QNotExists (k : string)                  (* [{k: {"$exists": False}}] *)
| QRegex (k : string) (pattern : string)   (* [{k: {"$regex": p, "$options": "i"}}] *)
| QNeId (oid : ObjectId)                   (* [{"_id": {"$ne": oid}}] *)
| QAnd (qs : list query)                   (* [{"$and": [...]}], or several keys *)
| QOr (qs : list query).                   (* [{"$or": [...]}] *)

(** Python's [if query:] on a filter dictionary. *)
Definition query_nonempty (q : query) : bool :=
  match q with
  | QAll => false
  | _ => true
  end.

(** What a filter needs to read from a document; [doc_id] is its [_id]
    where the record of the document carries it. *)
Class Document (D : Type) : Type := {
  doc_str : D -> string -> field;
  doc_bool : D -> string -> option bool;
  doc_id : D -> option ObjectId
}.

Section Matching.
Context {D : Type} `{Document D}.
(** The store's case-insensitive [$regex] search: pattern, subject. *)
Variable regex_search_i : string -> string -> bool.

Fixpoint matches (q : query) (d : D) : bool :=
  match q with
  | QAll => true
  | QEq k v => eq_value (doc_str d k) v
  | QBool k b =>
      match doc_bool d k with
      | Some b' => Bool.eqb b' b
      | None => false
      end
  | QNotExists k => not_exists (doc_str d k)
  | QRegex k pattern =>
      match doc_str d k with
      | Str s => regex_search_i pattern s
      | _ => false
      end
  | QNeId oid =>
      match doc_id d with
      | Some i => negb (i =? oid)%N
      | None => true
      end
  | QAnd qs => forallb (fun q' => matches q' d) qs
  | QOr qs => existsb (fun q' => matches q' d) qs
  end.
End Matching.

End Mongo.
Import Mongo.

(** HTTP errors raised by the handlers. *)
Record HTTPException : Type := HTTP { status_code : nat; detail : string }.

Inductive Result (A : Type) : Type :=
| Ok (a : A)
| Raise (e : HTTPException).
Arguments Ok {A} a.
Arguments Raise {A} e.

(** *** Documents *)

Record Franquicia : Type := mkFranquicia {
  f_franquicia_id : string;
  f_nombre : string;
  f_sedes : option (list string)      (* the array [sedes]; the key may be missing *)
}.

Record Sede : Type := mkSede {
  s_sede_id : string;
  s_pais : string;
  s_franquicia_id : field
}.

Record Usuario : Type := mkUsuario {
  u_email : string;
  u_rol : string;
  u_sede_id : field;
  u_franquicia_id : field
}.

Record Cliente : Type := mkCliente {
  c_oid : ObjectId;                   (* [_id] *)
  c_cliente_id : field;
  c_nombre : string;
  c_correo : field;
  c_telefono : field;
  c_sede_id : field;
  c_franquicia_id : field
}.

Record Servicio : Type := mkServicio {
  sv_servicio_id : string;
  sv_nombre : string;
  sv_activo : bool;
  sv_sede_id : field;
  sv_franquicia_id : field
}.

(** The collections the handlers touch. *)
Record DB : Type := mkDB {
  collection_franquicia : list Franquicia;
  collection_locales : list Sede;
  collection_auth : list Usuario;
  collection_clients : list Cliente;
  collection_servicios : list Servicio
}.

(** The authenticated caller, as the session provider hands it over. *)
Record CurrentUser : Type := mkCurrentUser {
  rol : string;
  cu_email : string;
  cu_sede_id : option string;
  cu_franquicia_id : option string
}.

(** Library and framework services the handlers call: the store's regular
    expression engine, Python's [re.escape] and [str.strip], the identifier
    generator ([app.id_generator.generator.generar_id]: entity kind, site,
    current store) and the store's choice of a fresh [_id]. *)
Class Externals : Type := {
  regex_search_i : string -> string -> bool;
  re_escape : string -> string;
  py_strip : string -> string;
  generar_id : string -> option string -> DB -> string;
  new_object_id : DB -> ObjectId
}.

(** *** Handlers as state-passing computations that can raise *)

Definition Handler (A : Type) : Type := DB -> Result A * DB.

Definition ret {A} (a : A) : Handler A := fun db => (Ok a, db).

Definition raise {A} (code : nat) (msg : string) : Handler A :=
  fun db => (Raise (HTTP code msg), db).

Definition bind {A B} (m : Handler A) (k : A -> Handler B) : Handler B :=
  fun db =>
    match m db with
    | (Ok a, db') => k a db'
    | (Raise e, db') => (Raise e, db')
    end.

Definition read {A} (f : DB -> A) : Handler A := fun db => (Ok (f db), db).

Definition write (f : DB -> DB) : Handler unit := fun db => (Ok tt, f db).

Declare Scope handler_scope.
Delimit Scope handler_scope with handler.
Notation "x <- m ;; k" := (bind m (fun x => k))
  (at level 61, m at next level, right associativity) : handler_scope.
Notation "m ;;; k" := (bind m (fun _ => k))
  (at level 61, right associativity) : handler_scope.
Open Scope handler_scope.

(** [if cond: raise HTTPException(code, msg)] *)
Definition raise_if (cond : bool) (code : nat) (msg : string) : Handler unit :=
  if cond then raise code msg else ret tt.

Definition set_franquicias (fs : list Franquicia) (db : DB) : DB :=
  mkDB fs (collection_locales db) (collection_auth db)
       (collection_clients db) (collection_servicios db).

Definition set_locales (ls : list Sede) (db : DB) : DB :=
  mkDB (collection_franquicia db) ls (collection_auth db)
       (collection_clients db) (collection_servicios db).

Definition set_auth (us : list Usuario) (db : DB) : DB :=
  mkDB (collection_franquicia db) (collection_locales db) us
       (collection_clients db) (collection_servicios db).

Definition set_clients (cs : list Cliente) (db : DB) : DB :=
  mkDB (collection_franquicia db) (collection_locales db) (collection_auth db)
       cs (collection_servicios db).

(* ===================================================================== *)
(** ** Franchise membership: [routes_franquicias.py] *)
(* ===================================================================== *)

Module Franquicias.

Definition by_franquicia_id (fid : string) (f : Franquicia) : bool :=
  f_franquicia_id f =? fid.

Definition by_sede_id (sid : string) (s : Sede) : bool :=
  s_sede_id s =? sid.

Definition user_of_sede (sid : string) (u : Usuario) : bool :=
  eq_str (u_sede_id u) sid.

(** [franquicia.get("sedes", [])] *)
Definition get_sedes (f : Franquicia) : list string :=
  match f_sedes f with
  | Some l => l
  | None => []
  end.

Definition mem (x : string) (l : list string) : bool :=
  existsb (String.eqb x) l.

(** [{"$addToSet": {"sedes": sid}}] *)
Definition addToSet_sedes (sid : string) (f : Franquicia) : Franquicia :=
  mkFranquicia (f_franquicia_id f) (f_nombre f)
    (Some (if mem sid (get_sedes f) then get_sedes f
           else (get_sedes f ++ [sid])%list)).

(** [{"$pull": {"sedes": sid}}]: every occurrence goes; a missing array
    stays missing. *)
Definition pull_sedes (sid : string) (f : Franquicia) : Franquicia :=
  mkFranquicia (f_franquicia_id f) (f_nombre f)
    (option_map (filter (fun x => negb (x =? sid))) (f_sedes f)).

Definition sede_set_franquicia (v : field) (s : Sede) : Sede :=
  mkSede (s_sede_id s) (s_pais s) v.

Definition usuario_set_franquicia (v : field) (u : Usuario) : Usuario :=
  mkUsuario (u_email u) (u_rol u) (u_sede_id u) v.

Definition usuario_eqb (u v : Usuario) : bool :=
  (u_email u =? u_email v) && (u_rol u =? u_rol v)
  && field_eqb (u_sede_id u) (u_sede_id v)
  && field_eqb (u_franquicia_id u) (u_franquicia_id v).

Record Respuesta : Type := mkRespuesta {
  success : bool;
  msg : string;
  usuarios_actualizados : nat
}.

Definition msg_ya_pertenece (actual : string) : string :=
  "La sede ya pertenece a la franquicia '" ++ actual ++ "'. Desasígnala primero.".

Definition msg_asignada (sid fid : string) : string :=
  "Sede '" ++ sid ++ "' asignada a franquicia '" ++ fid ++ "'".

Definition msg_desasignada (sid fid : string) : string :=
  "Sede '" ++ sid ++ "' desasignada de franquicia '" ++ fid ++ "'".

(** [sede_franquicia_actual and sede_franquicia_actual != franquicia_id] *)
Definition en_otra_franquicia (actual : option string) (fid : string) : bool :=
  truthy actual
  && negb (match actual with Some a => a =? fid | None => false end).

Definition asignar_sede (franquicia_id : string) (body_sede_id : string)
           (current_user : CurrentUser) : Handler Respuesta :=
  raise_if (negb (rol current_user =? "super_admin"))
           403 "Solo super_admin puede asignar sedes" ;;;
  franquicia <- read (fun db =>
    find_one (by_franquicia_id franquicia_id) (collection_franquicia db)) ;;
  match franquicia with
  | None => raise 404 "Franquicia no encontrada"
  | Some _ =>
    sede <- read (fun db =>
      find_one (by_sede_id body_sede_id) (collection_locales db)) ;;
    match sede with
    | None => raise 404 ("Sede no encontrada: " ++ body_sede_id)
    | Some sede =>
      let sede_franquicia_actual := py_get (s_franquicia_id sede) in
      raise_if (en_otra_franquicia sede_franquicia_actual franquicia_id)
               400 (msg_ya_pertenece (py_str sede_franquicia_actual)) ;;;
      write (fun db => set_franquicias
        (update_one (by_franquicia_id franquicia_id)
                    (addToSet_sedes body_sede_id)
                    (collection_franquicia db)) db) ;;;
      write (fun db => set_locales
        (update_one (by_sede_id body_sede_id)
                    (sede_set_franquicia (Str franquicia_id))
                    (collection_locales db)) db) ;;;
      modified <- read (fun db =>
        modified_count usuario_eqb (user_of_sede body_sede_id)
                       (usuario_set_franquicia (Str franquicia_id))
                       (collection_auth db)) ;;
      write (fun db => set_auth
        (update_many (user_of_sede body_sede_id)
                     (usuario_set_franquicia (Str franquicia_id))
                     (collection_auth db)) db) ;;;
      ret (mkRespuesta true (msg_asignada body_sede_id franquicia_id) modified)
    end
  end.

Definition quitar_sede (franquicia_id : string) (sede_id : string)
           (current_user : CurrentUser) : Handler Respuesta :=
  raise_if (negb (rol current_user =? "super_admin"))
           403 "Solo super_admin puede desasignar sedes" ;;;
  franquicia <- read (fun db =>
    find_one (by_franquicia_id franquicia_id) (collection_franquicia db)) ;;
  match franquicia with
  | None => raise 404 "Franquicia no encontrada"
  | Some franquicia =>
    raise_if (negb (mem sede_id (get_sedes franquicia)))
             400 ("La sede '" ++ sede_id ++ "' no pertenece a esta franquicia") ;;;
    write (fun db => set_franquicias
      (update_one (by_franquicia_id franquicia_id)
                  (pull_sedes sede_id)
                  (collection_franquicia db)) db) ;;;
    write (fun db => set_locales
      (update_one (by_sede_id sede_id)
                  (sede_set_franquicia Absent)
                  (collection_locales db)) db) ;;;
    modified <- read (fun db =>
      modified_count usuario_eqb (user_of_sede sede_id)
                     (usuario_set_franquicia Absent)
                     (collection_auth db)) ;;
    write (fun db => set_auth
      (update_many (user_of_sede sede_id)
                   (usuario_set_franquicia Absent)
                   (collection_auth db)) db) ;;;
    ret (mkRespuesta true (msg_desasignada sede_id franquicia_id) modified)
  end.

End Franquicias.

(* ===================================================================== *)
(** ** Clients: [routes_clientes.py] *)
(* ===================================================================== *)

Module Clientes.

#[export] Instance cliente_document : Document Cliente := {|
  doc_str c k :=
    if k =? "cliente_id" then c_cliente_id c
    else if k =? "nombre" then Str (c_nombre c)
    else if k =? "correo" then c_correo c
    else if k =? "telefono" then c_telefono c
    else if k =? "sede_id" then c_sede_id c
    else if k =? "franquicia_id" then c_franquicia_id c
    else Absent;
  doc_bool _ _ := None;
  doc_id c := Some (c_oid c)
|}.

Definition in_list (x : string) (l : list string) : bool :=
  existsb (String.eqb x) l.

(** [cliente_to_dict]: a missing or empty [cliente_id] is filled with the
    document's [_id]. *)
Definition cliente_to_dict (c : Cliente) : Cliente :=
  if truthy (py_get (c_cliente_id c)) then c
  else mkCliente (c_oid c) (Str (str_object_id (c_oid c))) (c_nombre c)
                 (c_correo c)
                 (c_telefono c) (c_sede_id c) (c_franquicia_id c).

(** [_get_franquicia_id_de_sede] *)
Definition _get_franquicia_id_de_sede (sede_id : option string)
  : Handler (option string) :=
  if negb (truthy sede_id) then ret None
  else
    sede <- read (fun db =>
      find_one (fun s => eq_value (Str (s_sede_id s)) sede_id)
               (collection_locales db)) ;;
    match sede with
    | Some sede => ret (py_get (s_franquicia_id sede))
    | None => ret None
    end.

Section WithExternals.
Context {ext : Externals}.

Definition find_clients (q : query) (db : DB) : list Cliente :=
  find_many (matches regex_search_i q) (collection_clients db).

(** The base filter both listings build for [admin_sede] and [estilista]:
    the franchise of the caller's site when it has one, else the site. *)
Definition filtro_base (sede_id franquicia_id : option string) : query :=
  if truthy franquicia_id then QEq "franquicia_id" franquicia_id
  else QEq "sede_id" sede_id.

Definition listar_clientes (filtro : option string) (limite : nat)
           (current_user : CurrentUser) : Handler (list Cliente) :=
  raise_if (negb ((1 <=? limite)%nat && (limite <=? 500)%nat))
           422 "limite" ;;;
  let rol := rol current_user in
  raise_if (negb (in_list rol ["admin_sede"; "super_admin"; "estilista"]))
           403 "No autorizado" ;;;
  query <- (if in_list rol ["admin_sede"; "estilista"] then
              let sede_id := cu_sede_id current_user in
              franquicia_id <- _get_franquicia_id_de_sede sede_id ;;
              ret (filtro_base sede_id franquicia_id)
            else ret QAll) ;;
  let query :=
    match filtro with
    | Some f =>
      if truthy filtro then
        let filtro_condiciones :=
          [QRegex "nombre" f; QRegex "correo" f;
           QRegex "telefono" f; QRegex "cliente_id" f] in
        if query_nonempty query
        then QAnd [query; QOr filtro_condiciones]
        else QOr filtro_condiciones
      else query
    | None => query
    end in
  clientes <- read (fun db => firstn limite (find_clients query db)) ;;
  ret (map cliente_to_dict clientes).

(** [cliente_to_dict_ligero] *)
Record ClienteLigero : Type := mkLigero {
  l_id : string;
  l_cliente_id : option string;
  l_nombre : string;
  l_correo : option string;
  l_telefono : option string;
  l_sede_id : option string;
  l_franquicia_id : option string
}.

(** [doc.get(k, default)] *)
Definition get_default (f : field) (d : string) : option string :=
  match f with
  | Absent => Some d
  | Null => None
  | Str s => Some s
  end.

Definition cliente_to_dict_ligero (c : Cliente) : ClienteLigero :=
  mkLigero (str_object_id (c_oid c)) (get_default (c_cliente_id c) "")
           (c_nombre c)
           (get_default (c_correo c) "") (get_default (c_telefono c) "")
           (py_get (c_sede_id c)) (py_get (c_franquicia_id c)).

Record Metadata : Type := mkMetadata {
  total : nat;
  m_pagina : nat;
  m_limite : nat;
  total_paginas : nat;
  tiene_siguiente : bool;
  tiene_anterior : bool;
  rango_inicio : nat;
  rango_fin : nat
}.

Record ClientesPaginados : Type := mkPaginados {
  clientes : list ClienteLigero;
  metadata : Metadata
}.

(** [cursor.sort("nombre", 1)]: ascending by name; documents with equal
    names stay in natural order. *)
Fixpoint insert_by_nombre (c : Cliente) (l : list Cliente) : list Cliente :=
  match l with
  | [] => [c]
  | x :: l' =>
      if String.leb (c_nombre c) (c_nombre x) then c :: l
      else x :: insert_by_nombre c l'
  end.

Definition sort_by_nombre (l : list Cliente) : list Cliente :=
  fold_right insert_by_nombre [] l.

Definition string_of_nat (n : nat) : string :=
  NilZero.string_of_uint (Nat.to_uint n).

Definition busqueda_inteligente (filtro : option string) (query : Mongo.query)
  : Mongo.query :=
  match filtro with
  | Some f =>
    if truthy filtro then
      let filtro_escapado := re_escape (py_strip f) in
      if negb (truthy (Some filtro_escapado)) then query
      else
        let regex_inicio := "^" ++ filtro_escapado in
        let regex_contiene := filtro_escapado in
        let filtro_condiciones :=
          if (py_len filtro_escapado <=? 2)%nat then
            [QRegex "nombre" regex_inicio; QRegex "cliente_id" regex_inicio;
             QRegex "telefono" regex_inicio]
          else
            [QRegex "nombre" regex_inicio; QRegex "cliente_id" regex_inicio;
             QRegex "telefono" regex_inicio; QRegex "nombre" regex_contiene;
             QRegex "correo" regex_contiene] in
        if query_nonempty query
        then QAnd [query; QOr filtro_condiciones]
        else QOr filtro_condiciones
    else query
  | None => query
  end.

Definition listar_todos (filtro : option string) (limite pagina : nat)
           (current_user : CurrentUser) : Handler ClientesPaginados :=
  raise_if (negb ((1 <=? limite)%nat && (limite <=? 100)%nat)) 422 "limite" ;;;
  raise_if (negb (1 <=? pagina)%nat) 422 "pagina" ;;;
  let rol := rol current_user in
  raise_if (negb (in_list rol ["super_admin"; "admin_sede"; "estilista"]))
           403 "No tienes permisos para ver clientes" ;;;
  query <- (if in_list rol ["admin_sede"; "estilista"] then
              let sede_id := cu_sede_id current_user in
              raise_if (negb (truthy sede_id))
                       400 "Tu usuario no tiene sede asignada" ;;;
              sede_info <- read (fun db =>
                find_one (fun s => eq_value (Str (s_sede_id s)) sede_id)
                         (collection_locales db)) ;;
              let franquicia_id :=
                match sede_info with
                | Some s => py_get (s_franquicia_id s)
                | None => None
                end in
              ret (filtro_base sede_id franquicia_id)
            else ret QAll) ;;
  let query := busqueda_inteligente filtro query in
  total_clientes <- read (fun db =>
    if negb (truthy filtro) && negb (query_nonempty query)
       && (rol =? "super_admin")
    then length (collection_clients db)
    else count_documents (matches regex_search_i query) (collection_clients db)) ;;
  let skip := ((pagina - 1) * limite)%nat in
  let total_paginas :=
    if (0 <? total_clientes)%nat
    then ((total_clientes + limite - 1) / limite)%nat
    else 1%nat in
  raise_if ((total_paginas <? pagina)%nat && (0 <? total_paginas)%nat)
           404 ("Página " ++ string_of_nat pagina
                ++ " no existe. Total de páginas: " ++ string_of_nat total_paginas) ;;;
  clientes <- read (fun db =>
    firstn limite (firstn limite
      (skipn skip (sort_by_nombre (find_clients query db))))) ;;
  ret (mkPaginados
         (map cliente_to_dict_ligero clientes)
         (mkMetadata total_clientes pagina limite total_paginas
            (pagina <? total_paginas)%nat (1 <? pagina)%nat
            (match clientes with [] => 0 | _ => skip + 1 end)%nat
            (skip + length clientes)%nat)).

Definition verificar_duplicado_cliente
           (correo telefono exclude_id : option string)
  : Handler (option Cliente) :=
  if negb (truthy correo) && negb (truthy telefono) then ret None
  else
    let condiciones :=
      ((if truthy correo then [QEq "correo" correo] else [])
       ++ (if truthy telefono then [QEq "telefono" telefono] else []))%list in
    let query :=
      match exclude_id with
      | Some e =>
          if truthy exclude_id then
            match object_id_of e with
            | Some oid => QAnd [QOr condiciones; QNeId oid]
            | None => QOr condiciones
            end
          else QOr condiciones
      | None => QOr condiciones
      end in
    read (fun db =>
      find_one (matches regex_search_i query) (collection_clients db)).

(** Modelled from the spec: the request model [Cliente] of
    [app/clients_service/models.py] is not part of the sources; the handlers
    read a name, the contact fields (email, phone) and the owning site from
    it, each optional field being [None] when not supplied. *)
Record ClientePayload : Type := mkPayload {
  p_nombre : string;
  p_correo : option string;
  p_telefono : option string;
  p_sede_id : option string
}.

(** [.dict(exclude_none=True)]: a [None] leaves the key out. *)
Definition exclude_none (v : option string) : field :=
  match v with
  | Some s => Str s
  | None => Absent
  end.

Definition crear_cliente (cliente : ClientePayload)
           (current_user : CurrentUser) : Handler Cliente :=
  let rol := rol current_user in
  raise_if (negb (in_list rol ["admin_sede"; "admin_franquicia"; "super_admin"]))
           403 "No autorizado" ;;;
  let sede_autenticada := cu_sede_id current_user in
  let sede_objetivo := py_or sede_autenticada (p_sede_id cliente) in
  raise_if (negb (truthy sede_objetivo))
           400 "Debes seleccionar una sede para crear el cliente" ;;;
  sede_info <- read (fun db =>
    find_one (fun s => eq_value (Str (s_sede_id s)) sede_objetivo)
             (collection_locales db)) ;;
  match sede_info with
  | None => raise 400 ("Sede no encontrada: " ++ py_str sede_objetivo)
  | Some sede_info =>
    let franquicia_id := py_get (s_franquicia_id sede_info) in
    cliente_id <- read (generar_id "cliente" sede_objetivo) ;;
    oid <- read new_object_id ;;
    let data :=
      mkCliente oid (Str cliente_id) (p_nombre cliente)
                (exclude_none (p_correo cliente))
                (exclude_none (p_telefono cliente))
                (store sede_objetivo) (store franquicia_id) in
    write (fun db => set_clients (insert_one data (collection_clients db)) db) ;;;
    ret data
  end.

Definition option_eqb (a b : option string) : bool :=
  match a, b with
  | Some x, Some y => x =? y
  | None, None => true
  | _, _ => false
  end.

(** [{"$set": update_data}] with [update_data = data_update.dict(exclude_none=True)]. *)
Definition set_update_data (u : ClientePayload) (c : Cliente) : Cliente :=
  mkCliente (c_oid c) (c_cliente_id c) (p_nombre u)
            (match p_correo u with Some s => Str s | None => c_correo c end)
            (match p_telefono u with Some s => Str s | None => c_telefono c end)
            (match p_sede_id u with Some s => Str s | None => c_sede_id c end)
            (c_franquicia_id c).

(** The lookup shared by the single-client handlers: by [cliente_id], then
    by [_id] when the identifier parses as an ObjectId. *)
Definition buscar_cliente (id : string) : Handler (option Cliente) :=
  cliente <- read (fun db =>
    find_one (fun c => eq_str (c_cliente_id c) id) (collection_clients db)) ;;
  match cliente with
  | Some c => ret (Some c)
  | None =>
      match object_id_of id with
      | Some oid =>
          read (fun db =>
            find_one (fun c => (c_oid c =? oid)%N) (collection_clients db))
      | None => ret None
      end
  end.

Definition editar_cliente (id : string) (data_update : ClientePayload)
           (current_user : CurrentUser) : Handler string :=
  let rol := rol current_user in
  raise_if (negb (in_list rol ["admin_sede"; "super_admin"]))
           403 "No autorizado" ;;;
  cliente <- buscar_cliente id ;;
  match cliente with
  | None => raise 404 "Cliente no encontrado"
  | Some cliente =>
    (if rol =? "admin_sede" then
       let user_sede_id := cu_sede_id current_user in
       user_franquicia_id <- _get_franquicia_id_de_sede user_sede_id ;;
       let cliente_franquicia_id := py_get (c_franquicia_id cliente) in
       let tiene_acceso :=
         (truthy user_franquicia_id
          && option_eqb user_franquicia_id cliente_franquicia_id)
         || option_eqb (py_get (c_sede_id cliente)) user_sede_id in
       raise_if (negb tiene_acceso) 403 "No autorizado"
     else ret tt) ;;;
    existing <- verificar_duplicado_cliente
                  (p_correo data_update) (p_telefono data_update)
                  (Some (str_object_id (c_oid cliente))) ;;
    match existing with
    | Some existing =>
        let campo :=
          if option_eqb (p_correo data_update) (py_get (c_correo existing))
          then "correo" else "teléfono" in
        raise 400 ("Ya existe otro cliente con este " ++ campo)
    | None =>
        write (fun db => set_clients
          (update_one (fun c => (c_oid c =? c_oid cliente)%N)
                      (set_update_data data_update)
                      (collection_clients db)) db) ;;;
        ret "Cliente actualizado"
    end
  end.

End WithExternals.

End Clientes.

(* ===================================================================== *)
(** ** Services: [routes_servicios.py] *)
(* ===================================================================== *)

Module Servicios.

#[export] Instance servicio_document : Document Servicio := {|
  doc_str s k :=
    if k =? "servicio_id" then Str (sv_servicio_id s)
    else if k =? "nombre" then Str (sv_nombre s)
    else if k =? "sede_id" then sv_sede_id s
    else if k =? "franquicia_id" then sv_franquicia_id s
    else Absent;
  doc_bool s k := if k =? "activo" then Some (sv_activo s) else None;
  doc_id _ := None          (* no filter on services tests [_id] *)
|}.

Definition _get_franquicia_id_de_sede := Clientes._get_franquicia_id_de_sede.

Definition _build_sede_query (sede_id franquicia_id : option string) : query :=
  let condiciones :=
    [QNotExists "sede_id"; QEq "sede_id" None; QEq "sede_id" sede_id] in
  let condiciones :=
    if truthy franquicia_id
    then (condiciones ++ [QEq "franquicia_id" franquicia_id])%list
    else condiciones in
  QOr condiciones.

Section WithExternals.
Context {ext : Externals}.

Definition listar_servicios (activo : option bool)
           (current_user : CurrentUser) : Handler (list Servicio) :=
  query <- (if rol current_user =? "admin_sede" then
              let sede_id := cu_sede_id current_user in
              franquicia_id <-
                (if truthy (cu_franquicia_id current_user)
                 then ret (cu_franquicia_id current_user)
                 else _get_franquicia_id_de_sede sede_id) ;;
              let query := _build_sede_query sede_id franquicia_id in
              ret (match activo with
                   | Some a => QAnd [query; QBool "activo" a]
                   | None => query
                   end)
            else
              ret (match activo with
                   | Some a => QBool "activo" a
                   | None => QAll
                   end)) ;;
  read (fun db =>
    find_many (matches regex_search_i query) (collection_servicios db)).

End WithExternals.

End Servicios.

(* ===================================================================== *)
(** ** Sales dashboard: [sales_dashboard.py] *)
(* ===================================================================== *)

Module Dashboard.

(** *** Dates

    A [datetime] is a point on the proleptic Gregorian time line, counted in
    microseconds: ordinal day times the length of a day, plus the time of
    day.  A [timedelta] is a difference of two such points. *)
Definition datetime : Type := Z.

Definition DAY : Z := 86400000000.

(** [timedelta(days=n)] *)
Definition timedelta (n : Z) : Z := (n * DAY)%Z.

(** [delta.days]: whole days, rounded down. *)
Definition days (delta : Z) : Z := (delta / DAY)%Z.

Definition is_leap (y : Z) : bool :=
  ((y mod 4 =? 0) && (negb (y mod 100 =? 0) || (y mod 400 =? 0)))%Z.

Definition days_in_month (y m : Z) : Z :=
  if (m =? 2)%Z then (if is_leap y then 29 else 28)%Z
  else if ((m =? 4) || (m =? 6) || (m =? 9) || (m =? 11))%Z then 30%Z
  else 31%Z.

Definition days_before_year (y : Z) : Z :=
  let y' := (y - 1)%Z in
  (y' * 365 + y' / 4 - y' / 100 + y' / 400)%Z.

Definition days_before_month (y m : Z) : Z :=
  fold_left Z.add
    (map (days_in_month y) (map Z.of_nat (seq 1 (Z.to_nat (m - 1))))) 0%Z.

(** [date(y, m, d).toordinal()] *)
Definition ymd2ord (y m d : Z) : Z :=
  (days_before_year y + days_before_month y m + d)%Z.

(** [datetime(y, m, d, hh, mm, ss, us)] *)
Definition mk_datetime (y m d hh mm ss us : Z) : datetime :=
  (ymd2ord y m d * DAY + ((hh * 60 + mm) * 60 + ss) * 1000000 + us)%Z.

(** What [datetime.now()] returned. *)
Record Now : Type := mkNow {
  year : Z; month : Z; day : Z;
  hour : Z; minute : Z; second : Z; microsecond : Z
}.

(** *** [datetime.strptime(s, "%d-%m-%Y")]

    [_strptime] matches the string, from its start, against the regular
    expression of the format,

      [(?P<d>3[0-1]|[1-2]\d|0[1-9]|[1-9]| [1-9])-(?P<m>1[0-2]|0[1-9]|[1-9])-(?P<Y>\d\d\d\d)]

    the alternatives being tried from left to right.  It raises "does not
    match format" when nothing matches and "unconverted data remains" when
    the match ends before the string does; it converts the three groups with
    [int] and builds the date, which raises for the year 0 and for a day the
    month does not have.

    [\d] is any Unicode decimal digit, and [int] reads them all.  Which
    characters beyond ASCII are decimal digits is a table of the
    interpreter: [decimal_beyond_ascii] reads one of them off the front of a
    string (held as UTF-8 bytes) and gives its value and what follows. *)
Class Unicode : Type := {
  decimal_beyond_ascii : string -> option (Z * string)
}.

Inductive Strptime : Type :=
| Parsed (y m d : Z)
| NoMatch                      (* "... does not match format ..." *)
| Unconverted (rest : string)  (* "unconverted data remains: ..." *)
| OutOfRange (msg : string).

Definition digit (a : ascii) : option Z :=
  let n := nat_of_ascii a in
  if ((48 <=? n) && (n <=? 57))%nat then Some (Z.of_nat (n - 48)) else None.

(** Python's [pat in s] on strings. *)
Fixpoint py_in (pat s : string) : bool :=
  String.prefix pat s
  || match s with
     | String _ s' => py_in pat s'
     | EmptyString => false
     end.

Section Fechas.
Context {uni : Unicode}.

(** [\d] *)
Definition read_digit (s : string) : option (Z * string) :=
  match s with
  | String a r =>
      if (nat_of_ascii a <? 128)%nat
      then match digit a with
           | Some v => Some (v, r)
           | None => None
           end
      else decimal_beyond_ascii s
  | EmptyString => None
  end.

(** A class of ASCII digits, [[lo-hi]]. *)
Definition read_range (lo hi : Z) (s : string) : option (Z * string) :=
  match s with
  | String a r =>
      match digit a with
      | Some v => if ((lo <=? v) && (v <=? hi))%Z then Some (v, r) else None
      | None => None
      end
  | EmptyString => None
  end.

Definition read_char (c : ascii) (s : string) : option string :=
  match s with
  | String a r => if (a =? c)%char then Some r else None
  | EmptyString => None
  end.

(** Two items in sequence, their values combined. *)
Definition read_two (p q : string -> option (Z * string))
           (f : Z -> Z -> Z) (s : string) : option (Z * string) :=
  match p s with
  | Some (a, r) =>
      match q r with
      | Some (b, r') => Some (f a b, r')
      | None => None
      end
  | None => None
  end.

(** The alternatives of [%d], [%m] and the four digits of [%Y], each with
    the number [int] makes of the matched text. *)
Definition alternativas_d : list (string -> option (Z * string)) :=
  [read_two (read_range 3 3) (read_range 0 1) (fun a b => 10 * a + b)%Z;
   read_two (read_range 1 2) read_digit (fun a b => 10 * a + b)%Z;
   read_two (read_range 0 0) (read_range 1 9) (fun a b => 10 * a + b)%Z;
   read_range 1 9;
   fun s => match read_char " " s with
            | Some r => read_range 1 9 r
            | None => None
            end].

Definition alternativas_m : list (string -> option (Z * string)) :=
  [read_two (read_range 1 1) (read_range 0 2) (fun a b => 10 * a + b)%Z;
   read_two (read_range 0 0) (read_range 1 9) (fun a b => 10 * a + b)%Z;
   read_range 1 9].

Definition read_Y : string -> option (Z * string) :=
  read_two (read_two read_digit read_digit (fun a b => 10 * a + b)%Z)
           (read_two read_digit read_digit (fun a b => 10 * a + b)%Z)
           (fun a b => 100 * a + b)%Z.

(** The first alternative after which the rest of the expression, [k],
    matches. *)
Definition first_match {A B : Type}
           (alts : list (string -> option (A * string)))
           (k : A -> string -> option B) (s : string) : option B :=
  fold_right (fun p later =>
                match p s with
                | Some (a, r) =>
                    match k a r with
                    | Some b => Some b
                    | None => later
                    end
                | None => later
                end) None alts.

(** The match of the whole expression: day, month, year, and what is left
    of the string. *)
Definition match_formato (s : string) : option (Z * Z * Z * string) :=
  first_match alternativas_d
    (fun d r1 =>
       match read_char "-" r1 with
       | Some r2 =>
           first_match alternativas_m
             (fun m r3 =>
                match read_char "-" r3 with
                | Some r4 =>
                    match read_Y r4 with
                    | Some (y, rest) => Some (d, m, y, rest)
                    | None => None
                    end
                | None => None
                end) r2
       | None => None
       end) s.

Definition strptime (s : string) : Strptime :=
  match match_formato s with
  | None => NoMatch
  | Some (d, m, y, rest) =>
      if negb (rest =? "") then Unconverted rest
      else if (y =? 0)%Z then OutOfRange "year 0 is out of range"
      else if (days_in_month y m <? d)%Z
           then OutOfRange "day is out of range for month"
           else Parsed y m d
  end.

End Fechas.

(** A Python function that returns or raises [ValueError]. *)
Inductive Outcome (A : Type) : Type :=
| Return (a : A)
| ValueError (msg : string).
Arguments Return {A} a.
Arguments ValueError {A} msg.

Definition msg_formato : string :=
  "Formato de fecha inválido. Use DD-MM-YYYY (ej: 01-12-2024)".
Definition msg_inicio_posterior : string :=
  "La fecha de inicio no puede ser posterior a la fecha de fin".
Definition msg_rango_largo : string :=
  "El rango personalizado no puede superar 365 días".
Definition msg_custom_requiere : string :=
  "Para período 'custom' debe proporcionar 'start_date' y 'end_date' en formato DD-MM-YYYY".

(** What the handler of [ValueError] lets out for "unconverted data
    remains": the message itself, unless it holds the words the handler
    looks for. *)
Definition msg_sobrante (rest : string) : string :=
  let m := "unconverted data remains: " ++ rest in
  if py_in "does not match format" m then msg_formato else m.

Section Rango.
Context {uni : Unicode}.

Definition get_date_range (now : Now) (period : string)
           (start_date_custom end_date_custom : option string)
  : Outcome (datetime * datetime) :=
  let today := mk_datetime (year now) (month now) (day now) 23 59 59 999999 in
  let today_start := mk_datetime (year now) (month now) (day now) 0 0 0 0 in
  if period =? "custom" then
    match start_date_custom, end_date_custom with
    | Some s, Some e =>
      if negb (truthy start_date_custom) || negb (truthy end_date_custom)
      then ValueError msg_custom_requiere
      else
        match strptime s with
        | NoMatch => ValueError msg_formato
        | Unconverted rest => ValueError (msg_sobrante rest)
        | OutOfRange m => ValueError m
        | Parsed y m d =>
          let start := mk_datetime y m d 0 0 0 0 in
          match strptime e with
          | NoMatch => ValueError msg_formato
          | Unconverted rest => ValueError (msg_sobrante rest)
          | OutOfRange m => ValueError m
          | Parsed y' m' d' =>
            let end_ := mk_datetime y' m' d' 23 59 59 999999 in
            if (start >? end_)%Z then ValueError msg_inicio_posterior
            else
              let dias := (days (end_ - start) + 1)%Z in
              if (dias >? 365)%Z then ValueError msg_rango_largo
              else Return (start, end_)
          end
        end
    | _, _ => ValueError msg_custom_requiere
    end
  else if period =? "today" then Return (today_start, today)
  else if period =? "last_7_days" then
    Return ((today_start - timedelta 6)%Z, today)
  else if period =? "last_30_days" then
    Return ((today_start - timedelta 29)%Z, today)
  else if period =? "month" then
    Return (mk_datetime (year now) (month now) 1 0 0 0 0, today)
  else ValueError ("Período no soportado: " ++ period
         ++ ". Use: 'today', 'last_7_days', 'last_30_days', 'month', 'custom'").

End Rango.

(** *** Amounts

    Sale amounts are Python numbers.  The aggregation only adds them, tests
    their sign, divides a total by a count and rounds; it is stated over any
    number type with these operations. *)
Class Numeric (N : Type) : Type := {
  zero : N;
  add : N -> N -> N;
  positive : N -> bool;              (* [x > 0] *)
  is_zero : N -> bool;               (* [x == 0] *)
  round2 : N -> N;                   (* [round(x, 2)] *)
  div_count : N -> nat -> N;         (* [x / cantidad] *)
  is_zero_round2_zero : is_zero (round2 zero) = true
}.

(** Rounding a rational to [1/100], halves to the even neighbour. *)
Definition round2_Q (q : Q) : Q :=
  let n := (Qnum q * 100)%Z in
  let d := Zpos (Qden q) in
  let fl := (n / d)%Z in
  let r := (2 * (n mod d))%Z in
  let up := ((r >? d) || ((r =? d) && Z.odd fl))%Z in
  Qred (Qmake (if up then fl + 1 else fl)%Z 100).

(** Exact rational amounts. *)
#[export] Instance numeric_Q : Numeric Q := {|
  zero := 0%Q;
  add x y := Qred (x + y)%Q;
  positive x := (0 <? Qnum x)%Z;
  is_zero x := (Qnum x =? 0)%Z;
  round2 := round2_Q;
  div_count x n := Qred (x / inject_Z (Z.of_nat n))%Q;
  is_zero_round2_zero := eq_refl
|}.

(** The framework checks [start_date] and [end_date] against the pattern
    of the endpoint before the handler runs.  Whether [$] also matches just
    before a final newline (as in Python's [re]) or only at the end of the
    string depends on the engine of the validator in use. *)
Class Validador : Type := {
  dolar_admite_salto : bool
}.

Section Metricas.
Context {N : Type} `{Numeric N}.
Context {uni : Unicode} {val : Validador}.

(** *** Sales *)

Record Item : Type := mkItem {
  tipo : field;
  subtotal : option N
}.

Record Venta : Type := mkVenta {
  fecha_pago : datetime;
  v_sede_id : field;
  moneda : field;
  desglose_pagos : option (list (string * N));
  items : option (list Item)
}.

(** [get_ventas_periodo]: the sales paid inside the closed range, of one
    site when a site is given. *)
Definition get_ventas_periodo (start_date end_date : datetime)
           (sede_id : option string) (collection_sales : list Venta)
  : list Venta :=
  find_many
    (fun v =>
       (start_date <=? fecha_pago v)%Z && (fecha_pago v <=? end_date)%Z
       && (if truthy sede_id then eq_value (v_sede_id v) sede_id else true))
    collection_sales.

(** *** Dictionaries, in insertion order *)

Section Dict.
Context {K V : Type}.
Variable keqb : K -> K -> bool.

Fixpoint dict_get (k : K) (d : list (K * V)) : option V :=
  match d with
  | [] => None
  | (k', v) :: d' => if keqb k' k then Some v else dict_get k d'
  end.

Definition dict_has (k : K) (d : list (K * V)) : bool :=
  match dict_get k d with
  | Some _ => true
  | None => false
  end.

(** [d[k] = f(d[k])] for a key that is present. *)
Fixpoint dict_update (k : K) (f : V -> V) (d : list (K * V)) : list (K * V) :=
  match d with
  | [] => []
  | (k', v) :: d' =>
      if keqb k' k then (k', f v) :: d' else (k', v) :: dict_update k f d'
  end.

(** [del d[k]] *)
Fixpoint dict_del (k : K) (d : list (K * V)) : list (K * V) :=
  match d with
  | [] => []
  | (k', v) :: d' => if keqb k' k then d' else (k', v) :: dict_del k d'
  end.
End Dict.

(** [d.get(k, 0)] on a dictionary of amounts. *)
Definition get_amount (k : string) (d : list (string * N)) : N :=
  match dict_get String.eqb k d with
  | Some v => v
  | None => zero
  end.

Record Metricas : Type := mkMetricas {
  ventas_totales : N;
  cantidad_ventas : nat;
  ventas_servicios : N;
  ventas_productos : N;
  metodos_pago : list (string * N);
  ticket_promedio : option N          (* the key is added when averaging *)
}.

Definition metricas_iniciales : Metricas :=
  mkMetricas zero 0 zero zero
    [("efectivo", zero); ("transferencia", zero); ("tarjeta", zero);
     ("sin_pago", zero); ("otros", zero); ("addi", zero); ("giftcard", zero);
     ("link_de_pago", zero); ("tarjeta_credito", zero);
     ("tarjeta_debito", zero); ("abonos", zero)]
    None.

Definition metodos : list string :=
  ["efectivo"; "transferencia"; "tarjeta"; "tarjeta_credito";
   "tarjeta_debito"; "link_de_pago"; "giftcard"; "addi"; "abonos"; "otros"].

(** The dictionary key a sale is filed under: [venta.get("moneda", "COP")]. *)
Definition moneda_de (v : Venta) : option string :=
  Clientes.get_default (moneda v) "COP".

Definition get_desglose (v : Venta) : list (string * N) :=
  match desglose_pagos v with
  | Some d => d
  | None => []
  end.

(** One pass of the inner loop over the items of a sale. *)
Definition acumular_item (m : Metricas) (item : Item) : Metricas :=
  let tipo := Clientes.get_default (tipo item) "servicio" in
  let subtotal := match subtotal item with Some x => x | None => zero end in
  if Clientes.option_eqb tipo (Some "servicio") then
    mkMetricas (ventas_totales m) (cantidad_ventas m)
               (add (ventas_servicios m) subtotal) (ventas_productos m)
               (metodos_pago m) (ticket_promedio m)
  else if Clientes.option_eqb tipo (Some "producto") then
    mkMetricas (ventas_totales m) (cantidad_ventas m)
               (ventas_servicios m) (add (ventas_productos m) subtotal)
               (metodos_pago m) (ticket_promedio m)
  else m.

(** One pass of the inner loop over the payment methods. *)
Definition acumular_metodo (desglose : list (string * N))
           (mp : list (string * N)) (metodo : string) : list (string * N) :=
  let valor := get_amount metodo desglose in
  if positive valor
  then dict_update String.eqb metodo (fun x => add x valor) mp
  else mp.

(** What one sale adds to the bucket of its currency. *)
Definition acumular_venta (v : Venta) (m : Metricas) : Metricas :=
  let desglose := get_desglose v in
  let total_venta := get_amount "total" desglose in
  let m := mkMetricas (add (ventas_totales m) total_venta)
                      (cantidad_ventas m + 1)
                      (ventas_servicios m) (ventas_productos m)
                      (metodos_pago m) (ticket_promedio m) in
  let m := fold_left acumular_item
                     (match items v with Some l => l | None => [] end) m in
  mkMetricas (ventas_totales m) (cantidad_ventas m)
             (ventas_servicios m) (ventas_productos m)
             (fold_left (acumular_metodo desglose) metodos (metodos_pago m))
             (ticket_promedio m).

Definition moneda_eqb : option string -> option string -> bool :=
  Clientes.option_eqb.

(** The body of the loop over the sales. *)
Definition procesar_venta (metricas_por_moneda : list (option string * Metricas))
           (venta : Venta) : list (option string * Metricas) :=
  let moneda := moneda_de venta in
  let metricas_por_moneda :=
    if dict_has moneda_eqb moneda metricas_por_moneda
    then metricas_por_moneda
    else (metricas_por_moneda ++ [(moneda, metricas_iniciales)])%list in
  dict_update moneda_eqb moneda (acumular_venta venta) metricas_por_moneda.

(** The body of the second loop: average, rounding, and the one clean-up. *)
Definition promediar_y_redondear (datos : Metricas) : Metricas :=
  let cantidad := cantidad_ventas datos in
  let ticket :=
    if (0 <? cantidad)%nat
    then round2 (div_count (ventas_totales datos) cantidad)
    else zero in
  let mp := map (fun kv => (fst kv, round2 (snd kv))) (metodos_pago datos) in
  let mp :=
    if is_zero (get_amount "sin_pago" mp)
    then dict_del String.eqb "sin_pago" mp
    else mp in
  mkMetricas (round2 (ventas_totales datos)) cantidad
             (round2 (ventas_servicios datos))
             (round2 (ventas_productos datos))
             mp (Some ticket).

Definition calcular_metricas_financieras (ventas : list Venta)
  : list (option string * Metricas) :=
  let metricas_por_moneda := fold_left procesar_venta ventas [] in
  map (fun kv => (fst kv, promediar_y_redondear (snd kv))) metricas_por_moneda.

(** *** The dashboard endpoint

    [ventas_dashboard] up to the point where both periods have been fetched
    and aggregated: the role check, the site check of [admin_sede], the
    resolution of the window, the comparison window, the two queries and the
    two aggregations.  Growth figures, advisories and the shape of the
    response are built from these values and are not modelled. *)
Record Periodos : Type := mkPeriodos {
  start_date_dt : datetime;
  end_date_dt : datetime;
  dias_periodo : Z;
  start_anterior : datetime;
  end_anterior : datetime;
  sede_consultada : option string;
  ventas_actuales : list Venta;
  ventas_anteriores : list Venta;
  metricas_actuales : list (option string * Metricas);
  metricas_anteriores : list (option string * Metricas)
}.

(** The query pattern of [start_date] and [end_date]:
    [^\d{2}-\d{2}-\d{4}$]. *)
Definition fecha_pattern (s : string) : bool :=
  let d2 := read_two read_digit read_digit (fun a b => 10 * a + b)%Z in
  match d2 s with
  | Some (_, r1) =>
      match read_char "-" r1 with
      | Some r2 =>
          match d2 r2 with
          | Some (_, r3) =>
              match read_char "-" r3 with
              | Some r4 =>
                  match read_Y r4 with
                  | Some (_, rest) =>
                      (rest =? "")
                      || (dolar_admite_salto
                          && (rest =? String (ascii_of_nat 10) ""))
                  | None => false
                  end
              | None => false
              end
          | None => false
          end
      | None => false
      end
  | None => false
  end.

Definition pattern_ok (v : option string) : bool :=
  match v with
  | Some s => fecha_pattern s
  | None => true
  end.

Definition ventas_dashboard (now : Now) (period : string)
           (start_date end_date sede_id : option string)
           (current_user : CurrentUser) (collection_sales : list Venta)
  : Result Periodos :=
  if negb (pattern_ok start_date && pattern_ok end_date)
  then Raise (HTTP 422 "start_date / end_date")
  else
  let allowed_roles := ["admin_sede"; "admin_franquicia"; "super_admin"] in
  if negb (Clientes.in_list (rol current_user) allowed_roles)
  then Raise (HTTP 403 "No autorizado. Se requiere rol de administrador.")
  else
  let sede_gate : Result (option string) :=
    if rol current_user =? "admin_sede" then
      let user_sede_id := cu_sede_id current_user in
      if negb (truthy user_sede_id)
      then Raise (HTTP 403 "Usuario admin_sede sin sede asignada.")
      else if truthy sede_id && negb (Clientes.option_eqb sede_id user_sede_id)
      then Raise (HTTP 403 ("No puede ver ventas de otra sede. Solo: "
                            ++ py_str user_sede_id))
      else Ok user_sede_id
    else Ok sede_id in
  match sede_gate with
  | Raise e => Raise e
  | Ok sede_id =>
    match get_date_range now period start_date end_date with
    | ValueError e => Raise (HTTP 400 e)
    | Return (start_date_dt, end_date_dt) =>
      let dias_periodo := (days (end_date_dt - start_date_dt) + 1)%Z in
      let start_anterior := (start_date_dt - timedelta dias_periodo)%Z in
      let end_anterior := (start_date_dt - timedelta 1)%Z in
      let ventas_actuales :=
        get_ventas_periodo start_date_dt end_date_dt sede_id collection_sales in
      let ventas_anteriores :=
        get_ventas_periodo start_anterior end_anterior sede_id collection_sales in
      Ok (mkPeriodos start_date_dt end_date_dt dias_periodo
                     start_anterior end_anterior sede_id
                     ventas_actuales ventas_anteriores
                     (calcular_metricas_financieras ventas_actuales)
                     (calcular_metricas_financieras ventas_anteriores))
    end
  end.

End Metricas.

End Dashboard.

(* ===================================================================== *)
(** ** Franchises: create, read, delete ([routes_franquicias.py]) *)
(* ===================================================================== *)

Module FranquiciasAdmin.
Import Franquicias.

(** [delete_one]: the first document matching [p] is removed. *)
Fixpoint delete_one {A : Type} (p : A -> bool) (c : list A) : list A :=
  match c with
  | [] => []
  | d :: c' => if p d then c' else d :: delete_one p c'
  end.

(** Modelled from the spec: the request model [Franquicia] of
    [app/admin/models.py] is not part of the sources; a franchise is created
    from its name. *)
Record FranquiciaPayload : Type := mkFranquiciaPayload {
  fp_nombre : string
}.

(** The projection [obtener_franquicia] asks of the sites. *)
Record SedeDetalle : Type := mkSedeDetalle {
  sd_sede_id : string;
  sd_pais : string
}.

Record FranquiciaDetalle : Type := mkFranquiciaDetalle {
  fd_franquicia : Franquicia;
  sedes_detalle : list SedeDetalle
}.

Definition msg_no_eliminar (sedes_activas : nat) : string :=
  "No se puede eliminar: la franquicia tiene "
  ++ Clientes.string_of_nat sedes_activas
  ++ " sede(s) asignada(s). Desasígnalas primero.".

Section WithExternals.
Context {ext : Externals}.

Definition crear_franquicia (franquicia : FranquiciaPayload)
           (current_user : CurrentUser) : Handler Franquicia :=
  raise_if (negb (rol current_user =? "super_admin"))
           403 "Solo super_admin puede crear franquicias" ;;;
  franquicia_id <- read (generar_id "franquicia" None) ;;
  let data := mkFranquicia franquicia_id (fp_nombre franquicia) (Some []) in
  write (fun db => set_franquicias
    (insert_one data (collection_franquicia db)) db) ;;;
  ret data.

End WithExternals.

Definition listar_franquicias (current_user : CurrentUser)
  : Handler (list Franquicia) :=
  raise_if (negb (rol current_user =? "super_admin")) 403 "No autorizado" ;;;
  read collection_franquicia.

Definition obtener_franquicia (franquicia_id : string)
           (current_user : CurrentUser) : Handler FranquiciaDetalle :=
  raise_if (negb (rol current_user =? "super_admin")) 403 "No autorizado" ;;;
  franquicia <- read (fun db =>
    find_one (by_franquicia_id franquicia_id) (collection_franquicia db)) ;;
  match franquicia with
  | None => raise 404 "Franquicia no encontrada"
  | Some franquicia =>
    let sedes_ids := get_sedes franquicia in
    sedes_info <- read (fun db =>
      match sedes_ids with
      | [] => []
      | _ =>
        map (fun s => mkSedeDetalle (s_sede_id s) (s_pais s))
            (find_many (fun s => mem (s_sede_id s) sedes_ids)
                       (collection_locales db))
      end) ;;
    ret (mkFranquiciaDetalle franquicia sedes_info)
  end.

Definition eliminar_franquicia (franquicia_id : string)
           (current_user : CurrentUser) : Handler string :=
  raise_if (negb (rol current_user =? "super_admin"))
           403 "Solo super_admin puede eliminar franquicias" ;;;
  franquicia <- read (fun db =>
    find_one (by_franquicia_id franquicia_id) (collection_franquicia db)) ;;
  match franquicia with
  | None => raise 404 "Franquicia no encontrada"
  | Some franquicia =>
    let sedes_activas := length (get_sedes franquicia) in
    raise_if (0 <? sedes_activas)%nat 400 (msg_no_eliminar sedes_activas) ;;;
    write (fun db => set_franquicias
      (delete_one (by_franquicia_id franquicia_id)
                  (collection_franquicia db)) db) ;;;
    ret "Franquicia eliminada"
  end.

End FranquiciasAdmin.

(* ===================================================================== *)
(** ** Clients: single-client and per-site reads ([routes_clientes.py]) *)
(* ===================================================================== *)

Module ClientesAcceso.
Import Clientes.

Section WithExternals.
Context {ext : Externals}.

Definition obtener_cliente (id : string) (current_user : CurrentUser)
  : Handler Cliente :=
  let rol := rol current_user in
  let user_sede_id := cu_sede_id current_user in
  raise_if (negb (in_list rol ["admin_sede"; "super_admin"; "estilista"]))
           403 "No autorizado" ;;;
  cliente <- buscar_cliente id ;;
  match cliente with
  | None => raise 404 "Cliente no encontrado"
  | Some cliente =>
    (if in_list rol ["admin_sede"; "estilista"] then
       let cliente_franquicia_id := py_get (c_franquicia_id cliente) in
       user_franquicia_id <- _get_franquicia_id_de_sede user_sede_id ;;
       if truthy cliente_franquicia_id && truthy user_franquicia_id then
         raise_if (negb (option_eqb cliente_franquicia_id user_franquicia_id))
                  403 "No autorizado"
       else
         raise_if (truthy (py_get (c_sede_id cliente))
                   && negb (option_eqb (py_get (c_sede_id cliente))
                                       user_sede_id))
                  403 "No autorizado"
     else ret tt) ;;;
    ret (cliente_to_dict cliente)
  end.

Definition listar_por_id (id : string) (current_user : CurrentUser)
  : Handler (list Cliente) :=
  let rol := rol current_user in
  raise_if (negb (in_list rol ["super_admin"; "admin_sede"; "estilista"]))
           403 "No autorizado" ;;;
  raise_if (in_list rol ["admin_sede"; "estilista"]
            && negb (option_eqb (Some id) (cu_sede_id current_user)))
           403 "No tiene permisos para ver esos clientes" ;;;
  clientes <- read (fun db =>
    find_many (fun c => eq_str (c_sede_id c) id) (collection_clients db)) ;;
  ret (map cliente_to_dict clientes).

End WithExternals.

End ClientesAcceso.

(* ===================================================================== *)
(** ** Services: creation ([routes_servicios.py]) *)
(* ===================================================================== *)

Module ServiciosAdmin.
Import Servicios.

(** Modelled from the spec: the request model [ServicioAdmin] of
    [app/admin/models.py] is not part of the sources; of a service the
    handler reads the name and the two optional scope fields. *)
Record ServicioPayload : Type := mkServicioPayload {
  sp_nombre : string;
  sp_sede_id : option string;
  sp_franquicia_id : option string
}.

Record ServicioCreado : Type := mkServicioCreado {
  sc_servicio_id : string;
  sc_oid : string;
  sc_sede_id : option string;
  sc_franquicia_id : option string;
  alcance : string
}.

(** The scope label both [crear_servicio] and [validar_servicio_id]
    compute from the two scope fields. *)
Definition alcance_de (sede_id franquicia_id : option string) : string :=
  if truthy franquicia_id && negb (truthy sede_id) then "franquicia"
  else if truthy sede_id then "local"
  else "global".

Section WithExternals.
Context {ext : Externals}.

Definition crear_servicio (servicio : ServicioPayload)
           (current_user : CurrentUser) : Handler ServicioCreado :=
  raise_if (negb (Clientes.in_list (rol current_user)
                                   ["super_admin"; "admin_sede"]))
           403 "No autorizado para crear servicios" ;;;
  servicio_id <- read (generar_id "servicio" (cu_sede_id current_user)) ;;
  scope <- (if rol current_user =? "admin_sede" then
              let sede_id := cu_sede_id current_user in
              franquicia_id <- _get_franquicia_id_de_sede sede_id ;;
              ret (sede_id,
                   if truthy franquicia_id then franquicia_id
                   else sp_franquicia_id servicio)
            else
              ret (sp_sede_id servicio, sp_franquicia_id servicio)) ;;
  let data :=
    mkServicio servicio_id (sp_nombre servicio) true
               (store (fst scope)) (store (snd scope)) in
  oid <- read new_object_id ;;
  write (fun db =>
    mkDB (collection_franquicia db) (collection_locales db)
         (collection_auth db) (collection_clients db)
         (insert_one data (collection_servicios db))) ;;;
  ret (mkServicioCreado servicio_id (str_object_id oid) (fst scope) (snd scope)
                        (alcance_de (fst scope) (snd scope))).

End WithExternals.

End ServiciosAdmin.

(* ===================================================================== *)
(** ** Dashboard: advisories and the quality label ([sales_dashboard.py]) *)
(* ===================================================================== *)

Module DashboardAvisos.
Import Dashboard.

Record Advertencia : Type := mkAdvertencia {
  a_tipo : string;
  severidad : string;
  mensaje : string;
  recomendacion : string
}.

Definition string_of_Z (z : Z) : string :=
  NilZero.string_of_int (Z.to_int z).

(** The advisories [ventas_dashboard] attaches, from the number of sales of
    the current period and its length in days. *)
Definition advertencias (n_ventas : nat) (dias_periodo : Z)
  : list Advertencia :=
  ((if (n_ventas =? 0)%nat then
      [mkAdvertencia "SIN_VENTAS" "CRÍTICA"
         "No hay ventas registradas en este período"
         "Verifique que las ventas se estén registrando correctamente"]
    else if (n_ventas <? 5)%nat then
      [mkAdvertencia "POCAS_VENTAS" "ALTA"
         ("Solo " ++ Clientes.string_of_nat n_ventas ++ " ventas en el período")
         "Amplíe el período para análisis más estable"]
    else [])
   ++ (if (dias_periodo =? 1)%Z then
         [mkAdvertencia "PERÍODO_CORTO" "MEDIA"
            "Métricas de un día tienen alta variabilidad"
            "Use 'last_7_days' para tendencias confiables"]
       else [])
   ++ (if (dias_periodo >? 90)%Z then
         [mkAdvertencia "PERÍODO_LARGO" "BAJA"
            ("Período de " ++ string_of_Z dias_periodo
             ++ " días puede ocultar tendencias")
            "Considere dividir en períodos más cortos para mejor análisis"]
       else []))%list.

Definition calidad_datos (advertencias : list Advertencia) : string :=
  let severidades := map severidad advertencias in
  if Clientes.in_list "CRÍTICA" severidades then "SIN_DATOS"
  else if Clientes.in_list "ALTA" severidades then "BAJA"
  else if Clientes.in_list "MEDIA" severidades then "MEDIA"
  else "BUENA".

End DashboardAvisos.

(* ===================================================================== *)
(** ** Vocabulary of the statements *)
(* ===================================================================== *)

Module Props.
Import Franquicias.

(** A document carries no franchise tag: the key is missing or null. *)
Definition sin_franquicia (f : field) : Prop := f = Absent \/ f = Null.

(** The site [sid] as the store answers for it. *)
Definition sede_de (sid : string) (db : DB) : option Sede :=
  find_one (by_sede_id sid) (collection_locales db).

Definition franquicia_de (fid : string) (db : DB) : option Franquicia :=
  find_one (by_franquicia_id fid) (collection_franquicia db).

(** Number of user documents whose franchise tag differs between two
    states of the users collection (documents compared position by
    position). *)
Definition tags_cambiados (antes despues : list Usuario) : nat :=
  length (filter
            (fun p => negb (field_eqb (u_franquicia_id (fst p))
                                      (u_franquicia_id (snd p))))
            (combine antes despues)).

(** The store after the three writes of [asignar_sede]. *)
Definition db_asignada (fid sid : string) (db : DB) : DB :=
  mkDB (update_one (by_franquicia_id fid) (addToSet_sedes sid)
                   (collection_franquicia db))
       (update_one (by_sede_id sid) (sede_set_franquicia (Str fid))
                   (collection_locales db))
       (update_many (user_of_sede sid) (usuario_set_franquicia (Str fid))
                    (collection_auth db))
       (collection_clients db) (collection_servicios db).

(** The store after the three writes of [quitar_sede]. *)
Definition db_desasignada (fid sid : string) (db : DB) : DB :=
  mkDB (update_one (by_franquicia_id fid) (pull_sedes sid)
                   (collection_franquicia db))
       (update_one (by_sede_id sid) (sede_set_franquicia Absent)
                   (collection_locales db))
       (update_many (user_of_sede sid) (usuario_set_franquicia Absent)
                    (collection_auth db))
       (collection_clients db) (collection_servicios db).

(** [asignar_sede] went through: a success payload whose counter is the
    number of user documents whose franchise tag changed. *)
Definition asignada_con_conteo (fid sid : string) (cu : CurrentUser) (db : DB)
  : Prop :=
  exists r db',
    asignar_sede fid sid cu db = (Ok r, db')
    /\ success r = true
    /\ msg r = msg_asignada sid fid
    /\ usuarios_actualizados r
       = tags_cambiados (collection_auth db) (collection_auth db').

(** The scope filter as the specification words it for a caller bound to
    site [S] whose franchise is [F]: records with an absent or null scope
    field, records of site [S], records of franchise [F]. *)
Definition scope_union (S F : string) (c : Cliente) : bool :=
  is_null (c_sede_id c) || eq_str (c_sede_id c) S
  || eq_str (c_franquicia_id c) F.

(** What the listings select for such a caller: the franchise's clients. *)
Definition de_franquicia (F : string) (c : Cliente) : bool :=
  eq_str (c_franquicia_id c) F.

(** Another client already holds the e-mail or the phone of the payload. *)
Definition contacto_duplicado (u : Clientes.ClientePayload) (c : Cliente) : bool :=
  (truthy (Clientes.p_correo u) && eq_value (c_correo c) (Clientes.p_correo u))
  || (truthy (Clientes.p_telefono u)
      && eq_value (c_telefono c) (Clientes.p_telefono u)).

(** *** Dashboard *)

Section DashboardProps.
Import Dashboard.
Context {N : Type} `{Numeric N}.

(** The closed range a period query matches. *)
Definition en_rango (a b t : datetime) : Prop := (a <= t <= b)%Z.

(** [desglose_pagos.total] of a sale, zero when missing. *)
Definition total_de (v : Venta (N := N)) : N := get_amount "total" (get_desglose v).

(** The sale is filed under the bucket [k]. *)
Definition de_moneda (k : option string) (v : Venta (N := N)) : bool :=
  moneda_eqb (moneda_de v) k.

(** Left-to-right sum, as the loop accumulates it. *)
Definition suma (l : list N) : N := fold_left add l zero.

(** The keys of [metodos_pago] in a finished bucket. *)
Definition claves_metodos : list string :=
  ["efectivo"; "transferencia"; "tarjeta"; "otros"; "addi"; "giftcard";
   "link_de_pago"; "tarjeta_credito"; "tarjeta_debito"; "abonos"].

(** What the sales of one currency, in order, make of its bucket. *)
Definition acumular (l : list (Venta (N := N))) (m : Metricas) : Metricas :=
  fold_left (fun m v => acumular_venta v m) l m.

(** A bucket under accumulation: the eleven method keys it was created
    with, and nothing ever added under [sin_pago]. *)
Definition bucket_ok (m : Metricas (N := N)) : Prop :=
  map fst (metodos_pago m) = map fst (metodos_pago metricas_iniciales)
  /\ dict_get String.eqb "sin_pago" (metodos_pago m) = Some zero.

End DashboardProps.

End Props.

(* ===================================================================== *)
(** ** Examples used as witnesses *)
(* ===================================================================== *)

Module Ejemplos.

Definition super_admin : CurrentUser :=
  mkCurrentUser "super_admin" "root@appagenda.co" None None.

Definition db1 : DB :=
  mkDB [mkFranquicia "FR-1" "Norte" (Some []);
        mkFranquicia "FR-2" "Sur" (Some ["SD-9"])]
       [mkSede "SD-1" "CO" Absent; mkSede "SD-9" "CO" (Str "FR-2")]
       [mkUsuario "ana@appagenda.co" "admin_sede" (Str "SD-1") Absent;
        mkUsuario "luis@appagenda.co" "estilista" (Str "SD-1") Null;
        mkUsuario "eva@appagenda.co" "estilista" (Str "SD-9") (Str "FR-2")]
       [] [].

(** Stand-ins for the external services, enough to run the handlers on the
    examples: a literal, case-sensitive substring search for the regular
    expression engine, no escaping, no stripping, and fixed fresh
    identifiers. *)
Fixpoint contains (pat s : string) : bool :=
  String.prefix pat s
  || match s with
     | String _ s' => contains pat s'
     | EmptyString => false
     end.

#[export] Instance externals : Externals := {|
  regex_search_i := contains;
  re_escape s := s;
  py_strip s := s;
  generar_id _ _ _ := "CL-00077";
  new_object_id _ := 0x65f0c0ffee00000000000077%N
|}.

(** Stand-in for the interpreter's table of decimal digits: one that knows
    none beyond ASCII. *)
#[export] Instance solo_ascii : Dashboard.Unicode := {|
  Dashboard.decimal_beyond_ascii _ := None
|}.

(** Stand-in for the validator: one whose [$] is the end of the string. *)
#[export] Instance validador_estricto : Dashboard.Validador := {|
  Dashboard.dolar_admite_salto := false
|}.

Definition admin_sd1 : CurrentUser :=
  mkCurrentUser "admin_sede" "ana@appagenda.co" (Some "SD-1") None.

Definition admin_fr1 : CurrentUser :=
  mkCurrentUser "admin_franquicia" "fran@appagenda.co" None (Some "FR-1").

(** A client of site SD-1 registered before the site joined FR-1 (its
    franchise tag was stored as null), and one registered afterwards. *)
Definition cliente_previo : Cliente :=
  mkCliente 0x65f0c0ffee00000000000001%N (Str "CL-00001") "Berta"
            (Str "berta@correo.co") (Str "3001112233") (Str "SD-1") Null.

Definition cliente_nuevo : Cliente :=
  mkCliente 0x65f0c0ffee00000000000002%N (Str "CL-00002") "Ada"
            (Str "ada@correo.co") (Str "3004445566") (Str "SD-1") (Str "FR-1").

Definition servicio_fr2 : Servicio :=
  mkServicio "SV-20" "Corte" true Null (Str "FR-2").

Definition servicio_sd9 : Servicio :=
  mkServicio "SV-21" "Color" true (Str "SD-9") (Str "FR-2").

Definition db2 : DB :=
  mkDB [mkFranquicia "FR-1" "Norte" (Some ["SD-1"]);
        mkFranquicia "FR-2" "Sur" (Some ["SD-9"])]
       [mkSede "SD-1" "CO" (Str "FR-1"); mkSede "SD-9" "CO" (Str "FR-2")]
       []
       [cliente_previo; cliente_nuevo]
       [servicio_fr2; servicio_sd9].

(** A store where franchise FR-1 already lists a site, SD-5, whose user
    carries the franchise, while SD-1 and its users carry none. *)
Definition db_norte : DB :=
  mkDB [mkFranquicia "FR-1" "Norte" (Some ["SD-5"]);
        mkFranquicia "FR-2" "Sur" (Some ["SD-9"])]
       [mkSede "SD-1" "CO" Absent; mkSede "SD-5" "CO" (Str "FR-1");
        mkSede "SD-9" "CO" (Str "FR-2")]
       [mkUsuario "ana@appagenda.co" "admin_sede" (Str "SD-1") Absent;
        mkUsuario "luis@appagenda.co" "estilista" (Str "SD-1") Null;
        mkUsuario "sol@appagenda.co" "admin_sede" (Str "SD-5") (Str "FR-1");
        mkUsuario "eva@appagenda.co" "estilista" (Str "SD-9") (Str "FR-2")]
       [] [].

Definition payload_repetido : Clientes.ClientePayload :=
  Clientes.mkPayload "Berta Dos" (Some "berta@correo.co") None (Some "SD-1").

(** The document [crear_cliente] stores for that payload. *)
Definition cliente_repetido : Cliente :=
  mkCliente 0x65f0c0ffee00000000000077%N (Str "CL-00077") "Berta Dos"
            (Str "berta@correo.co") Absent (Str "SD-1") (Str "FR-1").

(** A client registered with a phone only, and an update that carries the
    same phone and no e-mail. *)
Definition cliente_sin_correo : Cliente :=
  mkCliente 0x65f0c0ffee00000000000003%N (Str "CL-00003") "Caro"
            Absent (Str "3007778899") (Str "SD-1") (Str "FR-1").

Definition db3 : DB :=
  mkDB (collection_franquicia db2) (collection_locales db2) []
       [cliente_sin_correo; cliente_nuevo] [].

Definition payload_telefono : Clientes.ClientePayload :=
  Clientes.mkPayload "Ada" None (Some "3007778899") None.

(** A Tuesday morning, and a cash sale paid at noon the day before. *)
Definition ahora : Dashboard.Now := Dashboard.mkNow 2024 1 2 10 30 0 0.

Definition venta_ayer : Dashboard.Venta (N := Q) :=
  Dashboard.mkVenta (Dashboard.mk_datetime 2024 1 1 12 0 0 0) (Str "SD-1")
    Absent (Some [("total", 100%Q); ("efectivo", 100%Q)]) None.

Definition venta_usd : Dashboard.Venta (N := Q) :=
  Dashboard.mkVenta (Dashboard.mk_datetime 2024 1 1 13 0 0 0) (Str "SD-1")
    (Str "USD") (Some [("total", 20%Q); ("tarjeta", 20%Q)]) None.

Definition venta_cop : Dashboard.Venta (N := Q) :=
  Dashboard.mkVenta (Dashboard.mk_datetime 2024 1 1 14 0 0 0) (Str "SD-1")
    (Str "COP") (Some [("total", 50%Q); ("transferencia", 50%Q)])
    (Some [Dashboard.mkItem (Str "servicio") (Some 50%Q)]).

End Ejemplos.

(* ===================================================================== *)
(** ** Vocabulary of the further statements *)
(* ===================================================================== *)

Module Invariantes.
Import Franquicias Props.

(** Every site that carries a franchise tag is in the site list of that
    franchise. *)
Definition sedes_listadas (db : DB) : Prop :=
  forall s F,
    In s (collection_locales db) ->
    py_get (s_franquicia_id s) = Some F -> F <> "" ->
    exists f, franquicia_de F db = Some f /\ In (s_sede_id s) (get_sedes f).

(** Every user bound to an existing site answers with the franchise of
    that site. *)
Definition usuarios_sincronizados (db : DB) : Prop :=
  forall u S s,
    In u (collection_auth db) ->
    u_sede_id u = Str S ->
    sede_de S db = Some s ->
    py_get (u_franquicia_id u) = py_get (s_franquicia_id s).

(** No franchise lists a site twice. *)
Definition sin_repetidos (db : DB) : Prop :=
  Forall (fun f => NoDup (get_sedes f)) (collection_franquicia db).

(** Site identifiers are unique in the sites collection. *)
Definition sedes_unicas (db : DB) : Prop :=
  NoDup (map s_sede_id (collection_locales db)).

(** [quitar_sede] went through: a success payload whose counter is the
    number of user documents whose franchise tag changed, the site gone
    from the franchise's list, the site's tag and the tags of its users
    removed. *)
Definition desasignada_con_conteo (fid sid : string) (cu : CurrentUser)
           (db : DB) : Prop :=
  exists r db',
    quitar_sede fid sid cu db = (Ok r, db')
    /\ success r = true
    /\ usuarios_actualizados r
       = tags_cambiados (collection_auth db) (collection_auth db')
    /\ (exists f', franquicia_de fid db' = Some f'
                   /\ ~ In sid (get_sedes f'))
    /\ (forall s', sede_de sid db' = Some s' -> s_franquicia_id s' = Absent)
    /\ (forall x, In x (collection_auth db') -> user_of_sede sid x = true ->
                  u_franquicia_id x = Absent).

End Invariantes.

Module Alcance.
Import Clientes.

(** The franchise the store answers with for the caller's site. *)
Definition franquicia_de_sede (sede_id : option string) (db : DB)
  : option string :=
  if truthy sede_id then
    match find_one (fun s => eq_value (Str (s_sede_id s)) sede_id)
                   (collection_locales db) with
    | Some s => py_get (s_franquicia_id s)
    | None => None
    end
  else None.

(** The clients a site-bound caller may be shown: those of the franchise
    of the caller's site when it has one, else those of the site. *)
Definition en_alcance (sede_id franquicia_id : option string) (c : Cliente)
  : bool :=
  if truthy franquicia_id then eq_value (c_franquicia_id c) franquicia_id
  else eq_value (c_sede_id c) sede_id.

Definition alcance_de_llamante (cu : CurrentUser) (db : DB) (c : Cliente)
  : bool :=
  en_alcance (cu_sede_id cu) (franquicia_de_sede (cu_sede_id cu) db) c.

(** A client holds the given e-mail or the given phone. *)
Definition comparte_contacto (correo telefono : option string) (c : Cliente)
  : bool :=
  (truthy correo && eq_value (c_correo c) correo)
  || (truthy telefono && eq_value (c_telefono c) telefono).

(** The non-empty e-mails stored in a collection, in order. *)
Definition correos (cs : list Cliente) : list string :=
  flat_map (fun c => match c_correo c with
                     | Str e => if e =? "" then [] else [e]
                     | _ => []
                     end) cs.

(** Clients compared by name. *)
Definition por_nombre (a b : Cliente) : Prop :=
  String.leb (c_nombre a) (c_nombre b) = true.

(** Names in non-decreasing order. *)
Definition ordenados (l : list string) : Prop :=
  Sorted (fun a b => String.leb a b = true) l.

(** The document the duplicate check leaves out: the one whose [_id] is
    [exclude_id], when that parses as an ObjectId. *)
Definition excluido (exclude_id : option string) (c : Cliente) : bool :=
  match exclude_id with
  | Some e =>
      truthy exclude_id
      && match object_id_of e with
         | Some oid => (c_oid c =? oid)%N
         | None => false
         end
  | None => false
  end.

End Alcance.

Module AlcanceServicios.
Import Alcance.

(** The franchise the service listing resolves for a caller: the one of the
    token when it carries one, else the one of the caller's site. *)
Definition franquicia_del_llamante (cu : CurrentUser) (db : DB)
  : option string :=
  py_or (cu_franquicia_id cu) (franquicia_de_sede (cu_sede_id cu) db).

(** A service bound to no site: the key is missing or null. *)
Definition sin_sede (s : Servicio) : Prop :=
  sv_sede_id s = Absent \/ sv_sede_id s = Null.

(** What a caller of site [sede] and franchise [franquicia] may be shown:
    services bound to no site, services of the caller's site, and services
    tagged with the caller's franchise. *)
Definition visible_para (sede franquicia : option string) (s : Servicio)
  : Prop :=
  sin_sede s
  \/ (exists S, sede = Some S /\ sv_sede_id s = Str S)
  \/ (exists F, franquicia = Some F /\ F <> "" /\ sv_franquicia_id s = Str F).

(** The [activo] parameter of the listing, when given, is met. *)
Definition cumple_activo (activo : option bool) (s : Servicio) : Prop :=
  forall a, activo = Some a -> sv_activo s = a.

End AlcanceServicios.

Module Ventanas.
Import Dashboard.

(** The ordinal day an instant falls on. *)
Definition dia_de (t : datetime) : Z := (t / DAY)%Z.

(** The ordinal day of [datetime.now()]. *)
Definition hoy (now : Now) : Z := ymd2ord (year now) (month now) (day now).

End Ventanas.

(* ===================================================================== *)
(** ** The store: lemmas on [find_one], [update_one], [update_many] *)
(* ===================================================================== *)

Section ObjectIds.

Lemma lower_hex_string_of_uint (u : Hexadecimal.uint) :
  lower_hex (HexadecimalString.NilEmpty.string_of_uint u)
  = HexadecimalString.NilEmpty.string_of_uint u.
Proof.
  induction u;
    cbn [HexadecimalString.NilEmpty.string_of_uint lower_hex];
    [reflexivity|..]; rewrite IHu; reflexivity.
Qed.

Lemma of_hex_leading_zeros (k : nat) (u : Hexadecimal.uint) :
  N.of_hex_uint (leading_zeros k u) = N.of_hex_uint u.
Proof. induction k as [|k IH]; simpl; [reflexivity | exact IH]. Qed.

(** Reading back what was printed gives the same [ObjectId]. *)
Lemma object_id_of_str (oid oid' : ObjectId) :
  object_id_of (str_object_id oid) = Some oid' -> oid' = oid.
Proof.
  unfold object_id_of, str_object_id.
  destruct (String.length _ =? 24)%nat; [|discriminate].
  rewrite lower_hex_string_of_uint, HexadecimalString.NilEmpty.usu.
  simpl. rewrite of_hex_leading_zeros, HexadecimalN.Unsigned.of_to.
  intros E. now injection E as <-.
Qed.

End ObjectIds.

Section LecturaEjemplos.
Import Clientes Dashboard Ejemplos.

(** [ObjectId] reads either case and prints lower case; a client is found
    under its [_id] spelled in upper case. *)
Lemma object_id_ejemplos :
  object_id_of "65F0C0FFEE00000000000001" = Some (c_oid cliente_previo)
  /\ object_id_of "65f0c0ffee00000000000001" = Some (c_oid cliente_previo)
  /\ str_object_id (c_oid cliente_previo) = "65f0c0ffee00000000000001"
  /\ object_id_of "65f0c0ffee0000000000000g" = None
  /\ object_id_of "65f0c0ffee" = None
  /\ buscar_cliente "65F0C0FFEE00000000000001" db2
     = (Ok (Some cliente_previo), db2).
Proof. repeat split. Qed.

(** The threshold of the smart search counts characters: a text of two
    characters, one of them outside ASCII, searches by prefix only. *)
Lemma busqueda_de_dos_caracteres :
  py_len "ñu" = 2
  /\ busqueda_inteligente (Some "ñu") QAll
     = QOr [QRegex "nombre" "^ñu"; QRegex "cliente_id" "^ñu";
            QRegex "telefono" "^ñu"].
Proof. split; reflexivity. Qed.

(** [strptime] on dates written otherwise than with two digits, and on
    strings that go on after the year. *)
Lemma strptime_ejemplos :
  strptime "1-1-2024" = Parsed 2024 1 1
  /\ strptime " 5-12-2024" = Parsed 2024 12 5
  /\ strptime "32-01-2024" = NoMatch
  /\ strptime "" = NoMatch
  /\ strptime "01-01-20245" = Unconverted "5"
  /\ strptime "29-02-2023" = OutOfRange "day is out of range for month"
  /\ get_date_range ahora "custom" (Some "1-1-2024") (Some "5-1-2024")
     = Return (mk_datetime 2024 1 1 0 0 0 0,
               mk_datetime 2024 1 5 23 59 59 999999)
  /\ get_date_range ahora "custom" (Some "01-01-20245") (Some "05-01-2024")
     = ValueError "unconverted data remains: 5".
Proof. repeat split. Qed.

End LecturaEjemplos.

Section StoreLemmas.
Context {A : Type}.
Variables (p : A -> bool) (u : A -> A).
Hypothesis p_stable : forall d, p d = true -> p (u d) = true.

Lemma find_one_update_one (c : list A) :
  find_one p (update_one p u c) = option_map u (find_one p c).
Proof.
  unfold find_one. induction c as [|d c IH]; simpl; [reflexivity|].
  destruct (p d) eqn:E; simpl.
  - now rewrite (p_stable d E).
  - now rewrite E.
Qed.

Lemma update_one_twice (v : A -> A) (c : list A) :
  update_one p v (update_one p u c) = update_one p (fun d => v (u d)) c.
Proof.
  induction c as [|d c IH]; simpl; [reflexivity|].
  destruct (p d) eqn:E; simpl.
  - now rewrite (p_stable d E).
  - now rewrite E, IH.
Qed.

Lemma update_many_twice (v : A -> A) (c : list A) :
  update_many p v (update_many p u c) = update_many p (fun d => v (u d)) c.
Proof.
  unfold update_many. rewrite map_map. apply map_ext. intros d.
  destruct (p d) eqn:E.
  - now rewrite (p_stable d E).
  - now rewrite E.
Qed.

End StoreLemmas.

Section StoreLemmas2.
Context {A : Type}.
Variables (p : A -> bool).

Lemma update_one_ext (u v : A -> A) (c : list A) :
  (forall d, p d = true -> u d = v d) ->
  update_one p u c = update_one p v c.
Proof.
  intros E. induction c as [|d c IH]; simpl; [reflexivity|].
  destruct (p d) eqn:Ep; [now rewrite E | now rewrite IH].
Qed.

Lemma update_one_first (u : A -> A) (c : list A) (d : A) :
  find_one p c = Some d -> u d = d -> update_one p u c = c.
Proof.
  unfold find_one. induction c as [|x c IH]; simpl; [reflexivity|].
  destruct (p x) eqn:E; intros Hf Hu.
  - injection Hf as ->. now rewrite Hu.
  - now rewrite IH.
Qed.

Lemma update_one_not_found (u : A -> A) (c : list A) :
  find_one p c = None -> update_one p u c = c.
Proof.
  unfold find_one. induction c as [|x c IH]; simpl; [reflexivity|].
  destruct (p x) eqn:E; [discriminate|]. intros Hf. now rewrite IH.
Qed.

Lemma update_many_ext (u v : A -> A) (c : list A) :
  (forall d, In d c -> p d = true -> u d = v d) ->
  update_many p u c = update_many p v c.
Proof.
  intros E. unfold update_many. apply map_ext_in. intros d Hd.
  destruct (p d) eqn:Ep; [now apply E | reflexivity].
Qed.

Lemma update_many_id (u : A -> A) (c : list A) :
  (forall d, In d c -> p d = true -> u d = d) ->
  update_many p u c = c.
Proof.
  intros E. unfold update_many. rewrite <- (map_id c) at 2.
  apply map_ext_in. intros d Hd.
  destruct (p d) eqn:Ep; [now apply E | reflexivity].
Qed.

Lemma map_update_one {B : Type} (g : A -> B) (u : A -> A) (c : list A) :
  (forall d, find_one p c = Some d -> g (u d) = g d) ->
  map g (update_one p u c) = map g c.
Proof.
  unfold find_one. induction c as [|x c IH]; simpl; [reflexivity|].
  destruct (p x) eqn:E; intros Hg; simpl.
  - now rewrite Hg.
  - now rewrite IH.
Qed.

Lemma in_update_many (u : A -> A) (c : list A) (x : A) :
  In x (update_many p u c) ->
  exists d, In d c /\ x = (if p d then u d else d).
Proof.
  unfold update_many. rewrite in_map_iff. intros [d [E Hd]].
  exists d. split; [assumption | now symmetry].
Qed.

Lemma modified_count_zero (eqb : A -> A -> bool) (u : A -> A) (c : list A) :
  (forall d, In d c -> p d = true -> eqb (u d) d = true) ->
  modified_count eqb p u c = 0.
Proof.
  intros E. unfold modified_count.
  induction c as [|d c IH]; simpl; [reflexivity|].
  destruct (p d) eqn:Ep; simpl.
  - rewrite (E d (or_introl eq_refl) Ep). simpl.
    apply IH. intros x Hx. apply E. now right.
  - apply IH. intros x Hx. apply E. now right.
Qed.

End StoreLemmas2.

(* ===================================================================== *)
(** ** Franchise membership: assign and unassign *)
(* ===================================================================== *)

Section FranquiciasFacts.
Import Franquicias Props.

Lemma field_eqb_eq (f g : field) : field_eqb f g = true <-> f = g.
Proof.
  destruct f, g; simpl; split; intros E; try discriminate; try reflexivity.
  - apply String.eqb_eq in E. now subst.
  - injection E as ->. apply String.eqb_refl.
Qed.

Lemma field_eqb_refl (f : field) : field_eqb f f = true.
Proof. now apply field_eqb_eq. Qed.

Lemma usuario_eqb_refl (x : Usuario) : usuario_eqb x x = true.
Proof.
  unfold usuario_eqb. now rewrite !String.eqb_refl, !field_eqb_refl.
Qed.

Lemma usuario_eqb_tag (v : field) (x : Usuario) :
  usuario_eqb (usuario_set_franquicia v x) x = field_eqb v (u_franquicia_id x).
Proof.
  unfold usuario_eqb, usuario_set_franquicia. simpl.
  now rewrite !String.eqb_refl, field_eqb_refl.
Qed.

(** The counter reported by the bulk update is the number of documents
    whose tag differs before and after. *)
Lemma modified_count_tags (sid : string) (v : field) (us : list Usuario) :
  modified_count usuario_eqb (user_of_sede sid) (usuario_set_franquicia v) us
  = tags_cambiados us
      (update_many (user_of_sede sid) (usuario_set_franquicia v) us).
Proof.
  unfold modified_count, tags_cambiados, update_many.
  induction us as [|x us IH]; simpl; [reflexivity|].
  rewrite usuario_eqb_tag.
  destruct (user_of_sede sid x) eqn:E; simpl.
  - replace (field_eqb (u_franquicia_id x) v)
      with (field_eqb v (u_franquicia_id x)).
    + destruct (field_eqb v (u_franquicia_id x)); simpl; now rewrite IH.
    + destruct v, (u_franquicia_id x); simpl; try reflexivity.
      apply String.eqb_sym.
  - rewrite field_eqb_refl. simpl. apply IH.
Qed.

Lemma asignar_sede_ok (fid sid : string) (cu : CurrentUser) (db : DB)
      (f : Franquicia) (s : Sede) :
  rol cu = "super_admin" ->
  franquicia_de fid db = Some f ->
  sede_de sid db = Some s ->
  en_otra_franquicia (py_get (s_franquicia_id s)) fid = false ->
  asignar_sede fid sid cu db
  = (Ok (mkRespuesta true (msg_asignada sid fid)
           (modified_count usuario_eqb (user_of_sede sid)
              (usuario_set_franquicia (Str fid)) (collection_auth db))),
     db_asignada fid sid db).
Proof.
  intros Hr Hf Hs Hn. unfold franquicia_de, sede_de in *.
  unfold asignar_sede, bind, read, write, raise_if, ret.
  rewrite Hr. simpl. rewrite Hf. rewrite Hs. rewrite Hn. reflexivity.
Qed.

Lemma asignar_sede_inv (fid sid : string) (cu : CurrentUser) (db db' : DB)
      (r : Respuesta) :
  asignar_sede fid sid cu db = (Ok r, db') ->
  rol cu = "super_admin"
  /\ exists f s,
       franquicia_de fid db = Some f
       /\ sede_de sid db = Some s
       /\ en_otra_franquicia (py_get (s_franquicia_id s)) fid = false.
Proof.
  unfold franquicia_de, sede_de.
  unfold asignar_sede, bind, read, write, raise_if, ret, raise.
  destruct (rol cu =? "super_admin") eqn:Hr; simpl; [|discriminate].
  apply String.eqb_eq in Hr.
  destruct (find_one (by_franquicia_id fid) (collection_franquicia db))
    as [f|] eqn:Hf; [|discriminate].
  destruct (find_one (by_sede_id sid) (collection_locales db))
    as [s|] eqn:Hs; [|discriminate].
  destruct (en_otra_franquicia (py_get (s_franquicia_id s)) fid) eqn:Hn;
    [discriminate|].
  intros _. split; [assumption|]. now exists f, s.
Qed.

Lemma quitar_sede_ok (fid sid : string) (cu : CurrentUser) (db : DB)
      (f : Franquicia) :
  rol cu = "super_admin" ->
  franquicia_de fid db = Some f ->
  mem sid (get_sedes f) = true ->
  quitar_sede fid sid cu db
  = (Ok (mkRespuesta true (msg_desasignada sid fid)
           (modified_count usuario_eqb (user_of_sede sid)
              (usuario_set_franquicia Absent) (collection_auth db))),
     db_desasignada fid sid db).
Proof.
  intros Hr Hf Hm. unfold franquicia_de in *.
  unfold quitar_sede, bind, read, write, raise_if, ret.
  rewrite Hr. simpl. rewrite Hf. rewrite Hm. reflexivity.
Qed.

Lemma mem_In (x : string) (l : list string) : mem x l = true <-> In x l.
Proof.
  unfold mem. rewrite existsb_exists. split.
  - intros [y [Hy E]]. apply String.eqb_eq in E. now subst.
  - intros Hx. exists x. split; [assumption | apply String.eqb_refl].
Qed.

Lemma mem_addToSet (sid : string) (f : Franquicia) :
  mem sid (get_sedes (addToSet_sedes sid f)) = true.
Proof.
  unfold addToSet_sedes, get_sedes at 1. simpl.
  destruct (mem sid (get_sedes f)) eqn:E; [assumption|].
  apply mem_In. apply in_or_app. right. now left.
Qed.

Lemma addToSet_idem (sid : string) (f : Franquicia) :
  addToSet_sedes sid (addToSet_sedes sid f) = addToSet_sedes sid f.
Proof.
  unfold addToSet_sedes at 1. rewrite mem_addToSet.
  unfold addToSet_sedes, get_sedes. simpl. reflexivity.
Qed.

Lemma by_franquicia_id_addToSet (fid sid : string) (f : Franquicia) :
  by_franquicia_id fid f = true ->
  by_franquicia_id fid (addToSet_sedes sid f) = true.
Proof. intros E; exact E. Qed.

Lemma by_franquicia_id_pull (fid sid : string) (f : Franquicia) :
  by_franquicia_id fid f = true ->
  by_franquicia_id fid (pull_sedes sid f) = true.
Proof. intros E; exact E. Qed.

Lemma by_sede_id_set (sid : string) (v : field) (s : Sede) :
  by_sede_id sid s = true -> by_sede_id sid (sede_set_franquicia v s) = true.
Proof. intros E; exact E. Qed.

Lemma user_of_sede_set (sid : string) (v : field) (x : Usuario) :
  user_of_sede sid x = true ->
  user_of_sede sid (usuario_set_franquicia v x) = true.
Proof. intros E; exact E. Qed.

Lemma not_in_pull (sid : string) (f : Franquicia) :
  ~ In sid (get_sedes (pull_sedes sid f)).
Proof.
  unfold pull_sedes, get_sedes. simpl.
  destruct (f_sedes f) as [l|]; simpl; [|tauto].
  rewrite filter_In. intros [_ E]. now rewrite String.eqb_refl in E.
Qed.

Lemma en_otra_misma (fid : string) :
  en_otra_franquicia (Some fid) fid = false.
Proof.
  unfold en_otra_franquicia. rewrite String.eqb_refl. simpl.
  apply andb_false_r.
Qed.

Lemma find_one_update_other {A : Type} (p q : A -> bool) (u : A -> A)
      (c : list A) :
  (forall d, q (u d) = q d) ->
  (forall d, p d = true -> q d = true -> u d = d) ->
  find_one q (update_one p u c)
  = find_one q c.
Proof.
  intros Hq Hpq. unfold find_one.
  induction c as [|d c IH]; simpl; [reflexivity|].
  destruct (p d) eqn:Ep; simpl.
  - rewrite Hq. destruct (q d) eqn:Eq; [|reflexivity].
    now rewrite (Hpq d Ep Eq).
  - now rewrite IH.
Qed.

(** Looking up another key after an update by key. *)
Lemma franquicia_de_update (fid G : string) (u : Franquicia -> Franquicia)
      (fs : list Franquicia) :
  (forall d, f_franquicia_id (u d) = f_franquicia_id d) ->
  G <> fid ->
  find_one (by_franquicia_id G) (update_one (by_franquicia_id fid) u fs)
  = find_one (by_franquicia_id G) fs.
Proof.
  intros Hu Hne. apply find_one_update_other.
  - intros d. unfold by_franquicia_id. now rewrite Hu.
  - intros d E1 E2. unfold by_franquicia_id in *.
    apply String.eqb_eq in E1, E2. congruence.
Qed.

Lemma sede_de_update (sid S : string) (u : Sede -> Sede) (ls : list Sede) :
  (forall d, s_sede_id (u d) = s_sede_id d) ->
  S <> sid ->
  find_one (by_sede_id S) (update_one (by_sede_id sid) u ls)
  = find_one (by_sede_id S) ls.
Proof.
  intros Hu Hne. apply find_one_update_other.
  - intros d. unfold by_sede_id. now rewrite Hu.
  - intros d E1 E2. unfold by_sede_id in *.
    apply String.eqb_eq in E1, E2. congruence.
Qed.

Lemma update_one_const {A : Type} (p : A -> bool) (u : A -> A) (c : list A)
      (d : A) :
  find_one p c = Some d ->
  update_one p u c = update_one p (fun _ => u d) c.
Proof.
  unfold find_one. induction c as [|x c IH]; simpl; [reflexivity|].
  destruct (p x) eqn:E; intros Hf.
  - now injection Hf as ->.
  - now rewrite IH.
Qed.

Lemma in_pull (sid x : string) (l : list string) :
  In x (filter (fun y => negb (y =? sid)) l) <-> In x l /\ x <> sid.
Proof.
  rewrite filter_In. split; intros [H1 H2]; split; try assumption.
  - apply negb_true_iff in H2. now apply String.eqb_neq.
  - apply negb_true_iff. now apply String.eqb_neq.
Qed.

Lemma pull_absent (sid : string) (l : list string) :
  ~ In sid l -> filter (fun y => negb (y =? sid)) l = l.
Proof.
  induction l as [|y l IH]; simpl; intros Hni; [reflexivity|].
  destruct (y =? sid) eqn:E.
  - apply String.eqb_eq in E. subst. exfalso. apply Hni. now left.
  - simpl. f_equal. apply IH. intros H. apply Hni. now right.
Qed.

(** The list [$pull] leaves after [$addToSet] of the same site. *)
Lemma pull_addToSet (sid : string) (f : Franquicia) :
  get_sedes (pull_sedes sid (addToSet_sedes sid f))
  = filter (fun y => negb (y =? sid)) (get_sedes f).
Proof.
  unfold pull_sedes, addToSet_sedes. cbn [f_sedes option_map get_sedes].
  fold (get_sedes f).
  destruct (mem sid (get_sedes f)); [reflexivity|].
  rewrite filter_app. simpl. rewrite String.eqb_refl. simpl.
  apply app_nil_r.
Qed.

End FranquiciasFacts.

Section FranquiciasClaims.
Import Franquicias Props.

(** C2. For a super_admin caller, [asignar_sede] answers, in this order:
    404 when the franchise does not exist; else 404 when the site does not
    exist; else 400 with a message naming the owning franchise when the
    site's franchise tag is a (non-empty) identifier other than this
    franchise; else success, with the store updated and
    [usuarios_actualizados] equal to the number of user documents whose
    franchise tag changed.  A failing call leaves the store as it was. *)
Theorem asignar_sede_outcomes (fid sid : string) (cu : CurrentUser) (db : DB) :
  rol cu = "super_admin" ->
  match franquicia_de fid db with
  | None =>
      asignar_sede fid sid cu db
      = (Raise (HTTP 404 "Franquicia no encontrada"), db)
  | Some _ =>
      match sede_de sid db with
      | None =>
          asignar_sede fid sid cu db
          = (Raise (HTTP 404 ("Sede no encontrada: " ++ sid)), db)
      | Some sede =>
          match s_franquicia_id sede with
          | Str actual =>
              if (actual =? "") || (actual =? fid)
              then asignada_con_conteo fid sid cu db
              else asignar_sede fid sid cu db
                   = (Raise (HTTP 400 (msg_ya_pertenece actual)), db)
          | _ => asignada_con_conteo fid sid cu db
          end
      end
  end.
Proof.
  intros Hr.
  assert (Hok : forall f s,
             franquicia_de fid db = Some f -> sede_de sid db = Some s ->
             en_otra_franquicia (py_get (s_franquicia_id s)) fid = false ->
             asignada_con_conteo fid sid cu db).
  { intros f s Hf Hs Hn. unfold asignada_con_conteo.
    eexists. eexists. split; [exact (asignar_sede_ok _ _ _ _ f s Hr Hf Hs Hn)|].
    simpl. repeat split. apply modified_count_tags. }
  destruct (franquicia_de fid db) as [f|] eqn:Hf.
  - destruct (sede_de sid db) as [s|] eqn:Hs.
    + destruct (s_franquicia_id s) as [| |actual] eqn:Ht.
      * apply (Hok f s eq_refl eq_refl). now rewrite Ht.
      * apply (Hok f s eq_refl eq_refl). now rewrite Ht.
      * destruct ((actual =? "") || (actual =? fid)) eqn:Hc.
        -- apply (Hok f s eq_refl eq_refl). rewrite Ht. simpl.
           unfold en_otra_franquicia. simpl.
           destruct (actual =? ""); simpl; [reflexivity|].
           simpl in Hc. now rewrite Hc.
        -- apply orb_false_iff in Hc. destruct Hc as [H1 H2].
           unfold franquicia_de, sede_de in *.
           unfold asignar_sede, bind, read, write, raise_if, ret, raise.
           rewrite Hr. simpl. rewrite Hf, Hs, Ht. simpl.
           unfold en_otra_franquicia. simpl. rewrite H1, H2. reflexivity.
    + unfold franquicia_de, sede_de in *.
      unfold asignar_sede, bind, read, write, raise_if, ret, raise.
      rewrite Hr. simpl. now rewrite Hf, Hs.
  - unfold franquicia_de in *.
    unfold asignar_sede, bind, read, write, raise_if, ret, raise.
    rewrite Hr. simpl. now rewrite Hf.
Qed.

Lemma asignar_sede_outcomes_witness :
  rol Ejemplos.super_admin = "super_admin"
  /\ asignada_con_conteo "FR-1" "SD-1" Ejemplos.super_admin Ejemplos.db1
  /\ asignar_sede "FR-1" "SD-9" Ejemplos.super_admin Ejemplos.db1
     = (Raise (HTTP 400 (msg_ya_pertenece "FR-2")), Ejemplos.db1)
  /\ asignar_sede "FR-1" "SD-7" Ejemplos.super_admin Ejemplos.db1
     = (Raise (HTTP 404 "Sede no encontrada: SD-7"), Ejemplos.db1)
  /\ asignar_sede "FR-3" "SD-1" Ejemplos.super_admin Ejemplos.db1
     = (Raise (HTTP 404 "Franquicia no encontrada"), Ejemplos.db1).
Proof.
  split; [reflexivity|].
  split; [exact (asignar_sede_outcomes "FR-1" "SD-1" Ejemplos.super_admin
                   Ejemplos.db1 eq_refl)|].
  split; [exact (asignar_sede_outcomes "FR-1" "SD-9" Ejemplos.super_admin
                   Ejemplos.db1 eq_refl)|].
  split; [exact (asignar_sede_outcomes "FR-1" "SD-7" Ejemplos.super_admin
                   Ejemplos.db1 eq_refl)|].
  exact (asignar_sede_outcomes "FR-3" "SD-1" Ejemplos.super_admin
           Ejemplos.db1 eq_refl).
Defined.

(** Assigning and then unassigning brings the store back to the very state
    it started from when the site and its users had no franchise key and
    the franchise's list did not hold the site (audit fields, which the
    handlers do not write on these documents, aside). *)
Lemma asignar_quitar_store_intact (fid sid : string) (db : DB)
      (f : Franquicia) (s : Sede) (l : list string) :
  franquicia_de fid db = Some f ->
  sede_de sid db = Some s ->
  f_sedes f = Some l -> ~ In sid l ->
  s_franquicia_id s = Absent ->
  (forall x, In x (collection_auth db) -> user_of_sede sid x = true ->
             u_franquicia_id x = Absent) ->
  db_desasignada fid sid (db_asignada fid sid db) = db.
Proof.
  intros Hf Hs Hl Hni Ht Hu. unfold franquicia_de, sede_de in *.
  unfold db_desasignada, db_asignada. simpl. destruct db as [fs ls us cs ss].
  simpl in *. f_equal.
  - rewrite update_one_twice by (intros d E; exact E).
    apply (update_one_first _ _ _ f Hf).
    unfold pull_sedes, addToSet_sedes, get_sedes. simpl. rewrite Hl.
    destruct f as [i n sd]. simpl in *. subst sd. f_equal. f_equal.
    assert (Hm : mem sid l = false).
    { destruct (mem sid l) eqn:E; [|reflexivity].
      apply mem_In in E. contradiction. }
    rewrite Hm. rewrite filter_app. simpl. rewrite String.eqb_refl. simpl.
    rewrite app_nil_r. clear - Hni.
    induction l as [|y l IH]; simpl; [reflexivity|].
    destruct (y =? sid) eqn:E.
    + apply String.eqb_eq in E. subst. exfalso. apply Hni. now left.
    + simpl. f_equal. apply IH. intros H. apply Hni. now right.
  - rewrite update_one_twice by (intros d E; exact E).
    apply (update_one_first _ _ _ s Hs).
    destruct s as [i pa t]. simpl in *. now subst t.
  - rewrite update_many_twice by (intros d E; exact E).
    apply update_many_id. intros x Hx Hp.
    specialize (Hu x Hx Hp). destruct x as [e r sd t]. simpl in *. now subst t.
Qed.

(** C3. When site S exists and carries no franchise tag, and the users bound
    to S carry none, a super_admin's [asignar_sede F S] followed by
    [quitar_sede F S] both succeed and leave S's franchise tag absent, the
    franchise tag of every user bound to S absent, and F's site list
    without S.  Franchise membership is otherwise as it was: F's list holds
    exactly the sites it held before, S aside, in the same order (it is
    the same list when S was not in it), F keeps its identifier and name,
    every other franchise document, every other site and every user not
    bound to S is untouched, S keeps its other fields, and clients and
    services are not written.  No site and no user ends up in another
    franchise than before: the franchise each document answers with is
    unchanged.  When the franchise tags were missing keys, F had a list and
    S was not in it, the store is literally the one the calls started
    from. *)
Theorem asignar_luego_quitar (fid sid : string) (cu : CurrentUser) (db : DB)
        (f : Franquicia) (s : Sede) :
  rol cu = "super_admin" ->
  franquicia_de fid db = Some f ->
  sede_de sid db = Some s ->
  sin_franquicia (s_franquicia_id s) ->
  (forall x, In x (collection_auth db) -> user_of_sede sid x = true ->
             sin_franquicia (u_franquicia_id x)) ->
  exists r1 db1 r2 db2,
    asignar_sede fid sid cu db = (Ok r1, db1)
    /\ quitar_sede fid sid cu db1 = (Ok r2, db2)
    /\ (exists s2, sede_de sid db2 = Some s2 /\ s_franquicia_id s2 = Absent
                   /\ s_sede_id s2 = s_sede_id s /\ s_pais s2 = s_pais s
                   /\ collection_locales db2
                      = update_one (by_sede_id sid) (fun _ => s2)
                                   (collection_locales db))
    /\ (forall x, In x (collection_auth db2) -> user_of_sede sid x = true ->
                  u_franquicia_id x = Absent)
    /\ (exists f2, franquicia_de fid db2 = Some f2
                   /\ ~ In sid (get_sedes f2)
                   /\ get_sedes f2
                      = filter (fun x => negb (x =? sid)) (get_sedes f)
                   /\ (forall x, In x (get_sedes f2)
                                 <-> In x (get_sedes f) /\ x <> sid)
                   /\ (~ In sid (get_sedes f) -> get_sedes f2 = get_sedes f)
                   /\ f_franquicia_id f2 = f_franquicia_id f
                   /\ f_nombre f2 = f_nombre f
                   /\ collection_franquicia db2
                      = update_one (by_franquicia_id fid) (fun _ => f2)
                                   (collection_franquicia db))
    /\ map (fun x => py_get (s_franquicia_id x)) (collection_locales db2)
       = map (fun x => py_get (s_franquicia_id x)) (collection_locales db)
    /\ map (fun x => py_get (u_franquicia_id x)) (collection_auth db2)
       = map (fun x => py_get (u_franquicia_id x)) (collection_auth db)
    /\ (forall G, G <> fid -> franquicia_de G db2 = franquicia_de G db)
    /\ (forall X, X <> sid -> sede_de X db2 = sede_de X db)
    /\ collection_auth db2
       = update_many (user_of_sede sid)
                     (fun x => mkUsuario (u_email x) (u_rol x) (u_sede_id x)
                                         Absent)
                     (collection_auth db)
    /\ collection_clients db2 = collection_clients db
    /\ collection_servicios db2 = collection_servicios db
    /\ (f_sedes f <> None -> ~ In sid (get_sedes f) ->
        s_franquicia_id s = Absent ->
        (forall x, In x (collection_auth db) -> user_of_sede sid x = true ->
                   u_franquicia_id x = Absent) ->
        db2 = db).
Proof.
  intros Hr Hf Hs Ht Hu.
  assert (Hn : en_otra_franquicia (py_get (s_franquicia_id s)) fid = false).
  { destruct Ht as [-> | ->]; reflexivity. }
  assert (Hf1 : franquicia_de fid (db_asignada fid sid db)
                = Some (addToSet_sedes sid f)).
  { unfold franquicia_de, db_asignada in *. simpl.
    rewrite find_one_update_one by (intros d E; exact E). now rewrite Hf. }
  exists (mkRespuesta true (msg_asignada sid fid)
            (modified_count usuario_eqb (user_of_sede sid)
               (usuario_set_franquicia (Str fid)) (collection_auth db))).
  exists (db_asignada fid sid db).
  exists (mkRespuesta true (msg_desasignada sid fid)
            (modified_count usuario_eqb (user_of_sede sid)
               (usuario_set_franquicia Absent)
               (collection_auth (db_asignada fid sid db)))).
  exists (db_desasignada fid sid (db_asignada fid sid db)).
  split; [exact (asignar_sede_ok _ _ _ _ f s Hr Hf Hs Hn)|].
  split; [exact (quitar_sede_ok _ _ _ _ _ Hr Hf1 (mem_addToSet sid f))|].
  assert (Hfs : collection_franquicia (db_desasignada fid sid
                                         (db_asignada fid sid db))
                = update_one (by_franquicia_id fid)
                    (fun _ => pull_sedes sid (addToSet_sedes sid f))
                    (collection_franquicia db)).
  { unfold db_desasignada, db_asignada. simpl.
    rewrite update_one_twice by (intros d E; exact E).
    exact (update_one_const _ _ _ f Hf). }
  assert (Hls : collection_locales (db_desasignada fid sid
                                      (db_asignada fid sid db))
                = update_one (by_sede_id sid)
                    (fun _ => sede_set_franquicia Absent
                                (sede_set_franquicia (Str fid) s))
                    (collection_locales db)).
  { unfold db_desasignada, db_asignada. simpl.
    rewrite update_one_twice by (intros d E; exact E).
    exact (update_one_const _ _ _ s Hs). }
  assert (Hus : collection_auth (db_desasignada fid sid
                                   (db_asignada fid sid db))
                = update_many (user_of_sede sid)
                    (usuario_set_franquicia Absent) (collection_auth db)).
  { unfold db_desasignada, db_asignada. simpl.
    rewrite update_many_twice by (intros d E; exact E).
    apply update_many_ext. reflexivity. }
  split.
  { exists (sede_set_franquicia Absent (sede_set_franquicia (Str fid) s)).
    split.
    - unfold sede_de, db_desasignada, db_asignada in *. simpl.
      rewrite !find_one_update_one by (intros d E; exact E). now rewrite Hs.
    - repeat split. exact Hls. }
  split.
  { unfold db_desasignada. simpl. intros x Hx Hp.
    apply in_update_many in Hx. destruct Hx as [d [_ ->]].
    destruct (user_of_sede sid d) eqn:E; [reflexivity|]. congruence. }
  split.
  { exists (pull_sedes sid (addToSet_sedes sid f)).
    split.
    - unfold franquicia_de, db_desasignada in *. simpl.
      rewrite find_one_update_one by (intros d E; exact E).
      simpl in Hf1. unfold db_asignada in Hf1. simpl in Hf1. now rewrite Hf1.
    - split; [apply not_in_pull|].
      split; [apply pull_addToSet|].
      split; [intros x; rewrite pull_addToSet; apply in_pull|].
      split; [intros Hni; rewrite pull_addToSet; now apply pull_absent|].
      split; [reflexivity|]. split; [reflexivity|]. exact Hfs. }
  split.
  { unfold db_desasignada, db_asignada. simpl.
    rewrite update_one_twice by (intros d E; exact E).
    apply map_update_one. intros d Hd. unfold sede_de in Hs.
    rewrite Hs in Hd. injection Hd as <-. simpl.
    destruct Ht as [-> | ->]; reflexivity. }
  split.
  { rewrite Hus. unfold update_many. rewrite map_map.
    apply map_ext_in. intros x Hx.
    destruct (user_of_sede sid x) eqn:E; [|reflexivity]. simpl.
    destruct (Hu x Hx E) as [-> | ->]; reflexivity. }
  split.
  { intros G HG. unfold franquicia_de, db_desasignada, db_asignada. simpl.
    rewrite !franquicia_de_update; try assumption; reflexivity. }
  split.
  { intros X HX. unfold sede_de, db_desasignada, db_asignada. simpl.
    rewrite !sede_de_update; try assumption; reflexivity. }
  split; [exact Hus|]. split; [reflexivity|]. split; [reflexivity|].
  intros Hsome Hni Habs Huabs.
  destruct (f_sedes f) as [l|] eqn:El; [|contradiction].
  apply (asignar_quitar_store_intact fid sid db f s l); try assumption.
  unfold get_sedes in Hni. now rewrite El in Hni.
Qed.

Lemma asignar_luego_quitar_witness :
  exists r1 db1 r2 db2,
    asignar_sede "FR-1" "SD-1" Ejemplos.super_admin Ejemplos.db_norte
    = (Ok r1, db1)
    /\ quitar_sede "FR-1" "SD-1" Ejemplos.super_admin db1 = (Ok r2, db2)
    /\ (exists s2, sede_de "SD-1" db2 = Some s2 /\ s_franquicia_id s2 = Absent
                   /\ s_sede_id s2 = s_sede_id (mkSede "SD-1" "CO" Absent)
                   /\ s_pais s2 = s_pais (mkSede "SD-1" "CO" Absent)
                   /\ collection_locales db2
                      = update_one (by_sede_id "SD-1") (fun _ => s2)
                                   (collection_locales Ejemplos.db_norte))
    /\ (forall x, In x (collection_auth db2) -> user_of_sede "SD-1" x = true ->
                  u_franquicia_id x = Absent)
    /\ (exists f2, franquicia_de "FR-1" db2 = Some f2
                   /\ ~ In "SD-1" (get_sedes f2)
                   /\ get_sedes f2
                      = filter (fun x => negb (x =? "SD-1"))
                               (get_sedes (mkFranquicia "FR-1" "Norte"
                                                        (Some ["SD-5"])))
                   /\ (forall x, In x (get_sedes f2)
                                 <-> In x (get_sedes
                                             (mkFranquicia "FR-1" "Norte"
                                                           (Some ["SD-5"])))
                                     /\ x <> "SD-1")
                   /\ (~ In "SD-1" (get_sedes (mkFranquicia "FR-1" "Norte"
                                                            (Some ["SD-5"]))) ->
                       get_sedes f2
                       = get_sedes (mkFranquicia "FR-1" "Norte"
                                                 (Some ["SD-5"])))
                   /\ f_franquicia_id f2
                      = f_franquicia_id (mkFranquicia "FR-1" "Norte"
                                                      (Some ["SD-5"]))
                   /\ f_nombre f2
                      = f_nombre (mkFranquicia "FR-1" "Norte" (Some ["SD-5"]))
                   /\ collection_franquicia db2
                      = update_one (by_franquicia_id "FR-1") (fun _ => f2)
                                   (collection_franquicia Ejemplos.db_norte))
    /\ map (fun x => py_get (s_franquicia_id x)) (collection_locales db2)
       = map (fun x => py_get (s_franquicia_id x))
             (collection_locales Ejemplos.db_norte)
    /\ map (fun x => py_get (u_franquicia_id x)) (collection_auth db2)
       = map (fun x => py_get (u_franquicia_id x))
             (collection_auth Ejemplos.db_norte)
    /\ (forall G, G <> "FR-1" ->
                  franquicia_de G db2 = franquicia_de G Ejemplos.db_norte)
    /\ (forall X, X <> "SD-1" ->
                  sede_de X db2 = sede_de X Ejemplos.db_norte)
    /\ collection_auth db2
       = update_many (user_of_sede "SD-1")
                     (fun x => mkUsuario (u_email x) (u_rol x) (u_sede_id x)
                                         Absent)
                     (collection_auth Ejemplos.db_norte)
    /\ collection_clients db2 = collection_clients Ejemplos.db_norte
    /\ collection_servicios db2 = collection_servicios Ejemplos.db_norte
    /\ (f_sedes (mkFranquicia "FR-1" "Norte" (Some ["SD-5"])) <> None ->
        ~ In "SD-1" (get_sedes (mkFranquicia "FR-1" "Norte" (Some ["SD-5"]))) ->
        s_franquicia_id (mkSede "SD-1" "CO" Absent) = Absent ->
        (forall x, In x (collection_auth Ejemplos.db_norte) ->
                   user_of_sede "SD-1" x = true ->
                   u_franquicia_id x = Absent) ->
        db2 = Ejemplos.db_norte).
Proof.
  apply (asignar_luego_quitar "FR-1" "SD-1" Ejemplos.super_admin
           Ejemplos.db_norte
           (mkFranquicia "FR-1" "Norte" (Some ["SD-5"]))
           (mkSede "SD-1" "CO" Absent));
    try reflexivity.
  - left; reflexivity.
  - simpl. intros x [<- | [<- | [<- | [<- | []]]]] E.
    + left; reflexivity.
    + right; reflexivity.
    + discriminate E.
    + discriminate E.
Defined.

(** C9. After a successful [asignar_sede F S], the same call again is not
    rejected and leaves the whole store (hence F's site list, S's franchise
    tag and the tag of every user bound to S) exactly as the first call left
    it; it reports no user document as modified. *)
Theorem asignar_sede_idempotente (fid sid : string) (cu : CurrentUser)
        (db db1 : DB) (r1 : Respuesta) :
  asignar_sede fid sid cu db = (Ok r1, db1) ->
  exists r2,
    asignar_sede fid sid cu db1 = (Ok r2, db1)
    /\ success r2 = true
    /\ usuarios_actualizados r2 = 0.
Proof.
  intros H1. destruct (asignar_sede_inv _ _ _ _ _ _ H1) as [Hr [f [s [Hf [Hs Hn]]]]].
  rewrite (asignar_sede_ok _ _ _ _ f s Hr Hf Hs Hn) in H1.
  injection H1 as _ <-.
  assert (Hf1 : franquicia_de fid (db_asignada fid sid db)
                = Some (addToSet_sedes sid f)).
  { unfold franquicia_de, db_asignada in *. simpl.
    rewrite find_one_update_one by (intros d E; exact E). now rewrite Hf. }
  assert (Hs1 : sede_de sid (db_asignada fid sid db)
                = Some (sede_set_franquicia (Str fid) s)).
  { unfold sede_de, db_asignada in *. simpl.
    rewrite find_one_update_one by (intros d E; exact E). now rewrite Hs. }
  eexists. split.
  - rewrite (asignar_sede_ok _ _ _ _ _ _ Hr Hf1 Hs1 (en_otra_misma fid)).
    f_equal. unfold db_asignada. simpl. f_equal.
    + rewrite update_one_twice by (intros d E; exact E).
      apply update_one_ext. intros d _. apply addToSet_idem.
    + rewrite update_one_twice by (intros d E; exact E).
      apply update_one_ext. intros d _. reflexivity.
    + rewrite update_many_twice by (intros d E; exact E).
      apply update_many_ext. intros d _ _. reflexivity.
  - simpl. split; [reflexivity|].
    apply modified_count_zero. intros x Hx Hp.
    rewrite usuario_eqb_tag.
    apply in_update_many in Hx. destruct Hx as [d [_ ->]].
    destruct (user_of_sede sid d) eqn:E.
    + simpl. apply String.eqb_refl.
    + congruence.
Qed.

Lemma asignar_sede_idempotente_witness :
  exists r2,
    asignar_sede "FR-1" "SD-1" Ejemplos.super_admin
                 (db_asignada "FR-1" "SD-1" Ejemplos.db1)
    = (Ok r2, db_asignada "FR-1" "SD-1" Ejemplos.db1)
    /\ success r2 = true
    /\ usuarios_actualizados r2 = 0.
Proof.
  exact (asignar_sede_idempotente "FR-1" "SD-1" Ejemplos.super_admin
           Ejemplos.db1 _ _ eq_refl).
Defined.

End FranquiciasClaims.

(* ===================================================================== *)
(** ** Clients: what the listings select *)
(* ===================================================================== *)

Section ClientesListados.
Import Clientes Props.
Context {ext : Externals}.

Lemma insert_by_nombre_In (c x : Cliente) (l : list Cliente) :
  In x (insert_by_nombre c l) <-> x = c \/ In x l.
Proof.
  induction l as [|y l IH]; simpl.
  - intuition.
  - destruct (String.leb (c_nombre c) (c_nombre y)); simpl.
    + intuition.
    + rewrite IH. intuition.
Qed.

Lemma sort_by_nombre_In (x : Cliente) (l : list Cliente) :
  In x (sort_by_nombre l) <-> In x l.
Proof.
  unfold sort_by_nombre. induction l as [|y l IH]; simpl; [tauto|].
  rewrite insert_by_nombre_In, IH. intuition.
Qed.

Lemma insert_by_nombre_length (c : Cliente) (l : list Cliente) :
  length (insert_by_nombre c l) = S (length l).
Proof.
  induction l as [|y l IH]; simpl; [reflexivity|].
  destruct (String.leb (c_nombre c) (c_nombre y)); simpl; [reflexivity|].
  now rewrite IH.
Qed.

Lemma sort_by_nombre_length (l : list Cliente) :
  length (sort_by_nombre l) = length l.
Proof.
  unfold sort_by_nombre. induction l as [|y l IH]; simpl; [reflexivity|].
  now rewrite insert_by_nombre_length, IH.
Qed.

Lemma In_firstn {A : Type} (x : A) (n : nat) (l : list A) :
  In x (firstn n l) -> In x l.
Proof.
  revert l. induction n as [|n IH]; intros [|y l]; simpl; try tauto.
  intros [E | Hx]; [now left | right; now apply IH].
Qed.

Lemma In_skipn {A : Type} (x : A) (n : nat) (l : list A) :
  In x (skipn n l) -> In x l.
Proof.
  revert l. induction n as [|n IH]; intros [|y l]; simpl; try tauto.
  intros Hx. right. now apply IH.
Qed.

(** A page is cut out of the selected documents. *)
Lemma pagina_de_seleccion (q : Cliente -> bool) (cs : list Cliente)
      (n k : nat) (x : Cliente) :
  In x (firstn n (skipn k (sort_by_nombre (filter q cs)))) ->
  In x cs /\ q x = true.
Proof.
  intros Hx. apply In_firstn, In_skipn in Hx.
  apply (proj1 (sort_by_nombre_In _ _)) in Hx.
  now apply (proj1 (filter_In _ _ _)) in Hx.
Qed.

Lemma get_franquicia_de_sede (S : string) (s : Sede) (db : DB) :
  S <> "" ->
  sede_de S db = Some s ->
  _get_franquicia_id_de_sede (Some S) db = (Ok (py_get (s_franquicia_id s)), db).
Proof.
  intros HS Hs. unfold _get_franquicia_id_de_sede. simpl.
  apply String.eqb_neq in HS. rewrite HS. simpl.
  unfold bind, read, ret. unfold sede_de, Franquicias.by_sede_id in Hs.
  simpl. now rewrite Hs.
Qed.

Lemma ceil_page (total limite pagina : nat) :
  1 <= limite -> 0 < total ->
  (total + limite - 1) / limite < pagina ->
  1 < pagina /\ total <= (pagina - 1) * limite.
Proof.
  intros Hl Ht Hp.
  assert (H1 : 1 <= (total + limite - 1) / limite).
  { apply Nat.div_le_lower_bound; lia. }
  split; [lia|].
  pose proof (Nat.div_mod_eq (total + limite - 1) limite) as E.
  pose proof (Nat.mod_upper_bound (total + limite - 1) limite
                ltac:(lia)) as Hm.
  nia.
Qed.

End ClientesListados.

Section ClientesClaims.
Import Clientes Props.
Context {ext : Externals}.

Lemma matches_franquicia (F : string) (c : Cliente) :
  matches regex_search_i (QEq "franquicia_id" (Some F)) c = de_franquicia F c.
Proof. reflexivity. Qed.

Lemma find_clients_franquicia (F : string) (db : DB) :
  find_clients (QEq "franquicia_id" (Some F)) db
  = filter (de_franquicia F) (collection_clients db).
Proof. reflexivity. Qed.

(** What the two listings select for a caller with role admin_sede or
    estilista bound to site S, when S carries franchise tag F and no search
    text is given: the clients whose own franchise tag is F, and no other.
    [listar_clientes] returns the first [limite] of them (up to 500), and
    [listar_todos] (up to 100 a page) counts them all and returns the
    requested page of them in name order, or 404 when the page lies beyond
    them. *)
Lemma listados_por_franquicia (cu : CurrentUser) (db : DB) (S F : string)
      (s : Sede) (limite limite_pagina pagina : nat) :
  rol cu = "admin_sede" \/ rol cu = "estilista" ->
  cu_sede_id cu = Some S -> S <> "" ->
  sede_de S db = Some s -> s_franquicia_id s = Str F -> F <> "" ->
  1 <= limite <= 500 -> 1 <= limite_pagina <= 100 -> 1 <= pagina ->
  let sel := filter (de_franquicia F) (collection_clients db) in
  listar_clientes None limite cu db
  = (Ok (map cliente_to_dict (firstn limite sel)), db)
  /\ exists res,
       listar_todos None limite_pagina pagina cu db = (res, db)
       /\ match res with
          | Ok r =>
              clientes r
              = map cliente_to_dict_ligero
                    (firstn limite_pagina
                       (skipn ((pagina - 1) * limite_pagina)
                              (sort_by_nombre sel)))
              /\ total (metadata r) = length sel
          | Raise e =>
              status_code e = 404
              /\ 1 < pagina /\ length sel <= (pagina - 1) * limite_pagina
          end.
Proof.
  intros Hrol Hcu HS Hs Ht HF [Hl1 Hl2] [Hq1 Hq2] Hp sel.
  assert (Hin1 : in_list (rol cu) ["admin_sede"; "super_admin"; "estilista"]
                 = true) by (destruct Hrol as [-> | ->]; reflexivity).
  assert (Hin2 : in_list (rol cu) ["admin_sede"; "estilista"] = true)
    by (destruct Hrol as [-> | ->]; reflexivity).
  assert (Hin3 : in_list (rol cu) ["super_admin"; "admin_sede"; "estilista"]
                 = true) by (destruct Hrol as [-> | ->]; reflexivity).
  assert (HtF : truthy (Some F) = true).
  { simpl. apply String.eqb_neq in HF. now rewrite HF. }
  assert (HtS : truthy (Some S) = true).
  { simpl. apply String.eqb_neq in HS. now rewrite HS. }
  assert (Hb1 : (1 <=? limite)%nat = true) by (apply Nat.leb_le; lia).
  assert (Hb2 : (limite <=? 500)%nat = true) by (apply Nat.leb_le; lia).
  assert (Hb3 : (limite_pagina <=? 100)%nat = true)
    by (apply Nat.leb_le; lia).
  assert (Hb5 : (1 <=? limite_pagina)%nat = true) by (apply Nat.leb_le; lia).
  assert (Hb4 : (1 <=? pagina)%nat = true) by (apply Nat.leb_le; lia).
  split.
  - unfold listar_clientes, bind, raise_if, ret, read.
    rewrite Hb1, Hb2, Hin1, Hin2, Hcu. cbn [negb andb fst snd].
    rewrite (get_franquicia_de_sede S s db HS Hs), Ht. simpl py_get.
    unfold filtro_base. rewrite HtF. rewrite find_clients_franquicia.
    reflexivity.
  - unfold listar_todos, bind, raise_if, ret, read.
    rewrite Hb5, Hb3, Hb4, Hin3, Hin2, Hcu, HtS. cbn [negb andb fst snd].
    assert (Hs' : find_one (fun s0 : Sede => eq_value (Str (s_sede_id s0)) (Some S))
                           (collection_locales db) = Some s) by exact Hs.
    rewrite Hs', Ht. cbn [py_get]. unfold filtro_base. rewrite HtF.
    cbn [busqueda_inteligente truthy query_nonempty negb andb].
    unfold count_documents, find_clients, find_many.
    change (filter (matches regex_search_i (QEq "franquicia_id" (Some F)))
                   (collection_clients db)) with sel.
    set (tp := if (0 <? length sel)%nat
               then (length sel + limite_pagina - 1) / limite_pagina else 1).
    destruct ((tp <? pagina)%nat && (0 <? tp)%nat) eqn:Hc.
    + eexists. split; [reflexivity|]. simpl. split; [reflexivity|].
      apply andb_true_iff in Hc. destruct Hc as [Hc _].
      apply Nat.ltb_lt in Hc. unfold tp in Hc.
      destruct (0 <? length sel)%nat eqn:Hz.
      * apply Nat.ltb_lt in Hz. now apply ceil_page.
      * apply Nat.ltb_ge in Hz. lia.
    + eexists. split; [reflexivity|]. simpl. split; [|reflexivity].
      now rewrite firstn_firstn, Nat.min_id.
Qed.

(** The fallback of the same listing: when the caller's site carries no
    franchise tag, the clients of the site are selected. *)
Lemma listar_clientes_por_sede (cu : CurrentUser) (db : DB) (S : string)
      (s : Sede) (limite : nat) :
  rol cu = "admin_sede" \/ rol cu = "estilista" ->
  cu_sede_id cu = Some S -> S <> "" ->
  sede_de S db = Some s -> truthy (py_get (s_franquicia_id s)) = false ->
  1 <= limite <= 500 ->
  listar_clientes None limite cu db
  = (Ok (map cliente_to_dict
           (firstn limite
              (filter (fun c => eq_str (c_sede_id c) S)
                      (collection_clients db)))),
     db).
Proof.
  intros Hrol Hcu HS Hs Ht [Hl1 Hl2].
  assert (Hin1 : in_list (rol cu) ["admin_sede"; "super_admin"; "estilista"]
                 = true) by (destruct Hrol as [-> | ->]; reflexivity).
  assert (Hin2 : in_list (rol cu) ["admin_sede"; "estilista"] = true)
    by (destruct Hrol as [-> | ->]; reflexivity).
  assert (Hb1 : (1 <=? limite)%nat = true) by (apply Nat.leb_le; lia).
  assert (Hb2 : (limite <=? 500)%nat = true) by (apply Nat.leb_le; lia).
  unfold listar_clientes, bind, raise_if, ret, read.
  rewrite Hb1, Hb2, Hin1, Hin2, Hcu. cbn [negb andb fst snd].
  rewrite (get_franquicia_de_sede S s db HS Hs).
  unfold filtro_base. rewrite Ht. reflexivity.
Qed.

End ClientesClaims.

Section ClientesEjemplos.
Import Clientes ClientesAcceso Props Ejemplos.

Lemma listados_por_franquicia_witness :
  listar_clientes None 500 admin_sd1 db2
  = (Ok (map cliente_to_dict
           (firstn 500 (filter (de_franquicia "FR-1") (collection_clients db2)))),
     db2)
  /\ exists res,
       listar_todos None 100 1 admin_sd1 db2 = (res, db2)
       /\ match res with
          | Ok r =>
              clientes r
              = map cliente_to_dict_ligero
                    (firstn 100
                       (skipn ((1 - 1) * 100)
                          (sort_by_nombre
                             (filter (de_franquicia "FR-1")
                                     (collection_clients db2)))))
              /\ total (metadata r)
                 = length (filter (de_franquicia "FR-1")
                                  (collection_clients db2))
          | Raise e =>
              status_code e = 404
              /\ 1 < 1
              /\ length (filter (de_franquicia "FR-1") (collection_clients db2))
                 <= (1 - 1) * 100
          end.
Proof.
  apply (listados_por_franquicia admin_sd1 db2 "SD-1" "FR-1"
           (mkSede "SD-1" "CO" (Str "FR-1")) 500 100 1);
    try reflexivity; try discriminate; try lia.
  left; reflexivity.
Defined.

(** The union of the three branches does not describe the listings: the
    caller is an admin_sede bound to SD-1, SD-1 carries franchise FR-1, and
    a client of SD-1 whose franchise tag is null belongs to the union;
    neither listing returns it. *)
Lemma listados_no_son_la_union :
  In cliente_previo (collection_clients db2)
  /\ scope_union "SD-1" "FR-1" cliente_previo = true
  /\ listar_clientes None 100 admin_sd1 db2
     = (Ok [cliente_to_dict cliente_nuevo], db2)
  /\ fst (listar_todos None 100 1 admin_sd1 db2)
     = Ok (mkPaginados [cliente_to_dict_ligero cliente_nuevo]
                       (mkMetadata 1 1 100 1 false false 1 1))
  /\ ~ (forall c, In c (collection_clients db2) ->
                  scope_union "SD-1" "FR-1" c = true ->
                  exists l, fst (listar_clientes None 100 admin_sd1 db2) = Ok l
                            /\ In (cliente_to_dict c) l).
Proof.
  split; [now left|]. split; [reflexivity|]. split; [reflexivity|].
  split; [reflexivity|].
  intros H. destruct (H cliente_previo (or_introl eq_refl) eq_refl)
    as [l [E Hin]].
  simpl in E. injection E as <-. simpl in Hin.
  destruct Hin as [Hin | []]. discriminate Hin.
Qed.

(** C1 at the failing input.  The caller is the admin_sede of SD-1, and
    SD-1 carries franchise FR-1.  The client CL-00001 is a client of SD-1
    whose own franchise tag is null, so it lies in the union the claim
    describes (the branch of the caller's site).  Both listings leave it
    out and return the other client of SD-1 only, while every other
    handler serves it to the same caller: [listar_por_id] lists it under
    the caller's site, [obtener_cliente] returns it and [editar_cliente]
    accepts an edit of it.
    The input arises through the handlers themselves: the same admin
    registers a client while SD-1 has no franchise and is listed it; a
    super_admin then assigns SD-1 to FR-1, which rewrites the tag of the
    site and of its two users and of no client; from then on the listing
    of the same admin is empty, and the client can still be read. *)
Theorem listados_omiten_cliente_de_la_sede :
  cu_sede_id admin_sd1 = Some "SD-1"
  /\ sede_de "SD-1" db2 = Some (mkSede "SD-1" "CO" (Str "FR-1"))
  /\ In cliente_previo (collection_clients db2)
  /\ c_sede_id cliente_previo = Str "SD-1"
  /\ c_franquicia_id cliente_previo = Null
  /\ scope_union "SD-1" "FR-1" cliente_previo = true
  /\ listar_clientes None 100 admin_sd1 db2
     = (Ok [cliente_to_dict cliente_nuevo], db2)
  /\ fst (listar_todos None 100 1 admin_sd1 db2)
     = Ok (mkPaginados [cliente_to_dict_ligero cliente_nuevo]
                       (mkMetadata 1 1 100 1 false false 1 1))
  /\ listar_por_id "SD-1" admin_sd1 db2
     = (Ok [cliente_previo; cliente_nuevo], db2)
  /\ obtener_cliente "CL-00001" admin_sd1 db2 = (Ok cliente_previo, db2)
  /\ fst (editar_cliente "CL-00001" (mkPayload "Berta B." None None None)
                         admin_sd1 db2)
     = Ok "Cliente actualizado"
  /\ (let alta := mkPayload "Berta" (Some "berta@correo.co")
                            (Some "3001112233") None in
      let creado := mkCliente 0x65f0c0ffee00000000000077%N (Str "CL-00077")
                              "Berta" (Str "berta@correo.co")
                              (Str "3001112233") (Str "SD-1") Null in
      let db_a := snd (crear_cliente alta admin_sd1 db1) in
      let db_b := snd (Franquicias.asignar_sede "FR-1" "SD-1" super_admin
                                                db_a) in
      fst (crear_cliente alta admin_sd1 db1) = Ok creado
      /\ fst (listar_clientes None 100 admin_sd1 db_a) = Ok [creado]
      /\ fst (Franquicias.asignar_sede "FR-1" "SD-1" super_admin db_a)
         = Ok (Franquicias.mkRespuesta true
                 (Franquicias.msg_asignada "SD-1" "FR-1") 2)
      /\ collection_clients db_b = [creado]
      /\ sede_de "SD-1" db_b = Some (mkSede "SD-1" "CO" (Str "FR-1"))
      /\ fst (listar_clientes None 100 admin_sd1 db_b) = Ok []
      /\ fst (listar_todos None 100 1 admin_sd1 db_b)
         = Ok (mkPaginados [] (mkMetadata 0 1 100 1 false false 0 0))
      /\ fst (listar_por_id "SD-1" admin_sd1 db_b) = Ok [creado]
      /\ fst (obtener_cliente "CL-00077" admin_sd1 db_b) = Ok creado).
Proof.
  split; [reflexivity|]. split; [reflexivity|]. split; [now left|].
  do 8 (split; [reflexivity|]).
  cbv zeta. repeat split; vm_compute; reflexivity.
Qed.

End ClientesEjemplos.

(* ===================================================================== *)
(** ** Clients: duplicate contact data on write *)
(* ===================================================================== *)

Section ClientesEscritura.
Import Clientes Props Alcance.
Context {ext : Externals}.

Lemma bind_ok {A B : Type} (m : Handler A) (k : A -> Handler B)
      (db db' : DB) (a : A) :
  m db = (Ok a, db') -> bind m k db = k a db'.
Proof. intros E. unfold bind. now rewrite E. Qed.

Lemma find_one_some_of_match {A : Type} (p : A -> bool) (c : list A) (x : A) :
  In x c -> p x = true -> exists y, find_one p c = Some y.
Proof.
  intros Hx Hp. unfold find_one. destruct (find p c) as [y|] eqn:E.
  - now exists y.
  - rewrite (find_none _ _ E x Hx) in Hp. discriminate.
Qed.

Lemma find_one_ext {A : Type} (p q : A -> bool) (c : list A) :
  (forall x, p x = q x) -> find_one p c = find_one q c.
Proof.
  intros E. unfold find_one. induction c as [|x c IH]; simpl; [reflexivity|].
  now rewrite E, IH.
Qed.

(** The duplicate check is a search for a client that shares the contact
    data and is not the excluded one. *)
Lemma verificar_eq (correo telefono exclude_id : option string) (db : DB) :
  verificar_duplicado_cliente correo telefono exclude_id db
  = (Ok (if negb (truthy correo) && negb (truthy telefono) then None
         else find_one (fun c => comparte_contacto correo telefono c
                                 && negb (excluido exclude_id c))
                       (collection_clients db)),
     db).
Proof.
  unfold verificar_duplicado_cliente.
  destruct (negb (truthy correo) && negb (truthy telefono)) eqn:E;
    [reflexivity|].
  unfold read. f_equal. f_equal. apply find_one_ext. intros c.
  unfold comparte_contacto, excluido.
  destruct exclude_id as [e|];
    [destruct (truthy (Some e)); [destruct (object_id_of e) as [oid|]|]|];
    destruct (truthy correo), (truthy telefono); try discriminate E;
    cbn [matches existsb forallb app andb orb negb doc_id cliente_document];
    change (doc_str c "correo") with (c_correo c);
    change (doc_str c "telefono") with (c_telefono c);
    destruct (eq_value (c_correo c) correo),
             (eq_value (c_telefono c) telefono);
    try destruct (c_oid c =? oid)%N; reflexivity.
Qed.

(** Editing a client leaves nobody but that client out of the check. *)
Lemma excluido_otro (c c' : Cliente) :
  c_oid c' <> c_oid c ->
  excluido (Some (str_object_id (c_oid c))) c' = false.
Proof.
  intros Hne. unfold excluido.
  destruct (object_id_of (str_object_id (c_oid c))) as [oid|] eqn:E;
    [|apply andb_false_r].
  apply object_id_of_str in E. subst oid.
  apply N.eqb_neq in Hne. rewrite Hne. apply andb_false_r.
Qed.

(** The edit path checks the contact data: when another client already
    holds the e-mail or the phone of the update, a super_admin's edit is
    refused with 400 and the store is left as it was. *)
Lemma editar_cliente_rechaza_duplicado (id : string) (u : ClientePayload)
      (cu : CurrentUser) (db : DB) (c c' : Cliente) :
  rol cu = "super_admin" ->
  buscar_cliente id db = (Ok (Some c), db) ->
  In c' (collection_clients db) ->
  c_oid c' <> c_oid c ->
  contacto_duplicado u c' = true ->
  exists campo,
    editar_cliente id u cu db
    = (Raise (HTTP 400 ("Ya existe otro cliente con este " ++ campo)), db).
Proof.
  intros Hr Hb Hin Hne Hdup.
  unfold editar_cliente. cbv zeta. rewrite Hr.
  erewrite bind_ok; [|reflexivity].
  erewrite bind_ok; [|exact Hb]. cbv beta iota.
  erewrite bind_ok; [|reflexivity].
  assert (Hq : exists y,
             verificar_duplicado_cliente (p_correo u) (p_telefono u)
               (Some (str_object_id (c_oid c))) db
             = (Ok (Some y), db)).
  { rewrite verificar_eq.
    change (contacto_duplicado u c')
      with (comparte_contacto (p_correo u) (p_telefono u) c') in Hdup.
    assert (Hn : negb (truthy (p_correo u)) && negb (truthy (p_telefono u))
                 = false).
    { unfold comparte_contacto in Hdup.
      destruct (truthy (p_correo u)), (truthy (p_telefono u));
        try reflexivity. discriminate Hdup. }
    rewrite Hn.
    destruct (find_one_some_of_match
                (fun x => comparte_contacto (p_correo u) (p_telefono u) x
                          && negb (excluido
                                     (Some (str_object_id (c_oid c))) x))
                (collection_clients db) c' Hin) as [y Hy].
    - now rewrite Hdup, (excluido_otro c c' Hne).
    - exists y. now rewrite Hy. }
  destruct Hq as [y Hy]. erewrite bind_ok; [|exact Hy].
  eexists. reflexivity.
Qed.

(** The create path never looks at the clients collection: for an allowed
    role and an existing site it inserts, whatever contact data the
    collection already holds. *)
Lemma crear_cliente_inserta (cliente : ClientePayload) (cu : CurrentUser)
      (db : DB) (S : string) (s : Sede) :
  in_list (rol cu) ["admin_sede"; "admin_franquicia"; "super_admin"] = true ->
  py_or (cu_sede_id cu) (p_sede_id cliente) = Some S -> S <> "" ->
  sede_de S db = Some s ->
  let data :=
    mkCliente (new_object_id db) (Str (generar_id "cliente" (Some S) db))
              (p_nombre cliente) (exclude_none (p_correo cliente))
              (exclude_none (p_telefono cliente)) (Str S)
              (store (py_get (s_franquicia_id s))) in
  crear_cliente cliente cu db
  = (Ok data, set_clients (collection_clients db ++ [data])%list db).
Proof.
  intros Hr Ho HS Hs data. unfold crear_cliente. cbv zeta.
  rewrite Hr, Ho.
  assert (HtS : truthy (Some S) = true).
  { simpl. apply String.eqb_neq in HS. now rewrite HS. }
  rewrite HtS.
  erewrite bind_ok; [|reflexivity].
  erewrite bind_ok; [|reflexivity].
  erewrite bind_ok; [|unfold read; unfold sede_de in Hs;
                      unfold Franquicias.by_sede_id in Hs; simpl eq_value;
                      rewrite Hs; reflexivity].
  reflexivity.
Qed.

End ClientesEscritura.

Section ClientesEscrituraEjemplos.
Import Clientes Props Ejemplos.

(** C8 at the failing input: a super_admin creates a client with the e-mail
    of an existing client; [crear_cliente] succeeds and a second document
    with that e-mail is inserted. *)
Theorem crear_cliente_acepta_duplicado :
  In cliente_previo (collection_clients db2)
  /\ contacto_duplicado payload_repetido cliente_previo = true
  /\ crear_cliente payload_repetido super_admin db2
     = (Ok cliente_repetido,
        set_clients [cliente_previo; cliente_nuevo; cliente_repetido] db2)
  /\ c_correo cliente_repetido = c_correo cliente_previo
  /\ c_oid cliente_repetido <> c_oid cliente_previo.
Proof.
  split; [now left|]. split; [reflexivity|].
  split; [reflexivity|]. split; [reflexivity|]. discriminate.
Qed.

(** The same payload sent through the edit path is refused. *)
Lemma editar_cliente_ejemplo :
  editar_cliente "CL-00002" payload_repetido super_admin db2
  = (Raise (HTTP 400 "Ya existe otro cliente con este correo"), db2).
Proof. reflexivity. Qed.

(** The edit path names the field by comparing the e-mails only: a phone
    held by a client without e-mail is reported as a duplicate "correo"
    when the update carries no e-mail either. *)
Lemma editar_cliente_nombra_correo :
  editar_cliente "CL-00002" payload_telefono super_admin db3
  = (Raise (HTTP 400 "Ya existe otro cliente con este correo"), db3).
Proof. reflexivity. Qed.

End ClientesEscrituraEjemplos.

(* ===================================================================== *)
(** ** Services: who gets which listing *)
(* ===================================================================== *)

Section ServiciosClaims.
Import Servicios Props.
Context {ext : Externals}.

Lemma filter_all {A : Type} (l : list A) : filter (fun _ => true) l = l.
Proof. induction l as [|x l IH]; simpl; [reflexivity | now rewrite IH]. Qed.

(** Every role other than admin_sede takes the branch written for
    super_admin and is handed the whole collection. *)
Lemma listar_servicios_otros_roles (cu : CurrentUser) (db : DB) :
  rol cu <> "admin_sede" ->
  listar_servicios None cu db = (Ok (collection_servicios db), db).
Proof.
  intros Hr. apply String.eqb_neq in Hr.
  unfold listar_servicios, bind, ret, read. rewrite Hr.
  unfold find_many. simpl. now rewrite filter_all.
Qed.

End ServiciosClaims.

Section ServiciosEjemplos.
Import Servicios Props Ejemplos.

(** C4 at the failing input: an admin_franquicia of FR-1 lists services and
    receives the service that is local to site SD-9 of franchise FR-2,
    which the scope filter for franchise FR-1 without a site rejects. *)
Theorem admin_franquicia_ve_todo :
  listar_servicios None admin_fr1 db2 = (Ok [servicio_fr2; servicio_sd9], db2)
  /\ matches regex_search_i (_build_sede_query None (Some "FR-1")) servicio_sd9
     = false
  /\ sv_franquicia_id servicio_sd9 = Str "FR-2"
  /\ sv_sede_id servicio_sd9 = Str "SD-9".
Proof. repeat split. Qed.

End ServiciosEjemplos.

(* ===================================================================== *)
(** ** Dashboard: resolving the window and the comparison window *)
(* ===================================================================== *)

Section DashboardFechas.
Import Dashboard Props.
Context {uni : Unicode}.

Lemma mk_datetime_start (y m d : Z) :
  mk_datetime y m d 0 0 0 0 = (ymd2ord y m d * DAY)%Z.
Proof. unfold mk_datetime. lia. Qed.

Lemma mk_datetime_end (y m d : Z) :
  mk_datetime y m d 23 59 59 999999 = (ymd2ord y m d * DAY + (DAY - 1))%Z.
Proof. unfold mk_datetime, DAY. lia. Qed.

Lemma days_span (a b : Z) :
  (a <= b)%Z -> days (b * DAY + (DAY - 1) - a * DAY) = (b - a)%Z.
Proof.
  intros Hab. unfold days. symmetry.
  apply (Z.div_unique _ _ _ (DAY - 1)); unfold DAY; lia.
Qed.

Lemma strptime_truthy (s : string) (y m d : Z) :
  strptime s = Parsed y m d -> truthy (Some s) = true.
Proof. destruct s; [discriminate | reflexivity]. Qed.

(** C6 (as the code has it). For a custom period whose two dates parse,
    [get_date_range] raises the start-after-end error when the start date
    is after the end date, raises the range-too-long error when the
    inclusive span exceeds 365 days, and otherwise returns the window from
    the first instant of the start date to the last microsecond of the end
    date, unchanged. *)
Theorem custom_range_validation (now : Now) (s e : string)
        (y m d y' m' d' : Z) :
  strptime s = Parsed y m d ->
  strptime e = Parsed y' m' d' ->
  let a := ymd2ord y m d in
  let b := ymd2ord y' m' d' in
  get_date_range now "custom" (Some s) (Some e)
  = if (b <? a)%Z then ValueError msg_inicio_posterior
    else if (365 <? b - a + 1)%Z then ValueError msg_rango_largo
         else Return ((a * DAY)%Z, (b * DAY + (DAY - 1))%Z).
Proof.
  intros Hs He a b. unfold get_date_range. simpl String.eqb. cbv iota.
  rewrite (strptime_truthy _ _ _ _ Hs), (strptime_truthy _ _ _ _ He).
  simpl negb. simpl orb. cbv iota. rewrite Hs, He.
  rewrite mk_datetime_start, mk_datetime_end. fold a b.
  destruct (b <? a)%Z eqn:Hba.
  - apply Z.ltb_lt in Hba.
    assert (E : (a * DAY >? b * DAY + (DAY - 1))%Z = true).
    { apply Z.gtb_lt. unfold DAY. lia. }
    now rewrite E.
  - apply Z.ltb_ge in Hba.
    assert (E : (a * DAY >? b * DAY + (DAY - 1))%Z = false).
    { rewrite Z.gtb_ltb. apply Z.ltb_ge. unfold DAY. lia. }
    rewrite E. rewrite (days_span a b Hba). rewrite Z.gtb_ltb. reflexivity.
Qed.

End DashboardFechas.

Section DashboardFechasEjemplos.
Import Dashboard Props Ejemplos.

Lemma custom_range_validation_witness :
  get_date_range Ejemplos.ahora "custom" (Some "01-01-2024") (Some "30-12-2024")
  = Return ((738886 * DAY)%Z, (739250 * DAY + (DAY - 1))%Z)
  /\ get_date_range Ejemplos.ahora "custom" (Some "02-01-2024") (Some "01-01-2024")
     = ValueError msg_inicio_posterior
  /\ get_date_range Ejemplos.ahora "custom" (Some "01-01-2023") (Some "01-01-2024")
     = ValueError msg_rango_largo.
Proof.
  split; [|split].
  - exact (custom_range_validation Ejemplos.ahora "01-01-2024" "30-12-2024"
             2024 1 1 2024 12 30 eq_refl eq_refl).
  - exact (custom_range_validation Ejemplos.ahora "02-01-2024" "01-01-2024"
             2024 1 2 2024 1 1 eq_refl eq_refl).
  - exact (custom_range_validation Ejemplos.ahora "01-01-2023" "01-01-2024"
             2023 1 1 2024 1 1 eq_refl eq_refl).
Defined.

(** C6 as stated does not hold: 1 January to 31 December 2024 has its start
    before its end and spans exactly 366 days, and it is refused. *)
Lemma rango_de_366_dias_rechazado :
  strptime "01-01-2024" = Parsed 2024 1 1
  /\ strptime "31-12-2024" = Parsed 2024 12 31
  /\ (ymd2ord 2024 12 31 - ymd2ord 2024 1 1 + 1 = 366)%Z
  /\ get_date_range Ejemplos.ahora "custom" (Some "01-01-2024") (Some "31-12-2024")
     = ValueError msg_rango_largo.
Proof. repeat split. Qed.

End DashboardFechasEjemplos.

Section DashboardVentanas.
Import Dashboard Props.
Context {N : Type} `{Numeric N}.
Context {uni : Unicode} {val : Validador}.

(** What a successful call of the endpoint has computed. *)
Lemma ventas_dashboard_inv (now : Now) (period : string)
      (sd ed sede : option string) (cu : CurrentUser)
      (ventas : list (Venta (N := N))) (p : Periodos) :
  ventas_dashboard now period sd ed sede cu ventas = Ok p ->
  get_date_range now period sd ed = Return (start_date_dt p, end_date_dt p)
  /\ dias_periodo p = (days (end_date_dt p - start_date_dt p) + 1)%Z
  /\ start_anterior p = (start_date_dt p - timedelta (dias_periodo p))%Z
  /\ end_anterior p = (start_date_dt p - timedelta 1)%Z
  /\ ventas_actuales p
     = get_ventas_periodo (start_date_dt p) (end_date_dt p)
                          (sede_consultada p) ventas
  /\ ventas_anteriores p
     = get_ventas_periodo (start_anterior p) (end_anterior p)
                          (sede_consultada p) ventas.
Proof.
  unfold ventas_dashboard.
  destruct (negb (pattern_ok sd && pattern_ok ed)); [discriminate|].
  destruct (negb (Clientes.in_list (rol cu) _)); [discriminate|].
  match goal with
  | |- match ?g with _ => _ end = _ -> _ => destruct g as [sede'|]; [|discriminate]
  end.
  destruct (get_date_range now period sd ed) as [[a b]|]; [|discriminate].
  intros E. injection E as <-. simpl. repeat split.
Qed.

(** The comparison window ends at the first instant of the day before the
    current window: a sale paid later on that day is matched by neither
    query. *)
Lemma periodo_anterior_hueco (now : Now) (period : string)
      (sd ed sede : option string) (cu : CurrentUser)
      (ventas : list (Venta (N := N))) (p : Periodos) (v : Venta) :
  ventas_dashboard now period sd ed sede cu ventas = Ok p ->
  (start_date_dt p - DAY < fecha_pago v < start_date_dt p)%Z ->
  ~ In v (ventas_actuales p) /\ ~ In v (ventas_anteriores p).
Proof.
  intros Hp Hv.
  destruct (ventas_dashboard_inv _ _ _ _ _ _ _ _ Hp)
    as [_ [_ [_ [Hea [Hva Hvp]]]]].
  rewrite Hva, Hvp, Hea. unfold get_ventas_periodo, find_many, timedelta.
  split; intros Hin; apply filter_In in Hin; destruct Hin as [_ Hb];
    apply andb_true_iff in Hb; destruct Hb as [Hb _];
    apply andb_true_iff in Hb; destruct Hb as [Hb1 Hb2];
    apply Z.leb_le in Hb1, Hb2; lia.
Qed.

(** The two windows never overlap. *)
Lemma periodos_sin_solape (now : Now) (period : string)
      (sd ed sede : option string) (cu : CurrentUser)
      (ventas : list (Venta (N := N))) (p : Periodos) (v : Venta) :
  ventas_dashboard now period sd ed sede cu ventas = Ok p ->
  In v (ventas_actuales p) -> ~ In v (ventas_anteriores p).
Proof.
  intros Hp Hin1 Hin2.
  destruct (ventas_dashboard_inv _ _ _ _ _ _ _ _ Hp)
    as [_ [_ [_ [Hea [Hva Hvp]]]]].
  rewrite Hva in Hin1. rewrite Hvp, Hea in Hin2.
  unfold get_ventas_periodo, find_many, timedelta in *.
  apply filter_In in Hin1, Hin2.
  destruct Hin1 as [_ Hb1], Hin2 as [_ Hb2].
  apply andb_true_iff in Hb1, Hb2. destruct Hb1 as [Hb1 _], Hb2 as [Hb2 _].
  apply andb_true_iff in Hb1, Hb2. destruct Hb1 as [Hb1 _], Hb2 as [_ Hb2].
  apply Z.leb_le in Hb1, Hb2. unfold DAY in *. lia.
Qed.

(** A date error of [get_date_range] reaches the caller as a 400 carrying
    the same message. *)
Lemma ventas_dashboard_400 (now : Now) (period : string)
      (sd ed sede : option string) (cu : CurrentUser)
      (ventas : list (Venta (N := N))) (m : string) :
  pattern_ok sd = true -> pattern_ok ed = true ->
  rol cu = "super_admin" \/ rol cu = "admin_franquicia" ->
  get_date_range now period sd ed = ValueError m ->
  ventas_dashboard now period sd ed sede cu ventas = Raise (HTTP 400 m).
Proof.
  intros H1 H2 Hr Hg. unfold ventas_dashboard. rewrite H1, H2, Hg.
  destruct Hr as [-> | ->]; reflexivity.
Qed.

End DashboardVentanas.

Section DashboardVentanasEjemplo.
Import Dashboard Props Ejemplos.

(** C5 at the failing input: the dashboard for "today", asked on
    2 January 2024, compares against a window that starts and ends at
    2024-01-01 00:00:00: the sale paid at noon on 1 January, inside the day
    immediately before the current window, is in neither period, and the
    comparison window is one instant long while the current one is a day
    long. *)
Theorem periodo_anterior_pierde_el_dia_previo :
  match ventas_dashboard ahora "today" None None None super_admin [venta_ayer]
  with
  | Ok p =>
      start_date_dt p = mk_datetime 2024 1 2 0 0 0 0
      /\ end_date_dt p = mk_datetime 2024 1 2 23 59 59 999999
      /\ dias_periodo p = 1%Z
      /\ start_anterior p = mk_datetime 2024 1 1 0 0 0 0
      /\ end_anterior p = mk_datetime 2024 1 1 0 0 0 0
      /\ (start_date_dt p - timedelta 1 <= fecha_pago venta_ayer
          < start_date_dt p)%Z
      /\ ventas_anteriores p = []
      /\ ventas_actuales p = []
  | Raise _ => False
  end.
Proof. vm_compute. repeat split; discriminate. Qed.

End DashboardVentanasEjemplo.

(* ===================================================================== *)
(** ** Dashboard: per-currency aggregation *)
(* ===================================================================== *)

Section DictLemmas.
Import Dashboard.
Context {K V : Type}.
Variable keqb : K -> K -> bool.
Hypothesis keqb_eq : forall a b, keqb a b = true <-> a = b.

Lemma keqb_refl (a : K) : keqb a a = true.
Proof. now apply keqb_eq. Qed.

Lemma dict_get_app (k k' : K) (v : V) (d : list (K * V)) :
  dict_get keqb k (d ++ [(k', v)])
  = match dict_get keqb k d with
    | Some x => Some x
    | None => if keqb k' k then Some v else None
    end.
Proof.
  induction d as [|[k0 v0] d IH]; simpl; [reflexivity|].
  destruct (keqb k0 k); [reflexivity | exact IH].
Qed.

Lemma dict_get_update (k k' : K) (f : V -> V) (d : list (K * V)) :
  dict_get keqb k (dict_update keqb k' f d)
  = if keqb k' k then option_map f (dict_get keqb k d)
    else dict_get keqb k d.
Proof.
  induction d as [|[k0 v0] d IH]; simpl.
  - now destruct (keqb k' k).
  - destruct (keqb k0 k') eqn:E0; simpl.
    + apply keqb_eq in E0. subst k0.
      destruct (keqb k' k); reflexivity.
    + destruct (keqb k0 k) eqn:E1.
      * apply keqb_eq in E1. subst k0.
        destruct (keqb k' k) eqn:E2; [|reflexivity].
        apply keqb_eq in E2. subst k'. rewrite keqb_refl in E0. discriminate.
      * exact IH.
Qed.

Lemma dict_update_keys (k : K) (f : V -> V) (d : list (K * V)) :
  map fst (dict_update keqb k f d) = map fst d.
Proof.
  induction d as [|[k0 v0] d IH]; simpl; [reflexivity|].
  destruct (keqb k0 k); simpl; [reflexivity | now rewrite IH].
Qed.

Lemma dict_get_map (k : K) (g : V -> V) (d : list (K * V)) :
  dict_get keqb k (map (fun kv => (fst kv, g (snd kv))) d)
  = option_map g (dict_get keqb k d).
Proof.
  induction d as [|[k0 v0] d IH]; simpl; [reflexivity|].
  destruct (keqb k0 k); [reflexivity | exact IH].
Qed.

Lemma dict_update_Forall (P : V -> Prop) (k : K) (f : V -> V)
      (d : list (K * V)) :
  (forall v, P v -> P (f v)) ->
  Forall (fun kv => P (snd kv)) d ->
  Forall (fun kv => P (snd kv)) (dict_update keqb k f d).
Proof.
  intros Hf. induction 1 as [|[k0 v0] d Hv Hd IH]; simpl; [constructor|].
  destruct (keqb k0 k); constructor; simpl in *; auto.
Qed.

End DictLemmas.

Lemma option_eqb_eq (a b : option string) :
  Clientes.option_eqb a b = true <-> a = b.
Proof.
  destruct a as [x|], b as [y|]; simpl; split; intros E;
    try discriminate; try reflexivity.
  - apply String.eqb_eq in E. now subst.
  - injection E as ->. apply String.eqb_refl.
Qed.

Section MetricasInvariante.
Import Dashboard Props.
Context {N : Type} `{Numeric N}.

Lemma acumular_item_frame (m : Metricas) (i : Item) :
  metodos_pago (acumular_item m i) = metodos_pago m
  /\ ventas_totales (acumular_item m i) = ventas_totales m
  /\ cantidad_ventas (acumular_item m i) = cantidad_ventas m.
Proof.
  unfold acumular_item.
  destruct (Clientes.option_eqb _ (Some "servicio")); [now simpl|].
  destruct (Clientes.option_eqb _ (Some "producto")); now simpl.
Qed.

Lemma acumular_items_frame (l : list Item) (m : Metricas) :
  metodos_pago (fold_left acumular_item l m) = metodos_pago m
  /\ ventas_totales (fold_left acumular_item l m) = ventas_totales m
  /\ cantidad_ventas (fold_left acumular_item l m) = cantidad_ventas m.
Proof.
  revert m. induction l as [|i l IH]; intros m; simpl; [now repeat split|].
  destruct (IH (acumular_item m i)) as [E1 [E2 E3]].
  destruct (acumular_item_frame m i) as [F1 [F2 F3]].
  rewrite E1, E2, E3. now repeat split.
Qed.

Lemma acumular_metodo_ok (desglose mp : list (string * N)) (metodo : string) :
  metodo <> "sin_pago" ->
  map fst (acumular_metodo desglose mp metodo) = map fst mp
  /\ dict_get String.eqb "sin_pago" (acumular_metodo desglose mp metodo)
     = dict_get String.eqb "sin_pago" mp.
Proof.
  intros Hne. unfold acumular_metodo.
  destruct (positive (get_amount metodo desglose)); [|now split].
  split; [apply dict_update_keys|].
  rewrite (dict_get_update String.eqb String.eqb_eq).
  apply String.eqb_neq in Hne. now rewrite Hne.
Qed.

Lemma acumular_metodos_ok (desglose : list (string * N)) (ms : list string)
      (mp : list (string * N)) :
  Forall (fun x => x <> "sin_pago") ms ->
  map fst (fold_left (acumular_metodo desglose) ms mp) = map fst mp
  /\ dict_get String.eqb "sin_pago" (fold_left (acumular_metodo desglose) ms mp)
     = dict_get String.eqb "sin_pago" mp.
Proof.
  intros Hms. revert mp.
  induction Hms as [|x ms Hx Hms IH]; intros mp; simpl; [now split|].
  destruct (IH (acumular_metodo desglose mp x)) as [E1 E2].
  destruct (acumular_metodo_ok desglose mp x Hx) as [F1 F2].
  rewrite E1, E2. now split.
Qed.

Lemma metodos_sin_sin_pago : Forall (fun x => x <> "sin_pago") metodos.
Proof. unfold metodos. repeat constructor; discriminate. Qed.

Lemma acumular_venta_metodos (v : Venta) (m : Metricas) :
  metodos_pago (acumular_venta v m)
  = fold_left (acumular_metodo (get_desglose v)) metodos (metodos_pago m).
Proof.
  unfold acumular_venta. cbn [metodos_pago]. f_equal.
  exact (proj1 (acumular_items_frame _ _)).
Qed.

Lemma acumular_venta_totales (v : Venta) (m : Metricas) :
  ventas_totales (acumular_venta v m) = add (ventas_totales m) (total_de v)
  /\ cantidad_ventas (acumular_venta v m) = cantidad_ventas m + 1.
Proof.
  unfold acumular_venta. cbn [ventas_totales cantidad_ventas].
  split.
  - exact (proj1 (proj2 (acumular_items_frame _ _))).
  - exact (proj2 (proj2 (acumular_items_frame _ _))).
Qed.

Lemma acumular_venta_ok (v : Venta) (m : Metricas) :
  bucket_ok m -> bucket_ok (acumular_venta v m).
Proof.
  intros [K Z0]. unfold bucket_ok. rewrite acumular_venta_metodos.
  destruct (acumular_metodos_ok (get_desglose v) metodos (metodos_pago m)
              metodos_sin_sin_pago) as [F1 F2].
  rewrite F1, F2. now split.
Qed.

Lemma metricas_iniciales_ok : bucket_ok (metricas_iniciales (N := N)).
Proof. split; reflexivity. Qed.

Lemma procesar_venta_ok (d : list (option string * Metricas)) (v : Venta) :
  Forall (fun kv => bucket_ok (snd kv)) d ->
  Forall (fun kv => bucket_ok (snd kv)) (procesar_venta d v).
Proof.
  intros Hd. unfold procesar_venta.
  apply (dict_update_Forall moneda_eqb bucket_ok).
  - apply acumular_venta_ok.
  - destruct (dict_has moneda_eqb (moneda_de v) d); [assumption|].
    apply Forall_app. split; [assumption|].
    constructor; [apply metricas_iniciales_ok | constructor].
Qed.

Lemma acumulado_ok (ventas : list Venta) (d : list (option string * Metricas)) :
  Forall (fun kv => bucket_ok (snd kv)) d ->
  Forall (fun kv => bucket_ok (snd kv)) (fold_left procesar_venta ventas d).
Proof.
  revert d. induction ventas as [|v ventas IH]; intros d Hd; simpl;
    [assumption|].
  apply IH. now apply procesar_venta_ok.
Qed.

Lemma map_fst_cons_inv {A B : Type} (l : list (A * B)) (k : A) (ks : list A) :
  map fst l = k :: ks ->
  exists v l', l = (k, v) :: l' /\ map fst l' = ks.
Proof.
  destruct l as [|[k0 v0] l]; simpl; [discriminate|].
  intros E. injection E as -> E. now exists v0, l.
Qed.

Lemma promediar_claves (m : Metricas) :
  bucket_ok m ->
  map fst (metodos_pago (promediar_y_redondear m)) = claves_metodos.
Proof.
  intros [K Z0]. unfold promediar_y_redondear. cbn [metodos_pago].
  unfold get_amount.
  rewrite (dict_get_map String.eqb "sin_pago" round2), Z0. simpl option_map.
  cbv iota. rewrite is_zero_round2_zero. clear Z0.
  revert K. generalize (metodos_pago m) as mp. intros mp K. simpl in K.
  do 11 (destruct mp as [|[? ?] mp]; [discriminate K|];
         simpl in K; injection K as -> K).
  destruct mp; [|discriminate K]. reflexivity.
Qed.

End MetricasInvariante.

Section MetricasClaims.
Import Dashboard Props.
Context {N : Type} `{Numeric N}.

(** C7 (as the code has it). In every currency bucket returned by
    [calcular_metricas_financieras], [metodos_pago] has exactly the ten keys
    efectivo, transferencia, tarjeta, otros, addi, giftcard, link_de_pago,
    tarjeta_credito, tarjeta_debito and abonos, whatever their values:
    only [sin_pago], which is never added to, is removed. *)
Theorem metodos_pago_claves (ventas : list (Venta (N := N))) :
  Forall (fun kv => map fst (metodos_pago (snd kv)) = claves_metodos)
         (calcular_metricas_financieras ventas).
Proof.
  unfold calcular_metricas_financieras.
  apply Forall_map. simpl.
  assert (Hok := acumulado_ok ventas [] (Forall_nil _)).
  eapply Forall_impl; [|exact Hok].
  intros [k m] Hm. now apply promediar_claves.
Qed.

(** The bucket of currency [k] after one more sale. *)
Lemma procesar_venta_get (k : option string)
      (d : list (option string * Metricas)) (v : Venta) :
  dict_get moneda_eqb k (procesar_venta d v)
  = if de_moneda k v
    then Some (acumular_venta v
                 (match dict_get moneda_eqb k d with
                  | Some m => m
                  | None => metricas_iniciales
                  end))
    else dict_get moneda_eqb k d.
Proof.
  unfold procesar_venta, de_moneda, dict_has.
  rewrite (dict_get_update moneda_eqb option_eqb_eq).
  destruct (moneda_eqb (moneda_de v) k) eqn:E.
  - apply option_eqb_eq in E. subst k.
    destruct (dict_get moneda_eqb (moneda_de v) d) as [m|] eqn:G.
    + now rewrite G.
    + rewrite dict_get_app, G.
      now rewrite (keqb_refl moneda_eqb option_eqb_eq).
  - destruct (dict_get moneda_eqb (moneda_de v) d) as [m|] eqn:G;
      [reflexivity|].
    rewrite dict_get_app, E. now destruct (dict_get moneda_eqb k d).
Qed.

(** The bucket of currency [k] after all the sales: the sales of that
    currency, in order, accumulated into it. *)
Lemma acumulado_get (k : option string) (ventas : list Venta)
      (d : list (option string * Metricas)) :
  dict_get moneda_eqb k (fold_left procesar_venta ventas d)
  = match filter (de_moneda k) ventas with
    | [] => dict_get moneda_eqb k d
    | l => Some (acumular l
                   (match dict_get moneda_eqb k d with
                    | Some m => m
                    | None => metricas_iniciales
                    end))
    end.
Proof.
  revert d. induction ventas as [|v ventas IH]; intros d; simpl;
    [reflexivity|].
  rewrite IH, procesar_venta_get.
  destruct (de_moneda k v) eqn:E; simpl.
  - unfold acumular. simpl.
    now destruct (filter (de_moneda k) ventas).
  - reflexivity.
Qed.

Lemma acumular_totales (l : list Venta) (m : Metricas) :
  cantidad_ventas (acumular l m) = cantidad_ventas m + length l
  /\ ventas_totales (acumular l m)
     = fold_left add (map total_de l) (ventas_totales m).
Proof.
  unfold acumular. revert m. induction l as [|v l IH]; intros m; simpl.
  - split; [lia | reflexivity].
  - destruct (IH (acumular_venta v m)) as [E1 E2].
    destruct (acumular_venta_totales v m) as [F1 F2].
    rewrite E1, E2, F1, F2. split; [lia | reflexivity].
Qed.

(** C10. A sale without a [moneda] field is filed under "COP": whenever the
    input holds such a sale, the result has a "COP" bucket whose sale count
    is the number of sales filed under "COP" (that sale among them) and
    whose total is the rounded sum of their totals. *)
Theorem venta_sin_moneda_en_COP (ventas : list (Venta (N := N))) (v : Venta) :
  In v ventas ->
  moneda v = Absent ->
  let cop := filter (de_moneda (Some "COP")) ventas in
  In v cop
  /\ exists m,
       dict_get moneda_eqb (Some "COP") (calcular_metricas_financieras ventas)
       = Some m
       /\ cantidad_ventas m = length cop
       /\ ventas_totales m = round2 (suma (map total_de cop)).
Proof.
  intros Hin Hm cop.
  assert (Hv : In v cop).
  { apply filter_In. split; [assumption|].
    unfold de_moneda, moneda_de. now rewrite Hm. }
  split; [assumption|].
  unfold calcular_metricas_financieras.
  rewrite (dict_get_map moneda_eqb (Some "COP") promediar_y_redondear).
  rewrite acumulado_get. fold cop. simpl dict_get.
  destruct cop as [|x cop'] eqn:Ec; [contradiction|].
  eexists. split; [reflexivity|].
  destruct (acumular_totales (x :: cop') metricas_iniciales) as [E1 E2].
  unfold promediar_y_redondear. cbn [cantidad_ventas ventas_totales].
  rewrite E1, E2. split; reflexivity.
Qed.

End MetricasClaims.

Section MetricasEjemplos.
Import Dashboard Props Ejemplos.

Lemma venta_sin_moneda_en_COP_witness :
  let ventas := [venta_usd; venta_ayer; venta_cop] in
  let cop := filter (de_moneda (Some "COP")) ventas in
  In venta_ayer cop
  /\ exists m,
       dict_get moneda_eqb (Some "COP") (calcular_metricas_financieras ventas)
       = Some m
       /\ cantidad_ventas m = length cop
       /\ ventas_totales m = round2 (suma (map total_de cop)).
Proof.
  apply (venta_sin_moneda_en_COP [venta_usd; venta_ayer; venta_cop] venta_ayer).
  - right; left; reflexivity.
  - reflexivity.
Defined.

(** C7 as stated does not hold: after one cash sale, the COP bucket still
    lists transferencia (and eight more methods) with the value zero. *)
Lemma metodos_en_cero_presentes :
  exists m,
    dict_get moneda_eqb (Some "COP") (calcular_metricas_financieras [venta_ayer])
    = Some m
    /\ dict_get String.eqb "transferencia" (metodos_pago m) = Some 0%Q
    /\ is_zero 0%Q = true
    /\ dict_get String.eqb "sin_pago" (metodos_pago m) = None.
Proof. eexists. repeat split. Qed.

End MetricasEjemplos.

(* ===================================================================== *)
(** ** Further properties: franchise membership *)
(* ===================================================================== *)

Section FranquiciasMas.
Import Franquicias FranquiciasAdmin Props Invariantes.

(** Where the documents of an updated collection come from. *)
Lemma in_update_one {A : Type} (p : A -> bool) (u : A -> A) (c : list A)
      (x : A) :
  In x (update_one p u c) ->
  In x c \/ exists d, find_one p c = Some d /\ x = u d.
Proof.
  unfold find_one. induction c as [|d c IH]; simpl; [tauto|].
  destruct (p d) eqn:E; simpl.
  - intros [<- | Hx]; [right; now exists d | left; now right].
  - intros [<- | Hx]; [left; now left|].
    destruct (IH Hx) as [H | H]; [left; now right | now right].
Qed.

(** With unique keys, the documents an update by key leaves alone carry
    another key. *)
Lemma in_update_one_unique {A : Type} (key : A -> string) (k : string)
      (u : A -> A) (c : list A) (x : A) :
  NoDup (map key c) ->
  In x (update_one (fun d => key d =? k) u c) ->
  (In x c /\ key x <> k)
  \/ exists d, find_one (fun d => key d =? k) c = Some d /\ x = u d.
Proof.
  unfold find_one. induction c as [|d c IH]; simpl; [tauto|].
  intros Hnd. inversion Hnd as [|? ? Hni Hnd']; subst.
  destruct (key d =? k) eqn:E; simpl.
  - apply String.eqb_eq in E.
    intros [<- | Hx]; [right; now exists d|].
    left. split; [now right|]. intros Hk. apply Hni.
    rewrite E, <- Hk. now apply in_map.
  - apply String.eqb_neq in E.
    intros [<- | Hx]; [left; split; [now left | assumption]|].
    destruct (IH Hnd' Hx) as [[H1 H2] | H]; [left; split; [now right | assumption]
                                            | now right].
Qed.

Lemma asignar_sede_db (fid sid : string) (cu : CurrentUser) (db db' : DB)
      (r : Respuesta) :
  asignar_sede fid sid cu db = (Ok r, db') ->
  db' = db_asignada fid sid db
  /\ exists f s, franquicia_de fid db = Some f /\ sede_de sid db = Some s.
Proof.
  intros H1.
  destruct (asignar_sede_inv _ _ _ _ _ _ H1) as [Hr [f [s [Hf [Hs Hn]]]]].
  rewrite (asignar_sede_ok _ _ _ _ f s Hr Hf Hs Hn) in H1.
  injection H1 as _ <-. split; [reflexivity|]. now exists f, s.
Qed.

Lemma quitar_sede_inv (fid sid : string) (cu : CurrentUser) (db db' : DB)
      (r : Respuesta) :
  quitar_sede fid sid cu db = (Ok r, db') ->
  db' = db_desasignada fid sid db
  /\ rol cu = "super_admin"
  /\ exists f, franquicia_de fid db = Some f /\ mem sid (get_sedes f) = true.
Proof.
  intros H1. assert (H2 := H1). revert H2.
  unfold franquicia_de.
  unfold quitar_sede at 1, bind, read, write, raise_if, ret, raise.
  destruct (rol cu =? "super_admin") eqn:Hr; simpl; [|discriminate].
  apply String.eqb_eq in Hr.
  destruct (find_one (by_franquicia_id fid) (collection_franquicia db))
    as [f|] eqn:Hf; [|discriminate].
  destruct (mem sid (get_sedes f)) eqn:Hm; simpl; [|discriminate].
  intros _.
  rewrite (quitar_sede_ok _ _ _ _ f Hr Hf Hm) in H1.
  injection H1 as _ <-. split; [reflexivity|]. split; [assumption|].
  now exists f.
Qed.

End FranquiciasMas.

Section FranquiciasExtras.
Import Franquicias FranquiciasAdmin Props Invariantes.

(** X1. For a super_admin caller, [quitar_sede] answers 404 when the
    franchise does not exist, 400 when the site is not in the franchise's
    list (whatever the site's own tag says), and otherwise succeeds: the
    site leaves the list, the tag of the site and of its users is removed,
    and the counter is the number of user documents whose tag changed.  A
    failing call leaves the store as it was. *)
Theorem quitar_sede_outcomes (fid sid : string) (cu : CurrentUser) (db : DB) :
  rol cu = "super_admin" ->
  match franquicia_de fid db with
  | None =>
      quitar_sede fid sid cu db
      = (Raise (HTTP 404 "Franquicia no encontrada"), db)
  | Some f =>
      if mem sid (get_sedes f)
      then desasignada_con_conteo fid sid cu db
      else quitar_sede fid sid cu db
           = (Raise (HTTP 400 ("La sede '" ++ sid
                                ++ "' no pertenece a esta franquicia")), db)
  end.
Proof.
  intros Hr. destruct (franquicia_de fid db) as [f|] eqn:Hf.
  - destruct (mem sid (get_sedes f)) eqn:Hm.
    + unfold desasignada_con_conteo. do 2 eexists.
      split; [exact (quitar_sede_ok _ _ _ _ f Hr Hf Hm)|].
      simpl. split; [reflexivity|]. split; [apply modified_count_tags|].
      split; [|split].
      * exists (pull_sedes sid f). split; [|apply not_in_pull].
        unfold franquicia_de, db_desasignada in *. simpl.
        rewrite find_one_update_one by (intros d E; exact E).
        now rewrite Hf.
      * unfold sede_de, db_desasignada. simpl. intros s'.
        rewrite find_one_update_one by (intros d E; exact E).
        destruct (find_one (by_sede_id sid) (collection_locales db));
          simpl; [|discriminate]. intros E. now injection E as <-.
      * unfold db_desasignada. simpl. intros x Hx Hp.
        apply in_update_many in Hx. destruct Hx as [d [_ ->]].
        destruct (user_of_sede sid d) eqn:E; [reflexivity|]. congruence.
    + unfold franquicia_de in Hf.
      unfold quitar_sede, bind, read, write, raise_if, ret, raise.
      rewrite Hr. simpl. now rewrite Hf, Hm.
  - unfold franquicia_de in Hf.
    unfold quitar_sede, bind, read, write, raise_if, ret, raise.
    rewrite Hr. simpl. now rewrite Hf.
Qed.

Lemma quitar_sede_outcomes_witness :
  rol Ejemplos.super_admin = "super_admin"
  /\ desasignada_con_conteo "FR-2" "SD-9" Ejemplos.super_admin Ejemplos.db1
  /\ quitar_sede "FR-1" "SD-9" Ejemplos.super_admin Ejemplos.db1
     = (Raise (HTTP 400 "La sede 'SD-9' no pertenece a esta franquicia"),
        Ejemplos.db1)
  /\ quitar_sede "FR-3" "SD-9" Ejemplos.super_admin Ejemplos.db1
     = (Raise (HTTP 404 "Franquicia no encontrada"), Ejemplos.db1).
Proof.
  split; [reflexivity|].
  split; [exact (quitar_sede_outcomes "FR-2" "SD-9" Ejemplos.super_admin
                   Ejemplos.db1 eq_refl)|].
  split; [exact (quitar_sede_outcomes "FR-1" "SD-9" Ejemplos.super_admin
                   Ejemplos.db1 eq_refl)|].
  exact (quitar_sede_outcomes "FR-3" "SD-9" Ejemplos.super_admin
           Ejemplos.db1 eq_refl).
Defined.

(** X2. [quitar_sede] is not idempotent: after a successful call, the same
    call again is refused with 400 (the site is no longer in the list) and
    changes nothing. *)
Theorem quitar_sede_dos_veces (fid sid : string) (cu : CurrentUser)
        (db db1 : DB) (r1 : Respuesta) :
  quitar_sede fid sid cu db = (Ok r1, db1) ->
  quitar_sede fid sid cu db1
  = (Raise (HTTP 400 ("La sede '" ++ sid
                       ++ "' no pertenece a esta franquicia")), db1).
Proof.
  intros H1. destruct (quitar_sede_inv _ _ _ _ _ _ H1)
    as [-> [Hr [f [Hf Hm]]]].
  assert (Hf1 : find_one (by_franquicia_id fid)
                  (collection_franquicia (db_desasignada fid sid db))
                = Some (pull_sedes sid f)).
  { unfold franquicia_de, db_desasignada in *. simpl.
    rewrite find_one_update_one by (intros d E; exact E). now rewrite Hf. }
  assert (Hm1 : mem sid (get_sedes (pull_sedes sid f)) = false).
  { destruct (mem sid (get_sedes (pull_sedes sid f))) eqn:E; [|reflexivity].
    apply mem_In in E. now apply not_in_pull in E. }
  unfold quitar_sede. rewrite Hr.
  erewrite bind_ok; [|reflexivity].
  erewrite bind_ok; [|unfold read; rewrite Hf1; reflexivity].
  cbv beta iota. rewrite Hm1. reflexivity.
Qed.

Lemma quitar_sede_dos_veces_witness :
  quitar_sede "FR-2" "SD-9" Ejemplos.super_admin
              (db_desasignada "FR-2" "SD-9" Ejemplos.db1)
  = (Raise (HTTP 400 "La sede 'SD-9' no pertenece a esta franquicia"),
     db_desasignada "FR-2" "SD-9" Ejemplos.db1).
Proof.
  exact (quitar_sede_dos_veces "FR-2" "SD-9" Ejemplos.super_admin
           Ejemplos.db1 _ _ eq_refl).
Defined.

End FranquiciasExtras.

Section FranquiciasBorrado.
Import Franquicias FranquiciasAdmin Props Invariantes.

Lemma delete_one_length {A : Type} (p : A -> bool) (c : list A) (d : A) :
  find_one p c = Some d -> length (delete_one p c) + 1 = length c.
Proof.
  unfold find_one. induction c as [|x c IH]; simpl; [discriminate|].
  destruct (p x); simpl; intros E; [lia|]. rewrite <- (IH E). lia.
Qed.

Lemma find_one_delete_other {A : Type} (p q : A -> bool) (c : list A) :
  (forall d, p d = true -> q d = false) ->
  find_one q (delete_one p c) = find_one q c.
Proof.
  intros Hpq. unfold find_one. induction c as [|x c IH]; simpl; [reflexivity|].
  destruct (p x) eqn:E; simpl.
  - now rewrite (Hpq x E).
  - now rewrite IH.
Qed.

Lemma find_one_inserted {A : Type} (p : A -> bool) (c : list A) (d : A) :
  find_one p c = None -> p d = true -> find_one p (insert_one d c) = Some d.
Proof.
  unfold find_one, insert_one. induction c as [|x c IH]; simpl; intros Hn Hp.
  - now rewrite Hp.
  - destruct (p x); [discriminate|]. now apply IH.
Qed.

Lemma delete_one_inserted {A : Type} (p : A -> bool) (c : list A) (d : A) :
  find_one p c = None -> p d = true -> delete_one p (insert_one d c) = c.
Proof.
  unfold find_one, insert_one. induction c as [|x c IH]; simpl; intros Hn Hp.
  - now rewrite Hp.
  - destruct (p x); [discriminate|]. now rewrite IH.
Qed.

(** X3. For a super_admin caller, [eliminar_franquicia] answers 404 when
    the franchise does not exist, 400 (stating how many sites are assigned)
    when its site list is not empty, leaving the store as it was, and
    otherwise removes exactly that one franchise document: every other
    franchise, every site and every user document is untouched. *)
Theorem eliminar_franquicia_outcomes (fid : string) (cu : CurrentUser)
        (db : DB) :
  rol cu = "super_admin" ->
  match franquicia_de fid db with
  | None =>
      eliminar_franquicia fid cu db
      = (Raise (HTTP 404 "Franquicia no encontrada"), db)
  | Some f =>
      match get_sedes f with
      | [] =>
          exists db',
            eliminar_franquicia fid cu db = (Ok "Franquicia eliminada", db')
            /\ length (collection_franquicia db') + 1
               = length (collection_franquicia db)
            /\ (forall G, G <> fid -> franquicia_de G db' = franquicia_de G db)
            /\ collection_locales db' = collection_locales db
            /\ collection_auth db' = collection_auth db
      | _ :: _ =>
          eliminar_franquicia fid cu db
          = (Raise (HTTP 400 (msg_no_eliminar (length (get_sedes f)))), db)
      end
  end.
Proof.
  intros Hr. unfold franquicia_de.
  destruct (find_one (by_franquicia_id fid) (collection_franquicia db))
    as [f|] eqn:Hf.
  - destruct (get_sedes f) as [|x l] eqn:Hl.
    + eexists. split; [|split; [|split; [|split]]].
      * unfold eliminar_franquicia. rewrite Hr.
        erewrite bind_ok; [|reflexivity].
        erewrite bind_ok; [|unfold read; rewrite Hf; reflexivity].
        cbv beta iota. rewrite Hl. simpl length.
        erewrite bind_ok; [|reflexivity].
        erewrite bind_ok; [|reflexivity]. reflexivity.
      * simpl. now apply (delete_one_length _ _ f).
      * intros G HG. simpl. apply find_one_delete_other.
        intros d E. unfold by_franquicia_id in *.
        apply String.eqb_eq in E. apply String.eqb_neq. congruence.
      * reflexivity.
      * reflexivity.
    + unfold eliminar_franquicia. rewrite Hr.
      erewrite bind_ok; [|reflexivity].
      erewrite bind_ok; [|unfold read; rewrite Hf; reflexivity].
      cbv beta iota. rewrite Hl. reflexivity.
  - unfold eliminar_franquicia. rewrite Hr.
    erewrite bind_ok; [|reflexivity].
    erewrite bind_ok; [|unfold read; rewrite Hf; reflexivity].
    reflexivity.
Qed.

Lemma eliminar_franquicia_outcomes_witness :
  rol Ejemplos.super_admin = "super_admin"
  /\ (exists db',
        eliminar_franquicia "FR-1" Ejemplos.super_admin Ejemplos.db1
        = (Ok "Franquicia eliminada", db')
        /\ length (collection_franquicia db') + 1
           = length (collection_franquicia Ejemplos.db1)
        /\ (forall G, G <> "FR-1" ->
                      franquicia_de G db' = franquicia_de G Ejemplos.db1)
        /\ collection_locales db' = collection_locales Ejemplos.db1
        /\ collection_auth db' = collection_auth Ejemplos.db1)
  /\ eliminar_franquicia "FR-2" Ejemplos.super_admin Ejemplos.db1
     = (Raise (HTTP 400 (msg_no_eliminar 1)), Ejemplos.db1).
Proof.
  split; [reflexivity|].
  split; [exact (eliminar_franquicia_outcomes "FR-1" Ejemplos.super_admin
                   Ejemplos.db1 eq_refl)|].
  exact (eliminar_franquicia_outcomes "FR-2" Ejemplos.super_admin
           Ejemplos.db1 eq_refl).
Defined.

(** X4. A franchise that has just been given a site cannot be deleted:
    after a successful [asignar_sede F S], [eliminar_franquicia F] is
    refused with 400 and changes nothing. *)
Theorem asignada_no_se_elimina (fid sid : string) (cu : CurrentUser)
        (db db1 : DB) (r1 : Respuesta) :
  asignar_sede fid sid cu db = (Ok r1, db1) ->
  exists n, 1 <= n
    /\ eliminar_franquicia fid cu db1
       = (Raise (HTTP 400 (msg_no_eliminar n)), db1).
Proof.
  intros H1.
  destruct (asignar_sede_inv _ _ _ _ _ _ H1) as [Hr _].
  destruct (asignar_sede_db _ _ _ _ _ _ H1) as [-> [f [s [Hf Hs]]]].
  assert (Hf1 : franquicia_de fid (db_asignada fid sid db)
                = Some (addToSet_sedes sid f)).
  { unfold franquicia_de, db_asignada in *. simpl.
    rewrite find_one_update_one by (intros d E; exact E). now rewrite Hf. }
  assert (Hin : In sid (get_sedes (addToSet_sedes sid f)))
    by (apply mem_In, mem_addToSet).
  exists (length (get_sedes (addToSet_sedes sid f))).
  destruct (get_sedes (addToSet_sedes sid f)) as [|x l] eqn:Hl;
    [contradiction|].
  split; [simpl; lia|].
  unfold eliminar_franquicia. rewrite Hr.
  erewrite bind_ok; [|reflexivity].
  erewrite bind_ok; [|unfold read; unfold franquicia_de in Hf1;
                      rewrite Hf1; reflexivity].
  cbv beta iota. rewrite Hl. reflexivity.
Qed.

Lemma asignada_no_se_elimina_witness :
  exists n, 1 <= n
    /\ eliminar_franquicia "FR-1" Ejemplos.super_admin
                           (db_asignada "FR-1" "SD-1" Ejemplos.db1)
       = (Raise (HTTP 400 (msg_no_eliminar n)),
          db_asignada "FR-1" "SD-1" Ejemplos.db1).
Proof.
  exact (asignada_no_se_elimina "FR-1" "SD-1" Ejemplos.super_admin
           Ejemplos.db1 _ _ eq_refl).
Defined.

End FranquiciasBorrado.

Section FranquiciasAlta.
Import Franquicias FranquiciasAdmin Props Invariantes.
Context {ext : Externals}.

(** X5. Creating a franchise and deleting it again is a round trip: when
    the identifier generator hands out an identifier no franchise has, a
    super_admin's [crear_franquicia] stores a franchise with an empty site
    list, and [eliminar_franquicia] on that identifier succeeds and gives
    back the store exactly as it was before the creation. *)
Theorem crear_y_eliminar_franquicia (p : FranquiciaPayload)
        (cu : CurrentUser) (db : DB) :
  rol cu = "super_admin" ->
  franquicia_de (generar_id "franquicia" None db) db = None ->
  exists data db1,
    crear_franquicia p cu db = (Ok data, db1)
    /\ f_franquicia_id data = generar_id "franquicia" None db
    /\ f_nombre data = fp_nombre p
    /\ f_sedes data = Some []
    /\ franquicia_de (f_franquicia_id data) db1 = Some data
    /\ eliminar_franquicia (f_franquicia_id data) cu db1
       = (Ok "Franquicia eliminada", db).
Proof.
  intros Hr Hfresh.
  set (fid := generar_id "franquicia" None db) in *.
  set (data := mkFranquicia fid (fp_nombre p) (Some [])).
  assert (Hfind : find_one (by_franquicia_id fid)
                    (insert_one data (collection_franquicia db)) = Some data).
  { apply find_one_inserted; [exact Hfresh|].
    unfold by_franquicia_id. simpl. apply String.eqb_refl. }
  set (db1 := set_franquicias (insert_one data (collection_franquicia db)) db).
  assert (Hread :
            read (fun db0 : DB =>
                    find_one (by_franquicia_id (f_franquicia_id data))
                             (collection_franquicia db0)) db1
            = (Ok (Some data), db1)).
  { unfold read. f_equal. f_equal. exact Hfind. }
  exists data, db1. split; [|split; [|split; [|split; [|split]]]].
  - unfold crear_franquicia. rewrite Hr.
    erewrite bind_ok; [|reflexivity].
    erewrite bind_ok; [|reflexivity].
    erewrite bind_ok; [|reflexivity]. reflexivity.
  - reflexivity.
  - reflexivity.
  - reflexivity.
  - exact Hfind.
  - unfold eliminar_franquicia. rewrite Hr.
    erewrite bind_ok; [|reflexivity].
    erewrite bind_ok; [|exact Hread].
    cbv beta iota. simpl raise_if.
    erewrite bind_ok; [|reflexivity].
    erewrite bind_ok; [|reflexivity].
    unfold ret. f_equal. unfold db1. simpl.
    rewrite delete_one_inserted.
    + now destruct db.
    + exact Hfresh.
    + unfold by_franquicia_id. simpl. apply String.eqb_refl.
Qed.

End FranquiciasAlta.

Section FranquiciasAltaEjemplo.
Import Franquicias FranquiciasAdmin Props Invariantes Ejemplos.

Lemma crear_y_eliminar_franquicia_witness :
  exists data dbn,
    crear_franquicia (mkFranquiciaPayload "Centro") super_admin Ejemplos.db1
    = (Ok data, dbn)
    /\ f_franquicia_id data = generar_id "franquicia" None Ejemplos.db1
    /\ f_nombre data = "Centro"
    /\ f_sedes data = Some []
    /\ franquicia_de (f_franquicia_id data) dbn = Some data
    /\ eliminar_franquicia (f_franquicia_id data) super_admin dbn
       = (Ok "Franquicia eliminada", Ejemplos.db1).
Proof.
  exact (crear_y_eliminar_franquicia (mkFranquiciaPayload "Centro")
           super_admin Ejemplos.db1 eq_refl eq_refl).
Defined.

End FranquiciasAltaEjemplo.

Section FranquiciasInvariantes.
Import Franquicias FranquiciasAdmin Props Invariantes.

Lemma In_addToSet (x sid : string) (f : Franquicia) :
  In x (get_sedes f) -> In x (get_sedes (addToSet_sedes sid f)).
Proof.
  intros Hx. unfold addToSet_sedes, get_sedes at 1. simpl.
  destruct (mem sid (get_sedes f)); [assumption|].
  apply in_or_app. now left.
Qed.

Lemma In_pull (x sid : string) (f : Franquicia) :
  In x (get_sedes f) -> x <> sid -> In x (get_sedes (pull_sedes sid f)).
Proof.
  unfold pull_sedes, get_sedes. simpl.
  destruct (f_sedes f) as [l|]; simpl; [|tauto].
  intros Hx Hne. apply filter_In. split; [assumption|].
  apply String.eqb_neq in Hne. now rewrite Hne.
Qed.

Lemma find_one_In {A : Type} (p : A -> bool) (c : list A) (d : A) :
  find_one p c = Some d -> In d c /\ p d = true.
Proof. apply find_some. Qed.

(** X6. [asignar_sede] keeps the store consistent in the direction the
    readers rely on: if every tagged site was in the list of its franchise
    before a successful call, so it is afterwards (the newly tagged site
    included). *)
Theorem asignar_sede_mantiene_listadas (fid sid : string) (cu : CurrentUser)
        (db db' : DB) (r : Respuesta) :
  sedes_listadas db ->
  asignar_sede fid sid cu db = (Ok r, db') ->
  sedes_listadas db'.
Proof.
  intros Hinv H1.
  destruct (asignar_sede_db _ _ _ _ _ _ H1) as [-> [f [s0 [Hf Hs]]]].
  assert (Hf1 : franquicia_de fid (db_asignada fid sid db)
                = Some (addToSet_sedes sid f)).
  { unfold franquicia_de, db_asignada in *. simpl.
    rewrite find_one_update_one by (intros d E; exact E). now rewrite Hf. }
  intros s G Hin Htag HG. unfold db_asignada in Hin. simpl in Hin.
  apply in_update_one in Hin. destruct Hin as [Hin | [d [Hd ->]]].
  - destruct (Hinv s G Hin Htag HG) as [g [Hg Hl]].
    destruct (String.eqb_spec G fid) as [-> | Hne].
    + exists (addToSet_sedes sid f). split; [assumption|].
      rewrite Hf in Hg. injection Hg as <-. now apply In_addToSet.
    + exists g. split; [|assumption].
      unfold franquicia_de, db_asignada. simpl.
      rewrite franquicia_de_update; [exact Hg | reflexivity | assumption].
  - simpl in Htag. injection Htag as <-.
    exists (addToSet_sedes sid f). split; [assumption|]. simpl.
    apply find_one_In in Hd. destruct Hd as [_ Hd].
    unfold by_sede_id in Hd. apply String.eqb_eq in Hd. rewrite Hd.
    apply mem_In, mem_addToSet.
Qed.

Lemma ejemplo_db1_listadas : sedes_listadas Ejemplos.db1.
Proof.
  intros s G Hin Htag HG. simpl in Hin.
  destruct Hin as [<- | [<- | []]]; simpl in Htag; [discriminate|].
  injection Htag as <-. eexists. split; [reflexivity|]. now left.
Qed.

Lemma asignar_sede_mantiene_listadas_witness :
  sedes_listadas (db_asignada "FR-1" "SD-1" Ejemplos.db1).
Proof.
  exact (asignar_sede_mantiene_listadas "FR-1" "SD-1" Ejemplos.super_admin
           Ejemplos.db1 _ _ ejemplo_db1_listadas eq_refl).
Defined.

(** X7. [quitar_sede] keeps the same consistency when site identifiers are
    unique: after a successful call every site that still carries a
    franchise tag is still in the list of that franchise. *)
Theorem quitar_sede_mantiene_listadas (fid sid : string) (cu : CurrentUser)
        (db db' : DB) (r : Respuesta) :
  sedes_unicas db ->
  sedes_listadas db ->
  quitar_sede fid sid cu db = (Ok r, db') ->
  sedes_listadas db'.
Proof.
  intros Hu Hinv H1.
  destruct (quitar_sede_inv _ _ _ _ _ _ H1) as [-> [Hr [f [Hf Hm]]]].
  assert (Hf1 : franquicia_de fid (db_desasignada fid sid db)
                = Some (pull_sedes sid f)).
  { unfold franquicia_de, db_desasignada in *. simpl.
    rewrite find_one_update_one by (intros d E; exact E). now rewrite Hf. }
  intros s G Hin Htag HG. unfold db_desasignada in Hin. simpl in Hin.
  apply (in_update_one_unique s_sede_id sid) in Hin; [|exact Hu].
  destruct Hin as [[Hin Hne] | [d [_ ->]]]; [|discriminate Htag].
  destruct (Hinv s G Hin Htag HG) as [g [Hg Hl]].
  destruct (String.eqb_spec G fid) as [-> | HneG].
  - exists (pull_sedes sid f). split; [assumption|].
    rewrite Hf in Hg. injection Hg as <-. now apply In_pull.
  - exists g. split; [|assumption].
    unfold franquicia_de, db_desasignada. simpl.
    rewrite franquicia_de_update; [exact Hg | reflexivity | assumption].
Qed.

Lemma quitar_sede_mantiene_listadas_witness :
  sedes_listadas (db_desasignada "FR-2" "SD-9" Ejemplos.db1).
Proof.
  apply (quitar_sede_mantiene_listadas "FR-2" "SD-9" Ejemplos.super_admin
           Ejemplos.db1 _ (mkRespuesta true (msg_desasignada "SD-9" "FR-2") 1)).
  - unfold sedes_unicas. simpl.
    repeat constructor; simpl; intuition discriminate.
  - exact ejemplo_db1_listadas.
  - reflexivity.
Defined.

(** X8. The denormalised copy stays in step: if every user bound to an
    existing site answered with the franchise of that site before a
    successful [asignar_sede] or [quitar_sede], so it does afterwards. *)
Theorem propagacion_mantiene_usuarios (fid sid : string) (cu : CurrentUser)
        (db db' : DB) (r : Respuesta) :
  usuarios_sincronizados db ->
  asignar_sede fid sid cu db = (Ok r, db')
  \/ quitar_sede fid sid cu db = (Ok r, db') ->
  usuarios_sincronizados db'.
Proof.
  intros Hinv [H1 | H1].
  - destruct (asignar_sede_db _ _ _ _ _ _ H1) as [-> [f [s0 [Hf Hs]]]].
    intros u S s Hin Hsede Hfind. unfold db_asignada in Hin. simpl in Hin.
    apply in_update_many in Hin. destruct Hin as [d [Hd ->]].
    unfold sede_de, db_asignada in Hfind. simpl in Hfind.
    destruct (user_of_sede sid d) eqn:E.
    + simpl in Hsede. unfold user_of_sede in E. rewrite Hsede in E.
      simpl in E. apply String.eqb_eq in E. subst S.
      rewrite find_one_update_one in Hfind by (intros x Ex; exact Ex).
      unfold sede_de in Hs. rewrite Hs in Hfind. simpl in Hfind.
      now injection Hfind as <-.
    + unfold user_of_sede in E. rewrite Hsede in E. simpl in E.
      apply String.eqb_neq in E.
      rewrite sede_de_update in Hfind; [|reflexivity|assumption].
      exact (Hinv d S s Hd Hsede Hfind).
  - destruct (quitar_sede_inv _ _ _ _ _ _ H1) as [-> [Hr [f [Hf Hm]]]].
    intros u S s Hin Hsede Hfind. unfold db_desasignada in Hin. simpl in Hin.
    apply in_update_many in Hin. destruct Hin as [d [Hd ->]].
    unfold sede_de, db_desasignada in Hfind. simpl in Hfind.
    destruct (user_of_sede sid d) eqn:E.
    + simpl in Hsede. unfold user_of_sede in E. rewrite Hsede in E.
      simpl in E. apply String.eqb_eq in E. subst S.
      rewrite find_one_update_one in Hfind by (intros x Ex; exact Ex).
      destruct (find_one (by_sede_id sid) (collection_locales db));
        simpl in Hfind; [|discriminate].
      now injection Hfind as <-.
    + unfold user_of_sede in E. rewrite Hsede in E. simpl in E.
      apply String.eqb_neq in E.
      rewrite sede_de_update in Hfind; [|reflexivity|assumption].
      exact (Hinv d S s Hd Hsede Hfind).
Qed.

Lemma ejemplo_db1_sincronizados : usuarios_sincronizados Ejemplos.db1.
Proof.
  intros u S s Hin Hsede Hfind. simpl in Hin.
  destruct Hin as [<- | [<- | [<- | []]]]; simpl in Hsede;
    injection Hsede as <-; vm_compute in Hfind; injection Hfind as <-;
    reflexivity.
Qed.

Lemma propagacion_mantiene_usuarios_witness :
  usuarios_sincronizados (db_asignada "FR-1" "SD-1" Ejemplos.db1).
Proof.
  apply (propagacion_mantiene_usuarios "FR-1" "SD-1" Ejemplos.super_admin
           Ejemplos.db1 _ (mkRespuesta true (msg_asignada "SD-1" "FR-1") 2)
           ejemplo_db1_sincronizados).
  left. reflexivity.
Defined.

Lemma Forall_update_one {A : Type} (P : A -> Prop) (p : A -> bool)
      (u : A -> A) (c : list A) :
  (forall d, P d -> P (u d)) -> Forall P c -> Forall P (update_one p u c).
Proof.
  intros Hu. induction 1 as [|x c Hx Hc IH]; simpl; [constructor|].
  destruct (p x); constructor; auto.
Qed.

(** X9. No franchise ever lists a site twice: [asignar_sede] adds the site
    only when it is not there yet and [quitar_sede] only removes, so site
    lists without repetition stay without repetition. *)
Theorem propagacion_sin_repetidos (fid sid : string) (cu : CurrentUser)
        (db db' : DB) (r : Respuesta) :
  sin_repetidos db ->
  asignar_sede fid sid cu db = (Ok r, db')
  \/ quitar_sede fid sid cu db = (Ok r, db') ->
  sin_repetidos db'.
Proof.
  intros Hinv [H1 | H1].
  - destruct (asignar_sede_db _ _ _ _ _ _ H1) as [-> _].
    unfold sin_repetidos, db_asignada in *. simpl.
    apply Forall_update_one; [|assumption].
    intros d Hd. unfold addToSet_sedes, get_sedes at 1. simpl.
    destruct (mem sid (get_sedes d)) eqn:E; [assumption|].
    apply NoDup_app; [assumption | repeat constructor; tauto |].
    intros a Ha [<- | []].
    apply mem_In in Ha. congruence.
  - destruct (quitar_sede_inv _ _ _ _ _ _ H1) as [-> _].
    unfold sin_repetidos, db_desasignada in *. simpl.
    apply Forall_update_one; [|assumption].
    intros d Hd. unfold pull_sedes, get_sedes in *. simpl.
    destruct (f_sedes d) as [l|]; simpl; [|constructor].
    now apply NoDup_filter.
Qed.

Lemma propagacion_sin_repetidos_witness :
  sin_repetidos (db_asignada "FR-2" "SD-9" Ejemplos.db1).
Proof.
  apply (propagacion_sin_repetidos "FR-2" "SD-9" Ejemplos.super_admin
           Ejemplos.db1 _ (mkRespuesta true (msg_asignada "SD-9" "FR-2") 0)).
  - unfold sin_repetidos. simpl.
    repeat constructor; simpl; tauto.
  - left. reflexivity.
Defined.

(** X10. What was assigned can be read back: after a successful
    [asignar_sede F S], [obtener_franquicia F] succeeds, its site details
    include S, and every detail it reports belongs to a site of F's list. *)
Theorem obtener_tras_asignar (fid sid : string) (cu : CurrentUser)
        (db db1 : DB) (r : Respuesta) :
  asignar_sede fid sid cu db = (Ok r, db1) ->
  exists det,
    obtener_franquicia fid cu db1 = (Ok det, db1)
    /\ In sid (get_sedes (fd_franquicia det))
    /\ In sid (map sd_sede_id (sedes_detalle det))
    /\ (forall x, In x (sedes_detalle det) ->
                  In (sd_sede_id x) (get_sedes (fd_franquicia det))).
Proof.
  intros H1.
  destruct (asignar_sede_inv _ _ _ _ _ _ H1) as [Hr _].
  destruct (asignar_sede_db _ _ _ _ _ _ H1) as [-> [f [s0 [Hf Hs]]]].
  set (db1 := db_asignada fid sid db).
  set (f1 := addToSet_sedes sid f).
  assert (Hf1 : find_one (by_franquicia_id fid) (collection_franquicia db1)
                = Some f1).
  { unfold db1, db_asignada, franquicia_de in *. simpl.
    rewrite find_one_update_one by (intros d E; exact E). now rewrite Hf. }
  assert (Hs1 : find_one (by_sede_id sid) (collection_locales db1)
                = Some (sede_set_franquicia (Str fid) s0)).
  { unfold db1, db_asignada, sede_de in *. simpl.
    rewrite find_one_update_one by (intros d E; exact E). now rewrite Hs. }
  assert (Hin : In sid (get_sedes f1)) by (apply mem_In, mem_addToSet).
  eexists. split; [|split; [|split]].
  - unfold obtener_franquicia. rewrite Hr.
    erewrite bind_ok; [|reflexivity].
    erewrite bind_ok; [|unfold read; rewrite Hf1; reflexivity].
    cbv beta iota zeta.
    erewrite bind_ok; [|reflexivity]. reflexivity.
  - exact Hin.
  - cbn [sedes_detalle].
    destruct (get_sedes f1) as [|y l] eqn:El; [contradiction|].
    cbv iota. rewrite <- El in *.
    rewrite map_map. cbn [sd_sede_id]. apply in_map_iff.
    exists (sede_set_franquicia (Str fid) s0).
    apply find_one_In in Hs1. destruct Hs1 as [Hs1 Hp].
    unfold by_sede_id in Hp. apply String.eqb_eq in Hp.
    split; [exact Hp|].
    unfold find_many. apply filter_In. split; [exact Hs1|].
    rewrite Hp. now apply mem_In.
  - cbn [sedes_detalle fd_franquicia]. intros x Hx.
    destruct (get_sedes f1) as [|y l] eqn:El; [contradiction|].
    cbv iota in Hx. rewrite <- El in *.
    apply in_map_iff in Hx. destruct Hx as [s [<- Hs']].
    unfold find_many in Hs'. apply filter_In in Hs'.
    destruct Hs' as [_ Hm]. cbn [sd_sede_id]. now apply mem_In.
Qed.

Lemma obtener_tras_asignar_witness :
  exists det,
    obtener_franquicia "FR-1" Ejemplos.super_admin
                       (db_asignada "FR-1" "SD-1" Ejemplos.db1)
    = (Ok det, db_asignada "FR-1" "SD-1" Ejemplos.db1)
    /\ In "SD-1" (get_sedes (fd_franquicia det))
    /\ In "SD-1" (map sd_sede_id (sedes_detalle det))
    /\ (forall x, In x (sedes_detalle det) ->
                  In (sd_sede_id x) (get_sedes (fd_franquicia det))).
Proof.
  exact (obtener_tras_asignar "FR-1" "SD-1" Ejemplos.super_admin
           Ejemplos.db1 _ _ eq_refl).
Defined.

End FranquiciasInvariantes.

(* ===================================================================== *)
(** ** Further properties: client listings *)
(* ===================================================================== *)

Section ListadosInversion.
Import Clientes Props Alcance.
Context {ext : Externals}.

Lemma get_franquicia_eq (sede_id : option string) (db : DB) :
  _get_franquicia_id_de_sede sede_id db
  = (Ok (franquicia_de_sede sede_id db), db).
Proof.
  unfold _get_franquicia_id_de_sede, franquicia_de_sede.
  destruct (truthy sede_id); simpl; [|reflexivity].
  unfold bind, read, ret.
  now destruct (find_one _ (collection_locales db)).
Qed.

Lemma matches_filtro_base (sede_id franquicia_id : option string)
      (c : Cliente) :
  matches regex_search_i (filtro_base sede_id franquicia_id) c
  = en_alcance sede_id franquicia_id c.
Proof. unfold filtro_base, en_alcance. now destruct (truthy franquicia_id). Qed.

Lemma filtro_base_nonempty (sede_id franquicia_id : option string) :
  query_nonempty (filtro_base sede_id franquicia_id) = true.
Proof. unfold filtro_base. now destruct (truthy franquicia_id). Qed.

(** A search text added to a non-empty filter only narrows it. *)
Lemma busqueda_inteligente_narrows (filtro : option string) (q : query)
      (c : Cliente) :
  query_nonempty q = true ->
  matches regex_search_i (busqueda_inteligente filtro q) c = true ->
  matches regex_search_i q c = true.
Proof.
  intros Hq. unfold busqueda_inteligente.
  destruct filtro as [f|]; [|tauto].
  destruct (truthy (Some f)); [|tauto].
  destruct (negb (truthy (Some (re_escape (py_strip f))))); [tauto|].
  rewrite Hq. cbn [matches forallb]. intros H.
  apply andb_true_iff in H. tauto.
Qed.

Lemma raise_if_ok (cond : bool) (code : nat) (m : string) (db db' : DB)
      (x : unit) :
  raise_if cond code m db = (Ok x, db') -> cond = false /\ db' = db.
Proof.
  unfold raise_if, raise, ret. destruct cond; [discriminate|].
  intros E. injection E as _ <-. now split.
Qed.

Lemma bind_inv {A B : Type} (m : Handler A) (k : A -> Handler B)
      (db db' : DB) (b : B) :
  bind m k db = (Ok b, db') ->
  exists a db1, m db = (Ok a, db1) /\ k a db1 = (Ok b, db').
Proof.
  unfold bind. destruct (m db) as [[a|e] db1]; [|discriminate].
  intros E. now exists a, db1.
Qed.

(** What a successful [listar_clientes] has done for a site-bound role. *)
Lemma listar_clientes_inv (filtro : option string) (limite : nat)
      (cu : CurrentUser) (db db' : DB) (l : list Cliente) :
  in_list (rol cu) ["admin_sede"; "estilista"] = true ->
  listar_clientes filtro limite cu db = (Ok l, db') ->
  db' = db
  /\ exists q,
       l = map cliente_to_dict (firstn limite (find_clients q db))
       /\ forall c, matches regex_search_i q c = true ->
                    alcance_de_llamante cu db c = true.
Proof.
  intros Hrol H. unfold listar_clientes in H. cbv zeta in H.
  apply bind_inv in H. destruct H as [x1 [d1 [H1 H]]].
  apply raise_if_ok in H1. destruct H1 as [_ ->].
  apply bind_inv in H. destruct H as [x2 [d2 [H2 H]]].
  apply raise_if_ok in H2. destruct H2 as [_ ->].
  rewrite Hrol in H.
  apply bind_inv in H. destruct H as [q [d3 [H3 H]]].
  apply bind_inv in H3. destruct H3 as [fr [d4 [H4 H3]]].
  rewrite get_franquicia_eq in H4. injection H4 as <- <-.
  unfold ret in H3. injection H3 as <- <-.
  apply bind_inv in H. destruct H as [cl [d5 [H5 H]]].
  unfold read in H5. injection H5 as <- <-.
  unfold ret in H. injection H as <- <-.
  split; [reflexivity|]. eexists. split; [reflexivity|].
  intros c Hc. unfold alcance_de_llamante. rewrite <- matches_filtro_base.
  destruct filtro as [f|]; [|exact Hc].
  destruct (truthy (Some f)); [|exact Hc].
  rewrite filtro_base_nonempty in Hc. cbn [matches forallb] in Hc.
  apply andb_true_iff in Hc. tauto.
Qed.

(** What a successful [listar_todos] has done. *)
Lemma listar_todos_inv (filtro : option string) (limite pagina : nat)
      (cu : CurrentUser) (db db' : DB) (r : ClientesPaginados) :
  listar_todos filtro limite pagina cu db = (Ok r, db') ->
  db' = db /\ 1 <= limite /\ 1 <= pagina
  /\ exists q,
       let sel := find_clients q db in
       let skip := (pagina - 1) * limite in
       clientes r
       = map cliente_to_dict_ligero
             (firstn limite (skipn skip (sort_by_nombre sel)))
       /\ total (metadata r) = length sel
       /\ rango_fin (metadata r) = skip + length (clientes r)
       /\ total_paginas (metadata r)
          = (if (0 <? length sel)%nat
             then (length sel + limite - 1) / limite else 1)
       /\ pagina <= total_paginas (metadata r)
       /\ (in_list (rol cu) ["admin_sede"; "estilista"] = true ->
           forall c, matches regex_search_i q c = true ->
                     alcance_de_llamante cu db c = true).
Proof.
  intros H. unfold listar_todos in H. cbv zeta in H.
  apply bind_inv in H. destruct H as [x1 [d1 [H1 H]]].
  apply raise_if_ok in H1. destruct H1 as [Hl ->].
  apply bind_inv in H. destruct H as [x2 [d2 [H2 H]]].
  apply raise_if_ok in H2. destruct H2 as [Hp ->].
  apply bind_inv in H. destruct H as [x3 [d3 [H3 H]]].
  apply raise_if_ok in H3. destruct H3 as [_ ->].
  apply bind_inv in H. destruct H as [q0 [d4 [H4 H]]].
  assert (Hq0 : d4 = db
                /\ (in_list (rol cu) ["admin_sede"; "estilista"] = true ->
                    q0 = filtro_base (cu_sede_id cu)
                           (franquicia_de_sede (cu_sede_id cu) db))
                /\ (in_list (rol cu) ["admin_sede"; "estilista"] = false ->
                    q0 = QAll)).
  { destruct (in_list (rol cu) ["admin_sede"; "estilista"]).
    - apply bind_inv in H4. destruct H4 as [x4 [d5 [H5 H4]]].
      apply raise_if_ok in H5. destruct H5 as [Ht ->].
      apply negb_false_iff in Ht.
      apply bind_inv in H4. destruct H4 as [si [d6 [H6 H4]]].
      unfold read in H6. injection H6 as <- <-.
      unfold ret in H4. injection H4 as <- <-.
      split; [reflexivity|]. split; [|discriminate]. intros _.
      unfold franquicia_de_sede. now rewrite Ht.
    - unfold ret in H4. injection H4 as <- <-.
      split; [reflexivity|]. split; [discriminate | reflexivity]. }
  destruct Hq0 as [-> [Hq1 Hq2]].
  apply bind_inv in H. destruct H as [tot [d5 [H5 H]]].
  unfold read in H5. injection H5 as Htot <-.
  apply bind_inv in H. destruct H as [x6 [d6 [H6 H]]].
  apply raise_if_ok in H6. destruct H6 as [Hpg ->].
  apply bind_inv in H. destruct H as [cl [d7 [H7 H]]].
  unfold read in H7. injection H7 as <- <-.
  unfold ret in H. injection H as <- <-.
  apply negb_false_iff, andb_true_iff in Hl. destruct Hl as [Hl1 Hl2].
  apply Nat.leb_le in Hl1. apply negb_false_iff, Nat.leb_le in Hp.
  split; [reflexivity|]. split; [assumption|]. split; [assumption|].
  exists (busqueda_inteligente filtro q0). cbv zeta.
  cbn [clientes metadata total rango_fin total_paginas].
  assert (Etot : tot = length (find_clients (busqueda_inteligente filtro q0) db)).
  { rewrite <- Htot.
    destruct (negb (truthy filtro)
              && negb (query_nonempty (busqueda_inteligente filtro q0))
              && (rol cu =? "super_admin")) eqn:Eb; [|reflexivity].
    apply andb_true_iff in Eb. destruct Eb as [Eb _].
    apply andb_true_iff in Eb. destruct Eb as [_ Eb].
    apply negb_true_iff in Eb.
    destruct (busqueda_inteligente filtro q0); try discriminate.
    unfold find_clients, find_many. simpl. now rewrite filter_true. }
  rewrite firstn_firstn, Nat.min_id.
  split; [reflexivity|]. split; [exact Etot|].
  split; [now rewrite length_map|].
  rewrite <- Etot. split; [reflexivity|]. split.
  - destruct ((if (0 <? tot)%nat then (tot + limite - 1) / limite else 1)
              <? pagina)%nat eqn:E1.
    + simpl in Hpg. apply Nat.ltb_ge in Hpg.
      destruct (0 <? tot)%nat eqn:E0; [|lia].
      apply Nat.ltb_lt in E0.
      assert (1 <= (tot + limite - 1) / limite)
        by (apply Nat.div_le_lower_bound; lia). lia.
    + now apply Nat.ltb_ge in E1.
  - intros Hrol c Hc. rewrite (Hq1 Hrol) in Hc.
    apply busqueda_inteligente_narrows in Hc;
      [|apply filtro_base_nonempty].
    unfold alcance_de_llamante. now rewrite <- matches_filtro_base.
Qed.

End ListadosInversion.

Section ListadosOrden.
Import Clientes Props Alcance.

Lemma insert_by_nombre_HdRel (a c : Cliente) (l : list Cliente) :
  por_nombre a c -> HdRel por_nombre a l ->
  HdRel por_nombre a (insert_by_nombre c l).
Proof.
  intros Hac Hl. destruct l as [|y l]; simpl; [now constructor|].
  destruct (String.leb (c_nombre c) (c_nombre y)); constructor;
    [assumption | now inversion Hl].
Qed.

Lemma insert_by_nombre_sorted (c : Cliente) (l : list Cliente) :
  Sorted por_nombre l -> Sorted por_nombre (insert_by_nombre c l).
Proof.
  induction 1 as [|y l Hs IH Hd]; simpl.
  - repeat constructor.
  - destruct (String.leb (c_nombre c) (c_nombre y)) eqn:E.
    + constructor; [now constructor | now constructor].
    + constructor; [assumption|].
      apply insert_by_nombre_HdRel; [|assumption].
      unfold por_nombre.
      destruct (String.leb_total (c_nombre c) (c_nombre y)); congruence.
Qed.

Lemma sort_by_nombre_sorted (l : list Cliente) :
  Sorted por_nombre (sort_by_nombre l).
Proof.
  unfold sort_by_nombre. induction l as [|x l IH]; simpl; [constructor|].
  now apply insert_by_nombre_sorted.
Qed.

Lemma Sorted_skipn {A : Type} (R : A -> A -> Prop) (n : nat) (l : list A) :
  Sorted R l -> Sorted R (skipn n l).
Proof.
  revert l. induction n as [|n IH]; intros l Hl; simpl; [assumption|].
  destruct l as [|x l]; [constructor|]. apply IH. now inversion Hl.
Qed.

Lemma Sorted_firstn {A : Type} (R : A -> A -> Prop) (n : nat) (l : list A) :
  Sorted R l -> Sorted R (firstn n l).
Proof.
  revert l. induction n as [|n IH]; intros l Hl; simpl; [constructor|].
  destruct l as [|x l]; [constructor|].
  inversion Hl as [|? ? Hs Hd]; subst. constructor; [now apply IH|].
  destruct l as [|y l]; destruct n; simpl; constructor. now inversion Hd.
Qed.

Lemma ordenados_ligero (l : list Cliente) :
  Sorted por_nombre l ->
  ordenados (map l_nombre (map cliente_to_dict_ligero l)).
Proof.
  unfold ordenados. induction 1 as [|x l Hs IH Hd]; simpl; [constructor|].
  constructor; [assumption|].
  destruct l as [|y l]; simpl; constructor. now inversion Hd.
Qed.

End ListadosOrden.

Section ListadosExtras.
Import Clientes Props Alcance.
Context {ext : Externals}.

(** X11. A search text never widens what a site-bound caller is shown:
    for role admin_sede or estilista, whatever the search text, every
    client returned by [listar_clientes] or by [listar_todos] is a stored
    client inside the caller's scope (the franchise of the caller's site
    when it has one, else the site itself). *)
Theorem busqueda_no_amplia_alcance (filtro : option string)
        (limite pagina : nat) (cu : CurrentUser) (db : DB) :
  rol cu = "admin_sede" \/ rol cu = "estilista" ->
  match fst (listar_clientes filtro limite cu db) with
  | Ok l =>
      forall x, In x l ->
        exists c, In c (collection_clients db)
                  /\ alcance_de_llamante cu db c = true
                  /\ x = cliente_to_dict c
  | Raise _ => True
  end
  /\ match fst (listar_todos filtro limite pagina cu db) with
     | Ok r =>
         forall x, In x (clientes r) ->
           exists c, In c (collection_clients db)
                     /\ alcance_de_llamante cu db c = true
                     /\ x = cliente_to_dict_ligero c
     | Raise _ => True
     end.
Proof.
  intros Hrol.
  assert (Hin : in_list (rol cu) ["admin_sede"; "estilista"] = true)
    by (destruct Hrol as [-> | ->]; reflexivity).
  split.
  - destruct (listar_clientes filtro limite cu db) as [[l|e] db'] eqn:E;
      simpl; [|exact I].
    destruct (listar_clientes_inv _ _ _ _ _ _ Hin E) as [_ [q [-> Hq]]].
    intros x Hx. apply in_map_iff in Hx. destruct Hx as [c [<- Hc]].
    apply In_firstn in Hc. unfold find_clients, find_many in Hc.
    apply filter_In in Hc. destruct Hc as [Hc Hm].
    exists c. split; [assumption|]. split; [now apply Hq | reflexivity].
  - destruct (listar_todos filtro limite pagina cu db) as [[r|e] db'] eqn:E;
      simpl; [|exact I].
    destruct (listar_todos_inv _ _ _ _ _ _ _ E)
      as [_ [_ [_ [q [Hcl [_ [_ [_ [_ Hq]]]]]]]]].
    intros x Hx. rewrite Hcl in Hx.
    apply in_map_iff in Hx. destruct Hx as [c [<- Hc]].
    apply pagina_de_seleccion in Hc. destruct Hc as [Hc Hm].
    exists c. split; [assumption|]. split; [now apply (Hq Hin) | reflexivity].
Qed.

(** X12. A page served by [listar_todos] is never short or out of order:
    it holds exactly min(limite, total - (pagina-1)*limite) clients, it is
    not empty unless there is no client at all, its reported end never
    exceeds the total, and its clients come in non-decreasing name
    order. *)
Theorem pagina_servida (filtro : option string) (limite pagina : nat)
        (cu : CurrentUser) (db db' : DB) (r : ClientesPaginados) :
  listar_todos filtro limite pagina cu db = (Ok r, db') ->
  length (clientes r)
  = Nat.min limite (total (metadata r) - (pagina - 1) * limite)
  /\ (0 < total (metadata r) -> clientes r <> [])
  /\ rango_fin (metadata r) <= total (metadata r)
  /\ ordenados (map l_nombre (clientes r)).
Proof.
  intros E.
  destruct (listar_todos_inv _ _ _ _ _ _ _ E)
    as [_ [Hl [Hp [q [Hcl [Htot [Hfin [Htp [Hpg _]]]]]]]]].
  cbv zeta in *.
  set (sel := find_clients q db) in *.
  set (skip := (pagina - 1) * limite) in *.
  assert (Hlen : length (clientes r)
                 = Nat.min limite (length sel - skip)).
  { rewrite Hcl, length_map, length_firstn, length_skipn.
    now rewrite sort_by_nombre_length. }
  assert (Hskip : 0 < length sel -> skip < length sel).
  { intros Hpos. rewrite Htp in Hpg.
    assert (E0 : (0 <? length sel)%nat = true) by now apply Nat.ltb_lt.
    rewrite E0 in Hpg.
    pose proof (Nat.Div0.mul_div_le (length sel + limite - 1) limite) as Hm.
    assert (Hpl : pagina * limite <= length sel + limite - 1).
    { etransitivity; [apply Nat.mul_le_mono_r; exact Hpg|].
      rewrite Nat.mul_comm. exact Hm. }
    unfold skip. rewrite Nat.mul_sub_distr_r. lia. }
  rewrite Htot. split; [exact Hlen|]. split; [|split].
  - intros Hpos Hnil. rewrite Hnil in Hlen. cbn [length] in Hlen.
    specialize (Hskip Hpos). clearbody skip sel.
    clear - Hl Hlen Hskip. lia.
  - assert (Hle : skip <= length sel).
    { destruct (length sel) as [|n] eqn:En.
      - rewrite Htp in Hpg. simpl in Hpg.
        assert (pagina = 1) by lia. subst pagina. unfold skip. simpl. lia.
      - apply Nat.lt_le_incl, Hskip. lia. }
    rewrite Hfin, Hlen. clearbody skip sel. clear - Hle. lia.
  - rewrite Hcl. apply ordenados_ligero.
    apply Sorted_firstn, Sorted_skipn, sort_by_nombre_sorted.
Qed.

End ListadosExtras.

Section ListadosExtrasEjemplos.
Import Clientes Props Alcance Ejemplos.

Lemma busqueda_no_amplia_alcance_witness :
  match fst (listar_clientes (Some "a") 100 admin_sd1 db2) with
  | Ok l =>
      forall x, In x l ->
        exists c, In c (collection_clients db2)
                  /\ alcance_de_llamante admin_sd1 db2 c = true
                  /\ x = cliente_to_dict c
  | Raise _ => True
  end
  /\ match fst (listar_todos (Some "a") 100 1 admin_sd1 db2) with
     | Ok r =>
         forall x, In x (clientes r) ->
           exists c, In c (collection_clients db2)
                     /\ alcance_de_llamante admin_sd1 db2 c = true
                     /\ x = cliente_to_dict_ligero c
     | Raise _ => True
     end.
Proof.
  apply (busqueda_no_amplia_alcance (Some "a") 100 1 admin_sd1 db2).
  left; reflexivity.
Defined.

Lemma pagina_servida_witness :
  length [cliente_to_dict_ligero cliente_nuevo]
  = Nat.min 100 (1 - (1 - 1) * 100)
  /\ (0 < 1 -> [cliente_to_dict_ligero cliente_nuevo] <> [])
  /\ 1 <= 1
  /\ ordenados (map l_nombre [cliente_to_dict_ligero cliente_nuevo]).
Proof.
  exact (pagina_servida None 100 1 admin_sd1 db2 db2
           (mkPaginados [cliente_to_dict_ligero cliente_nuevo]
                        (mkMetadata 1 1 100 1 false false 1 1))
           eq_refl).
Defined.

End ListadosExtrasEjemplos.

(* ===================================================================== *)
(** ** Further properties: creating, listing and reading clients *)
(* ===================================================================== *)

Section ClientesCiclo.
Import Clientes ClientesAcceso Props Alcance.
Context {ext : Externals}.

(** Without a search text a site-bound caller is shown the first [limite]
    clients of the caller's scope. *)
Lemma listar_clientes_sin_filtro (limite : nat) (cu : CurrentUser) (db : DB) :
  rol cu = "admin_sede" \/ rol cu = "estilista" ->
  1 <= limite <= 500 ->
  listar_clientes None limite cu db
  = (Ok (map cliente_to_dict
           (firstn limite
              (filter (alcance_de_llamante cu db) (collection_clients db)))),
     db).
Proof.
  intros Hrol [Hl1 Hl2].
  assert (Hin1 : in_list (rol cu) ["admin_sede"; "super_admin"; "estilista"]
                 = true) by (destruct Hrol as [-> | ->]; reflexivity).
  assert (Hin2 : in_list (rol cu) ["admin_sede"; "estilista"] = true)
    by (destruct Hrol as [-> | ->]; reflexivity).
  assert (Hb1 : (1 <=? limite)%nat = true) by (apply Nat.leb_le; lia).
  assert (Hb2 : (limite <=? 500)%nat = true) by (apply Nat.leb_le; lia).
  unfold listar_clientes. cbv zeta. rewrite Hb1, Hb2, Hin1, Hin2.
  erewrite bind_ok; [|reflexivity].
  erewrite bind_ok; [|reflexivity].
  erewrite bind_ok;
    [|erewrite bind_ok; [|apply get_franquicia_eq]; reflexivity].
  erewrite bind_ok; [|reflexivity].
  unfold ret. f_equal. f_equal. f_equal. f_equal.
  unfold find_clients, find_many. apply filter_ext. intros c.
  apply matches_filtro_base.
Qed.

Lemma firstn_covers {A : Type} (n : nat) (l : list A) (x : A) :
  length l < n -> In x (firstn n (l ++ [x])).
Proof.
  intros Hl. rewrite firstn_all2.
  - apply in_or_app. right. now left.
  - rewrite length_app. simpl. lia.
Qed.

(** X13. A client created by an admin_sede lands in that admin's own site
    (whatever site the payload names), inherits the site's franchise, and
    shows up in the same admin's listing as long as the listing limit is
    not already used up by the clients listed before. *)
Theorem cliente_creado_se_lista (p : ClientePayload) (cu : CurrentUser)
        (db : DB) (S : string) (s : Sede) (limite : nat) :
  rol cu = "admin_sede" ->
  cu_sede_id cu = Some S -> S <> "" ->
  sede_de S db = Some s ->
  1 <= limite <= 500 ->
  length (filter (alcance_de_llamante cu db) (collection_clients db)) < limite ->
  exists data db1 l,
    crear_cliente p cu db = (Ok data, db1)
    /\ c_sede_id data = Str S
    /\ c_franquicia_id data = store (py_get (s_franquicia_id s))
    /\ listar_clientes None limite cu db1 = (Ok l, db1)
    /\ In (cliente_to_dict data) l.
Proof.
  intros Hr Hcu HS Hs Hl Hlen.
  assert (HtS : truthy (Some S) = true).
  { simpl. apply String.eqb_neq in HS. now rewrite HS. }
  assert (Hor : py_or (cu_sede_id cu) (p_sede_id p) = Some S).
  { unfold py_or. now rewrite Hcu, HtS. }
  assert (Hin : in_list (rol cu) ["admin_sede"; "admin_franquicia"; "super_admin"]
                = true) by (rewrite Hr; reflexivity).
  pose proof (crear_cliente_inserta p cu db S s Hin Hor HS Hs) as Hc.
  cbv zeta in Hc.
  set (data := mkCliente (new_object_id db)
                 (Str (generar_id "cliente" (Some S) db)) (p_nombre p)
                 (exclude_none (p_correo p)) (exclude_none (p_telefono p))
                 (Str S) (store (py_get (s_franquicia_id s)))) in *.
  set (db1 := set_clients (collection_clients db ++ [data])%list db) in *.
  assert (Hfr : franquicia_de_sede (Some S) db = py_get (s_franquicia_id s)).
  { unfold franquicia_de_sede. rewrite HtS.
    unfold sede_de, Franquicias.by_sede_id in Hs. simpl eq_value.
    now rewrite Hs. }
  assert (Halc : forall c, alcance_de_llamante cu db1 c
                           = alcance_de_llamante cu db c) by reflexivity.
  assert (Hdata : alcance_de_llamante cu db data = true).
  { unfold alcance_de_llamante, en_alcance. rewrite Hcu, Hfr.
    destruct (py_get (s_franquicia_id s)) as [F|] eqn:EF; simpl.
    - destruct (F =? "") eqn:E0; simpl; apply String.eqb_refl.
    - apply String.eqb_refl. }
  exists data, db1. eexists.
  split; [exact Hc|]. split; [reflexivity|]. split; [reflexivity|].
  split.
  - apply listar_clientes_sin_filtro; [now left | assumption].
  - apply in_map.
    rewrite (filter_ext _ _ Halc). unfold db1. simpl.
    rewrite filter_app. simpl. rewrite Hdata.
    now apply firstn_covers.
Qed.

(** X14. Whatever a site-bound caller is listed, the caller can also read:
    for role admin_sede or estilista, a client found under an identifier
    and inside the caller's scope is returned by [obtener_cliente]. *)
Theorem listado_es_obtenible (id : string) (cu : CurrentUser) (db : DB)
        (c : Cliente) :
  rol cu = "admin_sede" \/ rol cu = "estilista" ->
  buscar_cliente id db = (Ok (Some c), db) ->
  alcance_de_llamante cu db c = true ->
  obtener_cliente id cu db = (Ok (cliente_to_dict c), db).
Proof.
  intros Hrol Hb Halc.
  assert (Hin1 : in_list (rol cu) ["admin_sede"; "super_admin"; "estilista"]
                 = true) by (destruct Hrol as [-> | ->]; reflexivity).
  assert (Hin2 : in_list (rol cu) ["admin_sede"; "estilista"] = true)
    by (destruct Hrol as [-> | ->]; reflexivity).
  unfold obtener_cliente. cbv zeta. rewrite Hin1, Hin2.
  erewrite bind_ok; [|reflexivity].
  erewrite bind_ok; [|exact Hb]. cbv beta iota.
  erewrite bind_ok; [reflexivity|].
  erewrite bind_ok; [|apply get_franquicia_eq].
  unfold alcance_de_llamante, en_alcance in Halc.
  destruct (truthy (franquicia_de_sede (cu_sede_id cu) db)) eqn:Tf.
  - destruct (franquicia_de_sede (cu_sede_id cu) db) as [F|];
      [|discriminate Tf].
    simpl in Halc. destruct (c_franquicia_id c) as [| |G]; try discriminate.
    simpl in Halc. apply String.eqb_eq in Halc. subst G.
    cbn [py_get]. rewrite Tf. cbn [andb]. unfold option_eqb.
    rewrite String.eqb_refl. reflexivity.
  - rewrite andb_false_r.
    destruct (cu_sede_id cu) as [S|]; simpl in Halc.
    + destruct (c_sede_id c) as [| |T]; try discriminate.
      simpl in Halc. apply String.eqb_eq in Halc. subst T.
      cbn [py_get]. unfold option_eqb. rewrite String.eqb_refl.
      cbn [negb]. rewrite andb_false_r. reflexivity.
    + destruct (c_sede_id c) as [| |T]; try discriminate; reflexivity.
Qed.

End ClientesCiclo.

Section ClientesCicloEjemplos.
Import Clientes ClientesAcceso Props Alcance Ejemplos.

Lemma cliente_creado_se_lista_witness :
  exists data dbn l,
    crear_cliente payload_repetido admin_sd1 db2 = (Ok data, dbn)
    /\ c_sede_id data = Str "SD-1"
    /\ c_franquicia_id data = store (py_get (Str "FR-1"))
    /\ listar_clientes None 100 admin_sd1 dbn = (Ok l, dbn)
    /\ In (cliente_to_dict data) l.
Proof.
  apply (cliente_creado_se_lista payload_repetido admin_sd1 db2 "SD-1"
           (mkSede "SD-1" "CO" (Str "FR-1")) 100);
    try reflexivity; try discriminate; try (simpl; lia).
Defined.

Lemma listado_es_obtenible_witness :
  obtener_cliente "CL-00002" admin_sd1 db2
  = (Ok (cliente_to_dict cliente_nuevo), db2).
Proof.
  apply (listado_es_obtenible "CL-00002" admin_sd1 db2 cliente_nuevo);
    [left; reflexivity | reflexivity | reflexivity].
Defined.

End ClientesCicloEjemplos.

(* ===================================================================== *)
(** ** Further properties: contact data stays unique under edits *)
(* ===================================================================== *)

Section ContactoUnico.
Import Clientes Props Alcance.
Context {ext : Externals}.

(** X15. The duplicate check is sound and complete: the client it returns
    is a stored client other than the excluded one that holds the given
    (non-empty) e-mail or phone, and when it returns nothing no such
    client exists.  An [exclude_id] that does not parse as an ObjectId
    excludes nobody. *)
Theorem verificar_duplicado_correcto (correo telefono exclude_id : option string)
        (db : DB) :
  match fst (verificar_duplicado_cliente correo telefono exclude_id db) with
  | Ok (Some c) =>
      In c (collection_clients db)
      /\ comparte_contacto correo telefono c = true
      /\ excluido exclude_id c = false
  | Ok None =>
      forall c, In c (collection_clients db) ->
                excluido exclude_id c = false ->
                comparte_contacto correo telefono c = false
  | Raise _ => False
  end.
Proof.
  rewrite verificar_eq. cbn [fst].
  destruct (negb (truthy correo) && negb (truthy telefono)) eqn:E.
  - intros c _ _. apply andb_true_iff in E. destruct E as [E1 E2].
    apply negb_true_iff in E1, E2. unfold comparte_contacto.
    now rewrite E1, E2.
  - destruct (find_one _ (collection_clients db)) as [c|] eqn:Hf.
    + apply find_some in Hf. destruct Hf as [Hin Hc].
      apply andb_true_iff in Hc. destruct Hc as [Hc He].
      apply negb_true_iff in He. now repeat split.
    + intros c Hin He.
      pose proof (find_none _ _ Hf c Hin) as Hn. cbv beta in Hn.
      rewrite He in Hn. simpl in Hn. now rewrite andb_true_r in Hn.
Qed.

End ContactoUnico.

Section CorreosUnicos.
Import Clientes Props Alcance.
Context {ext : Externals}.

Lemma buscar_cliente_inv (id : string) (db db' : DB) (o : option Cliente) :
  buscar_cliente id db = (Ok o, db') ->
  db' = db /\ forall c, o = Some c -> In c (collection_clients db).
Proof.
  unfold buscar_cliente, bind, read, ret.
  destruct (find_one (fun c => eq_str (c_cliente_id c) id)
                     (collection_clients db)) as [c|] eqn:E1.
  - intros E. injection E as <- <-. split; [reflexivity|].
    intros c' Hc. injection Hc as <-. now apply find_some in E1.
  - destruct (object_id_of id) as [oid|].
    + intros E. injection E as <- <-. split; [reflexivity|].
      intros c' Hc. unfold find_one in Hc. now apply find_some in Hc.
    + intros E. injection E as <- <-. split; [reflexivity|]. discriminate.
Qed.

(** What a successful [editar_cliente] has done. *)
Lemma editar_cliente_inv (id : string) (u : ClientePayload)
      (cu : CurrentUser) (db db' : DB) (m : string) :
  editar_cliente id u cu db = (Ok m, db') ->
  exists c,
    In c (collection_clients db)
    /\ fst (verificar_duplicado_cliente (p_correo u) (p_telefono u)
                                        (Some (str_object_id (c_oid c))) db)
       = Ok None
    /\ db' = set_clients
               (update_one (fun x => (c_oid x =? c_oid c)%N)
                           (set_update_data u)
                           (collection_clients db)) db.
Proof.
  intros H. unfold editar_cliente in H. cbv zeta in H.
  apply bind_inv in H. destruct H as [x1 [d1 [H1 H]]].
  apply raise_if_ok in H1. destruct H1 as [_ ->].
  apply bind_inv in H. destruct H as [o [d2 [H2 H]]].
  apply buscar_cliente_inv in H2. destruct H2 as [-> Ho].
  destruct o as [c|]; [|discriminate H].
  apply bind_inv in H. destruct H as [x3 [d3 [H3 H]]].
  assert (d3 = db).
  { destruct (rol cu =? "admin_sede").
    - apply bind_inv in H3. destruct H3 as [fr [d4 [H4 H3]]].
      rewrite get_franquicia_eq in H4. injection H4 as _ <-.
      now apply raise_if_ok in H3.
    - unfold ret in H3. now injection H3 as _ <-. }
  subst d3.
  apply bind_inv in H. destruct H as [ex [d5 [H5 H]]].
  exists c. split; [now apply Ho|].
  rewrite verificar_eq in H5. injection H5 as <- <-.
  rewrite verificar_eq. cbn [fst].
  match type of H with
  | match ?o with _ => _ end _ = _ => destruct o as [y|] eqn:Eo
  end; [discriminate H|].
  split; [f_equal; exact Eo|].
  apply bind_inv in H. destruct H as [x6 [d6 [H6 H]]].
  unfold write in H6. injection H6 as _ <-.
  unfold ret in H. now injection H as _ <-.
Qed.

Lemma update_one_split {A : Type} (p : A -> bool) (f : A -> A) (l : list A)
      (d : A) :
  find_one p l = Some d ->
  exists pre post,
    l = (pre ++ d :: post)%list
    /\ (forall x, In x pre -> p x = false)
    /\ update_one p f l = (pre ++ f d :: post)%list.
Proof.
  unfold find_one. induction l as [|x l IH]; simpl; [discriminate|].
  destruct (p x) eqn:E.
  - intros H. injection H as <-. exists [], l. simpl. tauto.
  - intros H. destruct (IH H) as [pre [post [-> [Hp Hu]]]].
    exists (x :: pre), post. simpl. rewrite Hu. repeat split.
    intros y [<- | Hy]; [assumption | now apply Hp].
Qed.

Lemma NoDup_app_middle {A : Type} (a b c : list A) :
  NoDup (a ++ b ++ c) -> NoDup (a ++ c).
Proof.
  induction a as [|x a IH]; simpl.
  - apply NoDup_app_remove_l.
  - intros H. inversion H as [|? ? Hni Hnd]; subst.
    constructor; [|now apply IH].
    intros Hx. apply Hni. apply in_app_or in Hx.
    apply in_or_app. destruct Hx; [now left | right].
    apply in_or_app. now right.
Qed.

Lemma NoDup_insert_middle {A : Type} (a c : list A) (e : A) :
  NoDup (a ++ c) -> ~ In e (a ++ c) -> NoDup (a ++ e :: c).
Proof.
  induction a as [|x a IH]; simpl; intros Hnd Hni.
  - now constructor.
  - inversion Hnd as [|? ? Hx Hnd']; subst. constructor.
    + intros H. apply in_app_or in H. destruct H as [H | [H | H]].
      * apply Hx. apply in_or_app. now left.
      * apply Hni. now left.
      * apply Hx. apply in_or_app. now right.
    + apply IH; [assumption|]. intros H. apply Hni. now right.
Qed.

Lemma in_correos (e : string) (cs : list Cliente) :
  In e (correos cs) ->
  exists x, In x cs /\ c_correo x = Str e /\ e <> "".
Proof.
  unfold correos. rewrite in_flat_map. intros [x [Hx He]].
  exists x. split; [assumption|].
  destruct (c_correo x) as [| |e']; try contradiction.
  destruct (e' =? "") eqn:E0; [contradiction|].
  destruct He as [<- | []]. split; [reflexivity|].
  now apply String.eqb_neq.
Qed.

Lemma correos_app (a b : list Cliente) :
  correos (a ++ b) = (correos a ++ correos b)%list.
Proof. unfold correos. apply flat_map_app. Qed.

Lemma correos_cons (x : Cliente) (l : list Cliente) :
  correos (x :: l) = (correos [x] ++ correos l)%list.
Proof. unfold correos. simpl. now rewrite app_nil_r. Qed.

(** X16. Edits keep e-mails unique: in a collection where [_id]s are
    unique and no two clients hold the same non-empty e-mail, a successful
    [editar_cliente] leaves a collection with the same [_id]s in which
    still no two clients hold the same non-empty e-mail. *)
Theorem editar_cliente_mantiene_correos (id : string) (u : ClientePayload)
        (cu : CurrentUser) (db db' : DB) (m : string) :
  NoDup (map c_oid (collection_clients db)) ->
  NoDup (correos (collection_clients db)) ->
  editar_cliente id u cu db = (Ok m, db') ->
  NoDup (correos (collection_clients db'))
  /\ map c_oid (collection_clients db') = map c_oid (collection_clients db).
Proof.
  intros Hoid Hcor H.
  destruct (editar_cliente_inv _ _ _ _ _ _ H) as [c [Hc [Hv ->]]].
  cbn [collection_clients set_clients].
  destruct (find_one_some_of_match (fun x => (c_oid x =? c_oid c)%N)
              (collection_clients db) c Hc (N.eqb_refl _)) as [d Hd].
  destruct (update_one_split _ (set_update_data u) _ _ Hd)
    as [pre [post [El [Hpre Hup]]]].
  rewrite Hup, El in *. clear Hup.
  assert (Hdoid : c_oid d = c_oid c).
  { apply find_some in Hd. destruct Hd as [_ Hd]. now apply N.eqb_eq. }
  split.
  2:{ rewrite !map_app. simpl. reflexivity. }
  assert (Hothers : forall x, In x (pre ++ post) -> c_oid x <> c_oid c).
  { intros x Hx Heq. rewrite map_app in Hoid. simpl in Hoid.
    apply NoDup_remove_2 in Hoid. apply Hoid.
    rewrite <- map_app. rewrite Hdoid, <- Heq. now apply in_map. }
  rewrite !correos_app in *.
  rewrite (correos_cons d post) in Hcor.
  rewrite (correos_cons (set_update_data u d) post).
  destruct (p_correo u) as [e|] eqn:Ee.
  - destruct (String.eqb_spec e "") as [-> | Hne].
    + replace (correos [set_update_data u d]) with (@nil string).
      * simpl. now apply NoDup_app_middle in Hcor.
      * unfold correos, set_update_data. simpl. now rewrite Ee.
    + replace (correos [set_update_data u d]) with [e].
      2:{ unfold correos, set_update_data. simpl. rewrite Ee.
          apply String.eqb_neq in Hne. now rewrite Hne. }
      simpl. apply NoDup_insert_middle;
        [now apply NoDup_app_middle in Hcor|].
      rewrite <- correos_app. intros Hin.
      apply in_correos in Hin. destruct Hin as [x [Hx [Hxe _]]].
      rewrite verificar_eq in Hv. cbn [fst] in Hv.
      assert (Ht : truthy (Some e) = true).
      { simpl. apply String.eqb_neq in Hne. now rewrite Hne. }
      rewrite Ht in Hv. cbn [negb andb] in Hv. rewrite El in Hv.
      match type of Hv with
      | Ok ?a = Ok None => assert (Hv' : a = None) by congruence
      end.
      clear Hv. rename Hv' into Hv.
      assert (Hxin : In x (pre ++ d :: post)).
      { apply in_app_or in Hx. apply in_or_app.
        destruct Hx; [now left | right; now right]. }
      pose proof (find_none _ _ Hv x Hxin) as Hn. cbv beta in Hn.
      rewrite (excluido_otro c x (Hothers x Hx)) in Hn.
      unfold comparte_contacto in Hn.
      rewrite Ht, Hxe in Hn. simpl in Hn. rewrite String.eqb_refl in Hn.
      discriminate Hn.
  - replace (correos [set_update_data u d]) with (correos [d]);
      [assumption|].
    unfold correos, set_update_data. simpl. now rewrite Ee.
Qed.

End CorreosUnicos.

Section CorreosUnicosEjemplo.
Import Clientes Props Alcance Ejemplos.

Lemma editar_cliente_mantiene_correos_witness :
  let u := mkPayload "Ada L." (Some "ada@nuevo.co") None None in
  let db' := snd (editar_cliente "CL-00002" u super_admin db2) in
  NoDup (correos (collection_clients db'))
  /\ map c_oid (collection_clients db') = map c_oid (collection_clients db2).
Proof.
  intros u db'.
  apply (editar_cliente_mantiene_correos "CL-00002" u super_admin db2 db'
           "Cliente actualizado").
  - simpl. repeat constructor; simpl; intuition discriminate.
  - simpl. repeat constructor; simpl; intuition discriminate.
  - vm_compute. reflexivity.
Defined.

End CorreosUnicosEjemplo.

(* ===================================================================== *)
(** ** Further properties: the scope of services *)
(* ===================================================================== *)

Section ServiciosAlcance.
Import Servicios ServiciosAdmin Alcance AlcanceServicios.
Context {ext : Externals}.

Lemma resolver_franquicia_eq (cu : CurrentUser) (db : DB) :
  (if truthy (cu_franquicia_id cu)
   then ret (cu_franquicia_id cu)
   else _get_franquicia_id_de_sede (cu_sede_id cu)) db
  = (Ok (franquicia_del_llamante cu db), db).
Proof.
  unfold franquicia_del_llamante, py_or.
  destruct (truthy (cu_franquicia_id cu)); [reflexivity|].
  apply get_franquicia_eq.
Qed.

Lemma matches_build_sede_query (sede franquicia : option string)
      (s : Servicio) :
  matches regex_search_i (_build_sede_query sede franquicia) s = true
  <-> visible_para sede franquicia s.
Proof.
  unfold _build_sede_query, visible_para, sin_sede.
  destruct (truthy franquicia) eqn:Ef;
    cbn [matches existsb app doc_str servicio_document String.eqb
         Ascii.eqb Bool.eqb];
    rewrite ?orb_false_r, ?orb_true_iff.
  - split.
    + intros [Hn | [Hn | [Hs | Hf]]].
      * left. destruct (sv_sede_id s); try discriminate; now left.
      * left. destruct (sv_sede_id s); try discriminate; [now left|now right].
      * destruct sede as [S|]; simpl in Hs.
        -- right; left. exists S. split; [reflexivity|].
           destruct (sv_sede_id s) as [| |t]; try discriminate.
           simpl in Hs. apply String.eqb_eq in Hs. now subst.
        -- left. destruct (sv_sede_id s); try discriminate;
             [now left|now right].
      * right; right. destruct franquicia as [F|]; [|discriminate Ef].
        exists F. split; [reflexivity|]. split.
        -- intros ->. discriminate Ef.
        -- destruct (sv_franquicia_id s) as [| |t]; try discriminate.
           simpl in Hf. apply String.eqb_eq in Hf. now subst.
    + intros [[Hn | Hn] | [[S [-> Hs]] | [F [-> [_ Hf]]]]].
      * left. now rewrite Hn.
      * right; left. now rewrite Hn.
      * right; right; left. rewrite Hs. simpl. apply String.eqb_refl.
      * right; right; right. rewrite Hf. simpl. apply String.eqb_refl.
  - split.
    + intros [Hn | [Hn | Hs]].
      * left. destruct (sv_sede_id s); try discriminate; now left.
      * left. destruct (sv_sede_id s); try discriminate; [now left|now right].
      * destruct sede as [S|]; simpl in Hs.
        -- right; left. exists S. split; [reflexivity|].
           destruct (sv_sede_id s) as [| |t]; try discriminate.
           simpl in Hs. apply String.eqb_eq in Hs. now subst.
        -- left. destruct (sv_sede_id s); try discriminate;
             [now left|now right].
    + intros [[Hn | Hn] | [[S [-> Hs]] | [F [-> [Hne Hf]]]]].
      * left. now rewrite Hn.
      * right; left. now rewrite Hn.
      * right; right. rewrite Hs. simpl. apply String.eqb_refl.
      * exfalso. simpl in Ef. apply negb_false_iff in Ef.
        apply String.eqb_eq in Ef. contradiction.
Qed.

(** The listing an admin_sede is served, as a filter of the collection. *)
Lemma listar_servicios_admin_sede (activo : option bool) (cu : CurrentUser)
      (db : DB) :
  rol cu = "admin_sede" ->
  listar_servicios activo cu db
  = (Ok (find_many
           (matches regex_search_i
              (match activo with
               | Some a =>
                   QAnd [_build_sede_query (cu_sede_id cu)
                           (franquicia_del_llamante cu db);
                         QBool "activo" a]
               | None => _build_sede_query (cu_sede_id cu)
                           (franquicia_del_llamante cu db)
               end))
           (collection_servicios db)), db).
Proof.
  intros Hr. unfold listar_servicios. rewrite Hr. simpl String.eqb. cbv iota.
  erewrite bind_ok.
  2:{ erewrite bind_ok; [|apply resolver_franquicia_eq]. reflexivity. }
  reflexivity.
Qed.

Lemma matches_con_activo (activo : option bool) (q : query) (s : Servicio) :
  matches regex_search_i
    (match activo with
     | Some a => QAnd [q; QBool "activo" a]
     | None => q
     end) s = true
  <-> matches regex_search_i q s = true /\ cumple_activo activo s.
Proof.
  unfold cumple_activo. destruct activo as [a|].
  - cbn [matches forallb doc_bool servicio_document String.eqb Ascii.eqb
         Bool.eqb].
    rewrite andb_true_r, andb_true_iff. split.
    + intros [Hq Ha]. split; [assumption|].
      intros a' E. injection E as <-. now apply Bool.eqb_prop.
    + intros [Hq Ha]. split; [assumption|].
      rewrite (Ha a eq_refl). apply Bool.eqb_reflx.
  - split; [intros Hq; split; [assumption | discriminate] | tauto].
Qed.

(** X17. What an admin_sede is listed: exactly the stored services that are
    bound to no site, or bound to the caller's site, or tagged with the
    franchise resolved for the caller, and that meet the [activo] parameter
    when it is given.  The store is left as it was. *)
Theorem listado_de_servicios_acotado (activo : option bool)
        (cu : CurrentUser) (db db' : DB) (l : list Servicio) :
  rol cu = "admin_sede" ->
  listar_servicios activo cu db = (Ok l, db') ->
  db' = db
  /\ forall s,
       In s l
       <-> In s (collection_servicios db)
           /\ visible_para (cu_sede_id cu) (franquicia_del_llamante cu db) s
           /\ cumple_activo activo s.
Proof.
  intros Hr H. rewrite (listar_servicios_admin_sede _ _ _ Hr) in H.
  injection H as <- <-. split; [reflexivity|].
  intros s. unfold find_many. rewrite filter_In.
  rewrite matches_con_activo, matches_build_sede_query. tauto.
Qed.

(** What a successful [crear_servicio] has stored. *)
Lemma crear_servicio_inv (p : ServicioPayload) (cu : CurrentUser)
      (db db' : DB) (r : ServicioCreado) :
  crear_servicio p cu db = (Ok r, db') ->
  let sede := if rol cu =? "admin_sede" then cu_sede_id cu
              else sp_sede_id p in
  let franquicia :=
    if rol cu =? "admin_sede"
    then (if truthy (franquicia_de_sede (cu_sede_id cu) db)
          then franquicia_de_sede (cu_sede_id cu) db
          else sp_franquicia_id p)
    else sp_franquicia_id p in
  let data := mkServicio (sc_servicio_id r) (sp_nombre p) true
                         (store sede) (store franquicia) in
  (rol cu = "super_admin" \/ rol cu = "admin_sede")
  /\ sc_sede_id r = sede
  /\ sc_franquicia_id r = franquicia
  /\ alcance r = alcance_de sede franquicia
  /\ collection_servicios db' = insert_one data (collection_servicios db)
  /\ collection_locales db' = collection_locales db.
Proof.
  intros H. unfold crear_servicio in H.
  apply bind_inv in H. destruct H as [x1 [d1 [H1 H]]].
  apply raise_if_ok in H1. destruct H1 as [Hrol ->].
  apply bind_inv in H. destruct H as [sid [d2 [H2 H]]].
  unfold read in H2. injection H2 as <- <-.
  apply bind_inv in H. destruct H as [scope [d3 [H3 H]]].
  assert (Hs : scope
               = ((if rol cu =? "admin_sede" then cu_sede_id cu
                   else sp_sede_id p),
                  (if rol cu =? "admin_sede"
                   then (if truthy (franquicia_de_sede (cu_sede_id cu) db)
                         then franquicia_de_sede (cu_sede_id cu) db
                         else sp_franquicia_id p)
                   else sp_franquicia_id p))
               /\ d3 = db).
  { destruct (rol cu =? "admin_sede").
    - apply bind_inv in H3. destruct H3 as [fr [d4 [H4 H3]]].
      unfold _get_franquicia_id_de_sede in H4.
      rewrite get_franquicia_eq in H4. injection H4 as <- <-.
      unfold ret in H3. injection H3 as <- <-. now split.
    - unfold ret in H3. injection H3 as <- <-. now split. }
  destruct Hs as [-> ->]. cbn [fst snd] in H.
  apply bind_inv in H. destruct H as [oid [d5 [H5 H]]].
  unfold read in H5. injection H5 as <- <-.
  apply bind_inv in H. destruct H as [x6 [d6 [H6 H]]].
  unfold write in H6. injection H6 as _ <-.
  unfold ret in H. injection H as <- <-.
  cbn [sc_sede_id sc_franquicia_id alcance sc_servicio_id
       collection_servicios collection_locales].
  repeat split.
  unfold Clientes.in_list in Hrol. simpl in Hrol.
  apply negb_false_iff in Hrol. rewrite orb_false_r in Hrol.
  apply orb_true_iff in Hrol.
  destruct Hrol as [E | E]; apply String.eqb_eq in E; auto.
Qed.

Lemma in_insert_one {A : Type} (x : A) (c : list A) : In x (insert_one x c).
Proof. unfold insert_one. apply in_or_app. right. now left. Qed.

Lemma franquicia_del_llamante_ext (cu : CurrentUser) (db db' : DB) :
  collection_locales db' = collection_locales db ->
  franquicia_del_llamante cu db' = franquicia_del_llamante cu db.
Proof.
  intros E. unfold franquicia_del_llamante, franquicia_de_sede. now rewrite E.
Qed.

(** X18. An admin_sede creates services for the caller's own site only:
    whatever site the payload names, the stored service carries the
    caller's site, and the franchise of that site when it has one.  The
    service is then listed to its creator, and to every admin_sede for whom
    the same franchise is resolved. *)
Theorem servicio_de_sede_se_lista (p : ServicioPayload)
        (cu cu2 : CurrentUser) (db db' : DB) (r : ServicioCreado)
        (activo : option bool) :
  rol cu = "admin_sede" ->
  rol cu2 = "admin_sede" ->
  activo <> Some false ->
  crear_servicio p cu db = (Ok r, db') ->
  cu_sede_id cu2 = cu_sede_id cu
  \/ (truthy (franquicia_de_sede (cu_sede_id cu) db) = true
      /\ franquicia_del_llamante cu2 db
         = franquicia_de_sede (cu_sede_id cu) db) ->
  sc_sede_id r = cu_sede_id cu
  /\ (truthy (franquicia_de_sede (cu_sede_id cu) db) = true ->
      sc_franquicia_id r = franquicia_de_sede (cu_sede_id cu) db)
  /\ exists l s,
       listar_servicios activo cu2 db' = (Ok l, db')
       /\ In s l
       /\ sv_servicio_id s = sc_servicio_id r
       /\ sv_nombre s = sp_nombre p
       /\ sv_sede_id s = store (cu_sede_id cu).
Proof.
  intros Hr Hr2 Hact H Hcu2.
  apply crear_servicio_inv in H. rewrite Hr in H. simpl String.eqb in H.
  cbv zeta iota in H. destruct H as [_ [Hs [Hf [_ [Hc Hl]]]]].
  split; [assumption|]. split.
  { intros Ht. now rewrite Ht in Hf. }
  match type of Hc with
  | _ = insert_one ?d _ => set (data := d) in *
  end.
  eexists. exists data.
  split; [apply (listar_servicios_admin_sede _ _ _ Hr2)|].
  split; [|split; [reflexivity | split; reflexivity]].
  unfold find_many. apply filter_In. split.
  { rewrite Hc. apply in_insert_one. }
  apply matches_con_activo. split.
  - apply matches_build_sede_query.
    rewrite (franquicia_del_llamante_ext cu2 db db' Hl).
    unfold visible_para, sin_sede, data. cbn [sv_sede_id sv_franquicia_id].
    destruct Hcu2 as [E | [Ht E]].
    + rewrite E. destruct (cu_sede_id cu) as [S|].
      * right; left. now exists S.
      * left. now right.
    + right; right. rewrite E, Ht.
      destruct (franquicia_de_sede (cu_sede_id cu) db) as [F|];
        [|discriminate Ht].
      exists F. split; [reflexivity|]. split; [|reflexivity].
      intros ->. discriminate Ht.
  - intros a Ea. unfold data. cbn [sv_activo]. destruct a; [reflexivity|].
    now subst activo.
Qed.

(** X19. A service stored without a site is listed to every caller,
    whatever franchise it is tagged with: when a super_admin creates a
    service whose payload names no site, every later listing that does not
    ask for inactive services contains it, for a caller of any role, site
    and franchise. *)
Theorem servicio_sin_sede_visible_para_todos (p : ServicioPayload)
        (cu cu2 : CurrentUser) (db db' : DB) (r : ServicioCreado)
        (activo : option bool) :
  rol cu = "super_admin" ->
  sp_sede_id p = None ->
  activo <> Some false ->
  crear_servicio p cu db = (Ok r, db') ->
  sc_sede_id r = None
  /\ sc_franquicia_id r = sp_franquicia_id p
  /\ alcance r = (if truthy (sp_franquicia_id p) then "franquicia"
                  else "global")
  /\ exists l s,
       listar_servicios activo cu2 db' = (Ok l, db')
       /\ In s l
       /\ sv_servicio_id s = sc_servicio_id r
       /\ sv_franquicia_id s = store (sp_franquicia_id p).
Proof.
  intros Hr Hp Hact H.
  apply crear_servicio_inv in H. rewrite Hr, Hp in H. simpl String.eqb in H.
  cbv zeta iota in H. destruct H as [_ [Hs [Hf [Ha [Hc Hl]]]]].
  split; [assumption|]. split; [assumption|]. split.
  { rewrite Ha. unfold alcance_de. simpl truthy. simpl negb.
    rewrite andb_true_r. now destruct (truthy (sp_franquicia_id p)). }
  set (data := mkServicio (sc_servicio_id r) (sp_nombre p) true
                          (store None) (store (sp_franquicia_id p))) in *.
  assert (Hin : In data (collection_servicios db')).
  { rewrite Hc. apply in_insert_one. }
  assert (Hact' : cumple_activo activo data).
  { intros a Ea. unfold data. cbn [sv_activo]. destruct a; [reflexivity|].
    now subst activo. }
  destruct (String.eqb_spec (rol cu2) "admin_sede") as [E2 | E2].
  - eexists. exists data.
    split; [apply (listar_servicios_admin_sede _ _ _ E2)|].
    split; [|split; reflexivity].
    unfold find_many. apply filter_In. split; [exact Hin|].
    apply matches_con_activo. split; [|exact Hact'].
    apply matches_build_sede_query. left. right. reflexivity.
  - apply String.eqb_neq in E2. eexists. exists data. split.
    { unfold listar_servicios. rewrite E2.
      erewrite bind_ok; [|reflexivity]. reflexivity. }
    split; [|split; reflexivity].
    unfold find_many. apply filter_In. split; [exact Hin|].
    destruct activo as [[|]|]; [reflexivity | contradiction | reflexivity].
Qed.

End ServiciosAlcance.

Section ServiciosAlcanceEjemplos.
Import Servicios ServiciosAdmin Alcance AlcanceServicios Ejemplos.

Lemma listado_de_servicios_acotado_witness :
  db2 = db2
  /\ forall s,
       In s [servicio_fr2]
       <-> In s (collection_servicios db2)
           /\ visible_para (cu_sede_id admin_sd1)
                           (franquicia_del_llamante admin_sd1 db2) s
           /\ cumple_activo None s.
Proof.
  exact (listado_de_servicios_acotado None admin_sd1 db2 db2 [servicio_fr2]
           eq_refl eq_refl).
Defined.

Lemma servicio_de_sede_se_lista_witness :
  let p := mkServicioPayload "Peinado" (Some "SD-9") None in
  let r := mkServicioCreado "CL-00077" "65f0c0ffee00000000000077"
                            (Some "SD-1") (Some "FR-1") "local" in
  let db' := snd (crear_servicio p admin_sd1 db2) in
  sc_sede_id r = cu_sede_id admin_sd1
  /\ (truthy (franquicia_de_sede (cu_sede_id admin_sd1) db2) = true ->
      sc_franquicia_id r = franquicia_de_sede (cu_sede_id admin_sd1) db2)
  /\ exists l s,
       listar_servicios None admin_sd1 db' = (Ok l, db')
       /\ In s l
       /\ sv_servicio_id s = sc_servicio_id r
       /\ sv_nombre s = sp_nombre p
       /\ sv_sede_id s = store (cu_sede_id admin_sd1).
Proof.
  intros p r db'.
  apply (servicio_de_sede_se_lista p admin_sd1 admin_sd1 db2 db' r None).
  - reflexivity.
  - reflexivity.
  - discriminate.
  - vm_compute. reflexivity.
  - left. reflexivity.
Defined.

Lemma servicio_sin_sede_visible_para_todos_witness :
  let p := mkServicioPayload "Manicure" None (Some "FR-2") in
  let r := mkServicioCreado "CL-00077" "65f0c0ffee00000000000077"
                            None (Some "FR-2") "franquicia" in
  let db' := snd (crear_servicio p super_admin db2) in
  sc_sede_id r = None
  /\ sc_franquicia_id r = sp_franquicia_id p
  /\ alcance r = (if truthy (sp_franquicia_id p) then "franquicia"
                  else "global")
  /\ exists l s,
       listar_servicios (Some true) admin_sd1 db' = (Ok l, db')
       /\ In s l
       /\ sv_servicio_id s = sc_servicio_id r
       /\ sv_franquicia_id s = store (sp_franquicia_id p).
Proof.
  intros p r db'.
  apply (servicio_sin_sede_visible_para_todos p super_admin admin_sd1 db2 db'
           r (Some true)).
  - reflexivity.
  - reflexivity.
  - discriminate.
  - vm_compute. reflexivity.
Defined.

End ServiciosAlcanceEjemplos.

(* ===================================================================== *)
(** ** Further properties: the dashboard's window and its sales *)
(* ===================================================================== *)

Section DashboardDias.
Import Dashboard Props Ventanas.
Context {uni : Unicode}.

Lemma dia_de_rango (a b t : Z) :
  (a * DAY <= t <= b * DAY + (DAY - 1))%Z <-> (a <= dia_de t <= b)%Z.
Proof.
  unfold dia_de.
  pose proof (Z.div_mod t DAY) as Hd.
  pose proof (Z.mod_pos_bound t DAY) as Hm.
  unfold DAY in *.
  assert (Hd' := Hd ltac:(discriminate)). assert (Hm' := Hm ltac:(lia)).
  clear Hd Hm. lia.
Qed.

Lemma days_entre (a b : Z) :
  (days (b * DAY + (DAY - 1) - a * DAY) + 1 = b - a + 1)%Z.
Proof.
  unfold days. f_equal. symmetry.
  apply (Z.div_unique _ _ _ (DAY - 1)); unfold DAY; lia.
Qed.

Lemma ymd2ord_dia (y m d : Z) :
  (ymd2ord y m d = ymd2ord y m 1 + (d - 1))%Z.
Proof. unfold ymd2ord. lia. Qed.

(** The windows of the fixed periods, in whole days. *)
Lemma get_date_range_fijo (now : Now) (period : string)
      (sd ed : option string) (a b : datetime) :
  period <> "custom" ->
  get_date_range now period sd ed = Return (a, b) ->
  b = (hoy now * DAY + (DAY - 1))%Z
  /\ exists n,
       a = ((hoy now - n + 1) * DAY)%Z
       /\ (period = "today" /\ n = 1
           \/ period = "last_7_days" /\ n = 7
           \/ period = "last_30_days" /\ n = 30
           \/ period = "month" /\ n = day now)%Z.
Proof.
  intros Hc. unfold get_date_range, hoy.
  apply String.eqb_neq in Hc. rewrite Hc.
  rewrite !mk_datetime_start, mk_datetime_end. unfold timedelta.
  destruct (String.eqb_spec period "today") as [-> | _].
  { intros E. injection E as <- <-. split; [reflexivity|].
    exists 1%Z. split; [f_equal; lia | auto]. }
  destruct (String.eqb_spec period "last_7_days") as [-> | _].
  { intros E. injection E as <- <-. split; [reflexivity|].
    exists 7%Z. split; [unfold DAY; lia | auto]. }
  destruct (String.eqb_spec period "last_30_days") as [-> | _].
  { intros E. injection E as <- <-. split; [reflexivity|].
    exists 30%Z. split; [unfold DAY; lia | auto 6]. }
  destruct (String.eqb_spec period "month") as [-> | _]; [|discriminate].
  intros E. injection E as <- <-. split; [reflexivity|].
  exists (day now). split; [|auto 6].
  rewrite (ymd2ord_dia (year now) (month now) (day now)). f_equal. lia.
Qed.

(** The window of a custom period whose dates parse. *)
Lemma get_date_range_custom (now : Now) (s e : string)
      (y m d y' m' d' : Z) (a b : datetime) :
  strptime s = Parsed y m d ->
  strptime e = Parsed y' m' d' ->
  get_date_range now "custom" (Some s) (Some e) = Return (a, b) ->
  a = (ymd2ord y m d * DAY)%Z
  /\ b = (ymd2ord y' m' d' * DAY + (DAY - 1))%Z
  /\ (ymd2ord y m d <= ymd2ord y' m' d' <= ymd2ord y m d + 364)%Z.
Proof.
  intros Hs He. unfold get_date_range. simpl String.eqb. cbv iota.
  rewrite (strptime_truthy _ _ _ _ Hs), (strptime_truthy _ _ _ _ He).
  simpl negb. simpl orb. cbv iota. rewrite Hs, He.
  rewrite mk_datetime_start, mk_datetime_end.
  set (oa := ymd2ord y m d). set (ob := ymd2ord y' m' d').
  destruct (oa * DAY >? ob * DAY + (DAY - 1))%Z eqn:E1; [discriminate|].
  pose proof (days_entre oa ob) as Hd. rewrite Hd.
  destruct (ob - oa + 1 >? 365)%Z eqn:E2; [discriminate|].
  intros E. injection E as <- <-. split; [reflexivity|].
  split; [reflexivity|].
  rewrite Z.gtb_ltb in E1, E2. apply Z.ltb_ge in E1, E2.
  unfold DAY in E1. lia.
Qed.

End DashboardDias.

Section DashboardMas.
Import Dashboard Props Ventanas.
Context {N : Type} `{Numeric N}.
Context {uni : Unicode} {val : Validador}.

Lemma en_ventas_periodo (a b : datetime) (sede : option string)
      (ventas : list (Venta (N := N))) (v : Venta) :
  In v (get_ventas_periodo a b sede ventas)
  <-> In v ventas
      /\ (a <= fecha_pago v <= b)%Z
      /\ (truthy sede = true -> eq_value (v_sede_id v) sede = true).
Proof.
  unfold get_ventas_periodo, find_many. rewrite filter_In.
  rewrite !andb_true_iff, !Z.leb_le.
  destruct (truthy sede); intuition congruence.
Qed.

(** X20. An admin_sede sees the sales of the caller's own site only: a
    successful call was made by a caller with a non-empty site, asked for
    no other site, was answered for that site, and every sale of the
    current and of the comparison period is a stored sale of that site. *)
Theorem dashboard_admin_sede_aislado (now : Now) (period : string)
        (sd ed sede : option string) (cu : CurrentUser)
        (ventas : list (Venta (N := N))) (p : Periodos) :
  rol cu = "admin_sede" ->
  ventas_dashboard now period sd ed sede cu ventas = Ok p ->
  exists S,
    cu_sede_id cu = Some S
    /\ S <> ""
    /\ (truthy sede = true -> sede = Some S)
    /\ sede_consultada p = Some S
    /\ forall v,
         In v (ventas_actuales p) \/ In v (ventas_anteriores p) ->
         In v ventas /\ v_sede_id v = Str S.
Proof.
  intros Hr Hp.
  destruct (ventas_dashboard_inv _ _ _ _ _ _ _ _ Hp)
    as [_ [_ [_ [_ [Hva Hvp]]]]].
  assert (Hg : exists S, cu_sede_id cu = Some S /\ S <> ""
                         /\ (truthy sede = true -> sede = Some S)
                         /\ sede_consultada p = Some S).
  { clear Hva Hvp. unfold ventas_dashboard in Hp.
    destruct (negb (pattern_ok sd && pattern_ok ed)); [discriminate|].
    rewrite Hr in Hp. simpl Clientes.in_list in Hp. simpl negb in Hp.
    simpl String.eqb in Hp. cbv iota zeta in Hp.
    destruct (cu_sede_id cu) as [S|] eqn:Es; [|discriminate Hp].
    destruct (truthy (Some S)) eqn:Et; [|discriminate Hp].
    simpl negb in Hp. cbv iota in Hp.
    destruct (truthy sede && negb (Clientes.option_eqb sede (Some S)))
      eqn:Eg; [discriminate Hp|].
    destruct (get_date_range now period sd ed) as [[a b]|];
      [|discriminate Hp].
    injection Hp as <-. exists S. split; [reflexivity|]. split.
    { intros ->. discriminate Et. }
    split; [|reflexivity].
    intros Hts. rewrite Hts in Eg. simpl in Eg.
    apply negb_false_iff in Eg. now apply option_eqb_eq in Eg. }
  destruct Hg as [S [Es [Hne [Hsede Hsc]]]].
  exists S. do 4 (split; [assumption|]).
  intros v Hv.
  assert (Ht : truthy (Some S) = true).
  { simpl. apply negb_true_iff. now apply String.eqb_neq. }
  assert (Hin : In v ventas /\ eq_value (v_sede_id v) (Some S) = true).
  { destruct Hv as [Hin | Hin];
      [rewrite Hva in Hin | rewrite Hvp in Hin];
      apply en_ventas_periodo in Hin; rewrite Hsc in Hin;
      destruct Hin as [Hin [_ Hse]]; auto. }
  destruct Hin as [Hin He]. split; [assumption|].
  simpl in He. destruct (v_sede_id v) as [| |t]; try discriminate He.
  simpl in He. apply String.eqb_eq in He. now subst.
Qed.

(** X21. The fixed periods are windows of whole days that end with today:
    the window runs from the first instant of its first day to the last
    microsecond of today, and it counts 1 day for "today", 7 for
    "last_7_days", 30 for "last_30_days" and the day of the month for
    "month". *)
Theorem dias_de_periodos_fijos (now : Now) (period : string)
        (sd ed sede : option string) (cu : CurrentUser)
        (ventas : list (Venta (N := N))) (p : Periodos) :
  period <> "custom" ->
  ventas_dashboard now period sd ed sede cu ventas = Ok p ->
  end_date_dt p = (hoy now * DAY + (DAY - 1))%Z
  /\ start_date_dt p = ((hoy now - dias_periodo p + 1) * DAY)%Z
  /\ (period = "today" /\ dias_periodo p = 1
      \/ period = "last_7_days" /\ dias_periodo p = 7
      \/ period = "last_30_days" /\ dias_periodo p = 30
      \/ period = "month" /\ dias_periodo p = day now)%Z.
Proof.
  intros Hc Hp.
  destruct (ventas_dashboard_inv _ _ _ _ _ _ _ _ Hp) as [Hg [Hd _]].
  destruct (get_date_range_fijo _ _ _ _ _ _ Hc Hg) as [Hb [n [Ha Hn]]].
  assert (En : dias_periodo p = n).
  { rewrite Hd, Ha, Hb, days_entre. lia. }
  rewrite En. split; [assumption|]. split; [assumption|].
  exact Hn.
Qed.

(** X22. A custom period covers its two dates as whole days: the window
    counts the days from the start date to the end date, both included,
    between 1 and 365, and the sales of the period are exactly the stored
    sales paid on one of these days, at any time of day, at the site asked
    for when one is. *)
Theorem rango_custom_dias_completos (now : Now) (s e : string)
        (y m d y' m' d' : Z) (sede : option string) (cu : CurrentUser)
        (ventas : list (Venta (N := N))) (p : Periodos) :
  strptime s = Parsed y m d ->
  strptime e = Parsed y' m' d' ->
  ventas_dashboard now "custom" (Some s) (Some e) sede cu ventas = Ok p ->
  dias_periodo p = (ymd2ord y' m' d' - ymd2ord y m d + 1)%Z
  /\ (1 <= dias_periodo p <= 365)%Z
  /\ forall v,
       In v (ventas_actuales p)
       <-> In v ventas
           /\ (ymd2ord y m d <= dia_de (fecha_pago v) <= ymd2ord y' m' d')%Z
           /\ (truthy (sede_consultada p) = true ->
               eq_value (v_sede_id v) (sede_consultada p) = true).
Proof.
  intros Hs He Hp.
  destruct (ventas_dashboard_inv _ _ _ _ _ _ _ _ Hp)
    as [Hg [Hd [_ [_ [Hva _]]]]].
  destruct (get_date_range_custom _ _ _ _ _ _ _ _ _ _ _ Hs He Hg)
    as [Ha [Hb Hab]].
  assert (En : dias_periodo p = (ymd2ord y' m' d' - ymd2ord y m d + 1)%Z).
  { rewrite Hd, Ha, Hb. apply days_entre. }
  split; [assumption|]. split; [lia|].
  intros v. rewrite Hva, en_ventas_periodo, Ha, Hb, dia_de_rango. tauto.
Qed.

End DashboardMas.

Section DashboardMasEjemplos.
Import Dashboard Props Ventanas Ejemplos.

Lemma dashboard_admin_sede_aislado_witness :
  match ventas_dashboard ahora "last_7_days" None None (Some "SD-1")
                         admin_sd1 [venta_ayer; venta_usd] with
  | Ok p =>
      exists S,
        cu_sede_id admin_sd1 = Some S
        /\ S <> ""
        /\ (truthy (Some "SD-1") = true -> Some "SD-1" = Some S)
        /\ sede_consultada p = Some S
        /\ forall v,
             In v (ventas_actuales p) \/ In v (ventas_anteriores p) ->
             In v [venta_ayer; venta_usd] /\ v_sede_id v = Str S
  | Raise _ => False
  end.
Proof.
  destruct (ventas_dashboard ahora "last_7_days" None None (Some "SD-1")
                             admin_sd1 [venta_ayer; venta_usd])
    as [p|x] eqn:E.
  - exact (dashboard_admin_sede_aislado ahora "last_7_days" None None
             (Some "SD-1") admin_sd1 [venta_ayer; venta_usd] p eq_refl E).
  - vm_compute in E. discriminate E.
Defined.

Lemma dias_de_periodos_fijos_witness :
  match ventas_dashboard ahora "month" None None None super_admin
                         [venta_ayer] with
  | Ok p =>
      end_date_dt p = (hoy ahora * DAY + (DAY - 1))%Z
      /\ start_date_dt p = ((hoy ahora - dias_periodo p + 1) * DAY)%Z
      /\ ("month" = "today" /\ dias_periodo p = 1
          \/ "month" = "last_7_days" /\ dias_periodo p = 7
          \/ "month" = "last_30_days" /\ dias_periodo p = 30
          \/ "month" = "month" /\ dias_periodo p = day ahora)%Z
  | Raise _ => False
  end.
Proof.
  destruct (ventas_dashboard ahora "month" None None None super_admin
                             [venta_ayer]) as [p|x] eqn:E.
  - apply (dias_de_periodos_fijos ahora "month" None None None super_admin
             [venta_ayer] p); [discriminate | exact E].
  - vm_compute in E. discriminate E.
Defined.

Lemma rango_custom_dias_completos_witness :
  match ventas_dashboard ahora "custom" (Some "01-01-2024")
                         (Some "02-01-2024") None super_admin
                         [venta_ayer; venta_usd] with
  | Ok p =>
      dias_periodo p = (ymd2ord 2024 1 2 - ymd2ord 2024 1 1 + 1)%Z
      /\ (1 <= dias_periodo p <= 365)%Z
      /\ forall v,
           In v (ventas_actuales p)
           <-> In v [venta_ayer; venta_usd]
               /\ (ymd2ord 2024 1 1 <= dia_de (fecha_pago v)
                   <= ymd2ord 2024 1 2)%Z
               /\ (truthy (sede_consultada p) = true ->
                   eq_value (v_sede_id v) (sede_consultada p) = true)
  | Raise _ => False
  end.
Proof.
  destruct (ventas_dashboard ahora "custom" (Some "01-01-2024")
                             (Some "02-01-2024") None super_admin
                             [venta_ayer; venta_usd]) as [p|x] eqn:E.
  - exact (rango_custom_dias_completos ahora "01-01-2024" "02-01-2024"
             2024 1 1 2024 1 2 None super_admin [venta_ayer; venta_usd] p
             eq_refl eq_refl E).
  - vm_compute in E. discriminate E.
Defined.

End DashboardMasEjemplos.

(* ===================================================================== *)
(** ** Further properties: one bucket per currency *)
(* ===================================================================== *)

Section DictMas.
Import Dashboard.
Context {K V : Type}.
Variable keqb : K -> K -> bool.
Hypothesis keqb_eq : forall a b, keqb a b = true <-> a = b.

Lemma dict_get_some_in (k : K) (v : V) (d : list (K * V)) :
  dict_get keqb k d = Some v -> In (k, v) d.
Proof.
  induction d as [|[k0 v0] d IH]; simpl; [discriminate|].
  destruct (keqb k0 k) eqn:E.
  - intros E'. injection E' as <-. apply keqb_eq in E. subst. now left.
  - intros E'. right. now apply IH.
Qed.

Lemma dict_get_none_iff (k : K) (d : list (K * V)) :
  dict_get keqb k d = None <-> ~ In k (map fst d).
Proof.
  induction d as [|[k0 v0] d IH]; simpl; [tauto|].
  destruct (keqb k0 k) eqn:E.
  - apply keqb_eq in E. subst. split; [discriminate | tauto].
  - rewrite IH. split.
    + intros Hn [E' | Hin]; [|tauto].
      subst. rewrite (keqb_refl keqb keqb_eq) in E. discriminate.
    + tauto.
Qed.

Lemma dict_get_unique (k : K) (v : V) (d : list (K * V)) :
  NoDup (map fst d) -> In (k, v) d -> dict_get keqb k d = Some v.
Proof.
  induction d as [|[k0 v0] d IH]; simpl; [contradiction|].
  intros Hnd [E | Hin].
  - injection E as -> ->. now rewrite (keqb_refl keqb keqb_eq).
  - inversion Hnd as [|? ? Hni Hnd']; subst.
    destruct (keqb k0 k) eqn:E.
    + apply keqb_eq in E. subst. exfalso. apply Hni.
      now apply (in_map fst) in Hin.
    + now apply IH.
Qed.

End DictMas.

Section Cubetas.
Import Dashboard Props.
Context {N : Type} `{Numeric N}.

Lemma procesar_venta_NoDup (d : list (option string * Metricas)) (v : Venta) :
  NoDup (map fst d) -> NoDup (map fst (procesar_venta d v)).
Proof.
  intros Hd. unfold procesar_venta. rewrite dict_update_keys.
  unfold dict_has.
  destruct (dict_get moneda_eqb (moneda_de v) d) eqn:E; [assumption|].
  apply (dict_get_none_iff moneda_eqb option_eqb_eq) in E.
  rewrite map_app. simpl.
  apply NoDup_app; [assumption | repeat constructor; intros [] |].
  intros k Hk [<- | []]. contradiction.
Qed.

Lemma acumulado_NoDup (ventas : list Venta)
      (d : list (option string * Metricas)) :
  NoDup (map fst d) -> NoDup (map fst (fold_left procesar_venta ventas d)).
Proof.
  revert d. induction ventas as [|v ventas IH]; intros d Hd; simpl;
    [assumption|].
  apply IH. now apply procesar_venta_NoDup.
Qed.

Lemma claves_del_resultado (ventas : list (Venta (N := N))) :
  map fst (calcular_metricas_financieras ventas)
  = map fst (fold_left procesar_venta ventas []).
Proof.
  unfold calcular_metricas_financieras. rewrite map_map. reflexivity.
Qed.

Lemma filter_de_moneda_vacio (k : option string)
      (ventas : list (Venta (N := N))) :
  filter (de_moneda k) ventas = []
  <-> ~ exists v, In v ventas /\ moneda_de v = k.
Proof.
  split.
  - intros E [v [Hin Hk]].
    assert (Hf : In v (filter (de_moneda k) ventas)).
    { apply filter_In. split; [assumption|].
      unfold de_moneda. now apply option_eqb_eq. }
    rewrite E in Hf. contradiction.
  - intros Hn. destruct (filter (de_moneda k) ventas) as [|x l] eqn:E;
      [reflexivity|].
    exfalso. apply Hn. exists x.
    assert (Hf : In x (filter (de_moneda k) ventas))
      by (rewrite E; now left).
    apply filter_In in Hf. destruct Hf as [Hin Hk].
    split; [assumption|]. now apply option_eqb_eq.
Qed.

(** X23. One bucket per currency, every sale counted once.  The result of
    [calcular_metricas_financieras] has no two buckets under the same key;
    its keys are exactly the currency keys of the given sales; and the
    bucket of a key counts exactly the sales filed under that key, at least
    one, so that its average ticket is always the rounded quotient of their
    summed totals by their number, and its total the rounded sum. *)
Theorem una_cubeta_por_moneda (ventas : list (Venta (N := N))) :
  NoDup (map fst (calcular_metricas_financieras ventas))
  /\ (forall k,
        In k (map fst (calcular_metricas_financieras ventas))
        <-> exists v, In v ventas /\ moneda_de v = k)
  /\ (forall k m,
        In (k, m) (calcular_metricas_financieras ventas) ->
        let suyas := filter (de_moneda k) ventas in
        cantidad_ventas m = length suyas
        /\ 1 <= cantidad_ventas m
        /\ ventas_totales m = round2 (suma (map total_de suyas))
        /\ ticket_promedio m
           = Some (round2 (div_count (suma (map total_de suyas))
                                     (length suyas)))).
Proof.
  assert (Hnd : NoDup (map fst (calcular_metricas_financieras ventas))).
  { rewrite claves_del_resultado. apply acumulado_NoDup. constructor. }
  assert (Hget : forall k,
             dict_get moneda_eqb k (calcular_metricas_financieras ventas)
             = match filter (de_moneda k) ventas with
               | [] => None
               | l => Some (promediar_y_redondear
                              (acumular l metricas_iniciales))
               end).
  { intros k. unfold calcular_metricas_financieras.
    rewrite (dict_get_map moneda_eqb k promediar_y_redondear).
    rewrite acumulado_get. simpl dict_get.
    now destruct (filter (de_moneda k) ventas). }
  split; [exact Hnd|]. split.
  - intros k.
    pose proof (dict_get_none_iff moneda_eqb option_eqb_eq k
                  (calcular_metricas_financieras ventas)) as Hn.
    pose proof (filter_de_moneda_vacio k ventas) as Hv.
    rewrite Hget in Hn.
    destruct (filter (de_moneda k) ventas) as [|x l] eqn:E.
    + split.
      * intros Hin. exfalso. now apply (proj1 Hn).
      * intros Hex. exfalso. now apply (proj1 Hv).
    + split.
      * intros _. exists x.
        assert (Hf : In x (filter (de_moneda k) ventas))
          by (rewrite E; now left).
        apply filter_In in Hf. destruct Hf as [Hin Hk].
        split; [assumption|]. now apply option_eqb_eq.
      * intros _. specialize (Hget k). rewrite E in Hget.
        apply (dict_get_some_in moneda_eqb option_eqb_eq) in Hget.
        now apply (in_map fst) in Hget.
  - intros k m Hin suyas.
    apply (dict_get_unique moneda_eqb option_eqb_eq _ _ _ Hnd) in Hin.
    rewrite Hget in Hin. fold suyas in Hin.
    destruct suyas as [|x l] eqn:E; [discriminate Hin|].
    destruct (acumular_totales (x :: l) metricas_iniciales) as [E1 E2].
    cbn [cantidad_ventas ventas_totales metricas_iniciales] in E1, E2.
    remember (acumular (x :: l) metricas_iniciales) as M eqn:EM.
    injection Hin as <-.
    unfold promediar_y_redondear.
    cbn [cantidad_ventas ventas_totales ticket_promedio].
    rewrite E1, E2.
    split; [reflexivity|]. split; [simpl; lia|]. split; [reflexivity|].
    reflexivity.
Qed.

End Cubetas.

(* ===================================================================== *)
(** ** Further properties: the data-quality label *)
(* ===================================================================== *)

Section Calidad.
Import Dashboard DashboardAvisos.

(** X24. The quality label follows the number of sales first: no sale
    gives SIN_DATOS, one to four sales give BAJA, and with five sales or
    more a one-day period gives MEDIA and any longer one BUENA; the
    advisory for periods over 90 days never changes the label. *)
Theorem calidad_segun_ventas (n_ventas : nat) (dias_periodo : Z) :
  calidad_datos (advertencias n_ventas dias_periodo)
  = if (n_ventas =? 0)%nat then "SIN_DATOS"
    else if (n_ventas <? 5)%nat then "BAJA"
    else if (dias_periodo =? 1)%Z then "MEDIA"
    else "BUENA".
Proof.
  unfold calidad_datos, advertencias.
  destruct (n_ventas =? 0)%nat, (n_ventas <? 5)%nat,
           (dias_periodo =? 1)%Z, (dias_periodo >? 90)%Z; reflexivity.
Qed.

End Calidad.
